(** * Cognetix Notes: the note lifecycle, query, tag, share and reminder
      controllers of the backend, embedded as pure functions over an explicit
      database state.

    Conventions of the embedding.
    - A JavaScript string is a [string]: a sequence of code units, here
      restricted to the 8-bit range U+0000..U+00FF.
    - An ObjectId is a [nat]; a Date is a [Z] (milliseconds since the epoch);
      [new Date()] / [Date.now()] is the explicit argument [now].
    - The MongoDB collections are lists of documents, in insertion order,
      threaded through every controller as a [Db].
    - A controller returns its HTTP response together with the new [Db]. *)

From Stdlib Require Import String Ascii List ZArith Lia Bool Arith PeanoNat.
From Stdlib Require Import DecimalString.
Import ListNotations.
Open Scope string_scope.
Open Scope nat_scope.

(* ================================================================== *)
(** ** JavaScript strings *)
(* ================================================================== *)

Module JS.

(** WhiteSpace and LineTerminator code units below U+0100: TAB, LF, VT, FF,
    CR, SP and NBSP.  This is the set that [String.prototype.trim] strips
    and that the class [\s] matches. *)
Definition isWhiteSpace (c : ascii) : bool :=
  let n := nat_of_ascii c in
  (n =? 9) || (n =? 10) || (n =? 11) || (n =? 12) || (n =? 13)
  || (n =? 32) || (n =? 160).

Definition isEmpty (s : string) : bool :=
  match s with EmptyString => true | String _ _ => false end.

Fixpoint trimStart (s : string) : string :=
  match s with
  | EmptyString => EmptyString
  | String c s' => if isWhiteSpace c then trimStart s' else s
  end.

Fixpoint trimEnd (s : string) : string :=
  match s with
  | EmptyString => EmptyString
  | String c s' =>
      let t := trimEnd s' in
      if isWhiteSpace c && isEmpty t then EmptyString else String c t
  end.

(** [s.trim()] *)
Definition trim (s : string) : string := trimEnd (trimStart s).

(** [s.split(/\s+/)].  The flag tells whether the code unit before [s]
    belonged to a separator run.  The result is never the empty list: the
    empty string splits into one empty token, a leading or trailing
    separator run leaves an empty token on that side. *)
Fixpoint splitWs (in_sep : bool) (s : string) : list string :=
  match s with
  | EmptyString => [EmptyString]
  | String c s' =>
      if isWhiteSpace c then
        if in_sep then splitWs true s' else EmptyString :: splitWs true s'
      else
        match splitWs false s' with
        | tok :: rest => String c tok :: rest
        | [] => [String c EmptyString]
        end
  end.

Definition split_ws (s : string) : list string := splitWs false s.

(** [word => word.length > 0] *)
Definition nonEmptyWord (w : string) : bool := 0 <? String.length w.

Definition isDigit (c : ascii) : bool :=
  let n := nat_of_ascii c in (48 <=? n) && (n <=? 57).

Definition digitValue (c : ascii) : Z := Z.of_nat (nat_of_ascii c) - 48.

(** The digits at the front of [s], folded into [acc]; [seen] records
    whether a digit was read. *)
Fixpoint parseDigits (s : string) (acc : Z) (seen : bool) : option Z :=
  match s with
  | EmptyString => if seen then Some acc else None
  | String c s' =>
      if isDigit c then parseDigits s' (10 * acc + digitValue c)%Z true
      else if seen then Some acc else None
  end.

(** [parseInt(s, 10)]; [None] is NaN.  Leading white space is skipped, one
    sign is read, then the longest run of decimal digits. *)
Definition parseInt10 (s : string) : option Z :=
  match trimStart s with
  | String "-"%char s' => option_map Z.opp (parseDigits s' 0%Z false)
  | String "+"%char s' => parseDigits s' 0%Z false
  | t => parseDigits t 0%Z false
  end.

End JS.

(** The number of non-empty white-space separated tokens of a string, counted
    as the spec words it: one for every code unit that is not white space and
    that starts the string or follows a white-space code unit. *)
Fixpoint countTokens (prev_ws : bool) (s : string) : nat :=
  match s with
  | EmptyString => 0
  | String c s' =>
      if JS.isWhiteSpace c then countTokens true s'
      else (if prev_ws then 1 else 0) + countTokens false s'
  end.

Definition tokenCount (s : string) : nat := countTokens true s.


(* ================================================================== *)
(** ** Regular expressions, as the store evaluates [$regex] with option [i] *)
(* ================================================================== *)

Module Regex.

(** The modelled fragment: a sequence of single-character atoms (a literal or
    the dot), each with an optional quantifier, between an optional [^] at the
    front and an optional [$] at the end.  Every other construct (classes,
    groups, alternation, escapes, braces, inner anchors, code units above
    U+007F whose case folding depends on the engine build) is reported as
    [Unsupported] and the controllers answer [OutsideModel] for it. *)
Inductive atom : Type :=
| AnyChar
| Lit (c : ascii).

Inductive quant : Type := One | Opt | Star | Plus.

Record regex : Type := mkRegex {
  anchorStart : bool;
  items : list (atom * quant);
  anchorEnd : bool
}.

Inductive compiled : Type :=
| Compiled (r : regex)
| SyntaxError
| Unsupported.

(** Who reads the pattern: the JavaScript [RegExp] constructor, or the
    store's own library (PCRE).  They differ, inside the fragment, on a [+]
    that follows a quantifier: an error for the first, a possessive
    quantifier (not modelled) for the second. *)
Inductive dialect : Type := JavaScript | PCRE.

Definition isQuantifierChar (c : ascii) : bool :=
  let n := nat_of_ascii c in (n =? 42) || (n =? 43) || (n =? 63).

Definition quantOf (c : ascii) : quant :=
  let n := nat_of_ascii c in
  if n =? 42 then Star else if n =? 43 then Plus else Opt.

(** Backslash, brackets, parentheses, braces, bar, caret, dollar, and every
    code unit above U+007F. *)
Definition isOtherSyntax (c : ascii) : bool :=
  let n := nat_of_ascii c in
  (n =? 92) || (n =? 91) || (n =? 93) || (n =? 40) || (n =? 41)
  || (n =? 123) || (n =? 125) || (n =? 124) || (n =? 94) || (n =? 36)
  || (128 <=? n).

(** What the parser has just read: nothing a quantifier can apply to, an
    atom, an atom with its quantifier, or a quantifier made lazy by [?]. *)
Inductive pstate : Type := NoAtom | AfterAtom | AfterQuant | AfterLazy.

(** The items are accumulated in reverse. *)
Fixpoint parseItems (d : dialect) (s : string) (st : pstate)
  (acc : list (atom * quant)) : compiled :=
  match s with
  | EmptyString => Compiled (mkRegex false (rev acc) false)
  | String c s' =>
      if isQuantifierChar c then
        match st, acc with
        | AfterAtom, (a, _) :: acc' =>
            parseItems d s' AfterQuant ((a, quantOf c) :: acc')
        | AfterQuant, _ =>
            if nat_of_ascii c =? 63 then parseItems d s' AfterLazy acc
            else match d with
                 | JavaScript => SyntaxError
                 | PCRE => if nat_of_ascii c =? 43 then Unsupported
                           else SyntaxError
                 end
        | _, _ => SyntaxError
        end
      else if (nat_of_ascii c =? 36) && JS.isEmpty s' then
        Compiled (mkRegex false (rev acc) true)
      else if isOtherSyntax c then Unsupported
      else if nat_of_ascii c =? 46 then
        parseItems d s' AfterAtom ((AnyChar, One) :: acc)
      else parseItems d s' AfterAtom ((Lit c, One) :: acc)
  end.

(** Reading a pattern.  With [JavaScript] this is [new RegExp(pattern)],
    which throws on [SyntaxError]; a pattern it accepts inside the fragment
    means the same to the store. *)
Definition compile (d : dialect) (pattern : string) : compiled :=
  match pattern with
  | String "^"%char s' =>
      match parseItems d s' NoAtom [] with
      | Compiled r => Compiled (mkRegex true (items r) (anchorEnd r))
      | other => other
      end
  | _ => parseItems d pattern NoAtom []
  end.

(** Caseless comparison folds the ASCII letters. *)
Definition fold (c : ascii) : nat :=
  let n := nat_of_ascii c in
  if (97 <=? n) && (n <=? 122) then n - 32 else n.

Definition atomMatches (a : atom) (c : ascii) : bool :=
  match a with
  | AnyChar => negb (nat_of_ascii c =? 10)
  | Lit p => fold p =? fold c
  end.

(** [$] holds at the end of the subject and before a final line feed. *)
Definition atEnd (s : string) : bool :=
  match s with
  | EmptyString => true
  | String c EmptyString => nat_of_ascii c =? 10
  | _ => false
  end.

(** Do the items match a prefix of the subject whose remainder satisfies
    [k]?  All ways of sharing the subject among the quantifiers are tried. *)
Fixpoint matchItems (its : list (atom * quant)) (k : string -> bool)
  : string -> bool :=
  match its with
  | [] => k
  | (a, q) :: rest =>
      let next := matchItems rest k in
      let star :=
        fix star (s : string) : bool :=
          next s ||
          match s with
          | String c s' => atomMatches a c && star s'
          | EmptyString => false
          end in
      match q with
      | One => fun s =>
          match s with
          | String c s' => atomMatches a c && next s'
          | EmptyString => false
          end
      | Opt => fun s =>
          next s ||
          match s with
          | String c s' => atomMatches a c && next s'
          | EmptyString => false
          end
      | Star => star
      | Plus => fun s =>
          match s with
          | String c s' => atomMatches a c && star s'
          | EmptyString => false
          end
      end
  end.

Fixpoint anySuffix (p : string -> bool) (s : string) : bool :=
  p s || match s with
         | EmptyString => false
         | String _ s' => anySuffix p s'
         end.

(** Does the expression match somewhere in the subject? *)
Definition test (r : regex) (s : string) : bool :=
  let k := if anchorEnd r then atEnd else (fun _ => true) in
  if anchorStart r then matchItems (items r) k s
  else anySuffix (matchItems (items r) k) s.

End Regex.

(* ================================================================== *)
(** ** Dates *)
(* ================================================================== *)

Module DateTime.

Local Open Scope Z_scope.

(** A time value: milliseconds since 1970-01-01T00:00Z.  The local time zone
    of the server is taken to be UTC, so local and universal fields agree. *)
Definition Date := Z.

Definition msPerDay : Z := 86400000.

Definition Day (t : Date) : Z := t / msPerDay.
Definition TimeWithinDay (t : Date) : Z := t mod msPerDay.
Definition MakeDate (day time : Z) : Date := day * msPerDay + time.

(** Civil date (year, month 1..12, day 1..31) of a day number, in the
    proleptic Gregorian calendar, by 400-year eras starting on 1 March. *)
Definition civilFromDays (z : Z) : Z * Z * Z :=
  let z := z + 719468 in
  let era := z / 146097 in
  let doe := z - era * 146097 in
  let yoe := (doe - doe / 1460 + doe / 36524 - doe / 146096) / 365 in
  let doy := doe - (365 * yoe + yoe / 4 - yoe / 100) in
  let mp := (5 * doy + 2) / 153 in
  let d := doy - (153 * mp + 2) / 5 + 1 in
  let m := if mp <? 10 then mp + 3 else mp - 9 in
  (yoe + era * 400 + (if m <=? 2 then 1 else 0), m, d).

(** Day number of a civil date; the inverse of [civilFromDays]. *)
Definition daysFromCivil (y m d : Z) : Z :=
  let y := if m <=? 2 then y - 1 else y in
  let era := y / 400 in
  let yoe := y - era * 400 in
  let doy := (153 * (if 2 <? m then m - 3 else m + 9) + 2) / 5 + d - 1 in
  let doe := yoe * 365 + yoe / 4 - yoe / 100 + doy in
  era * 146097 + doe - 719468.

Definition getFullYear (t : Date) : Z :=
  let '(y, _, _) := civilFromDays (Day t) in y.
(** Months count from 0. *)
Definition getMonth (t : Date) : Z :=
  let '(_, m, _) := civilFromDays (Day t) in m - 1.
Definition getDate (t : Date) : Z :=
  let '(_, _, d) := civilFromDays (Day t) in d.

(** MakeDay(year, month, date): the day number of the first of the month,
    months beyond 0..11 carried into the year, plus [date - 1]. *)
Definition MakeDay (year month date : Z) : Z :=
  daysFromCivil (year + month / 12) (month mod 12 + 1) 1 + date - 1.

(** [d.setDate(n)] keeps year and month: it counts from the first day of the
    month of [t], which lies [getDate t - 1] days before [Day t]. *)
Definition setDate (t : Date) (n : Z) : Date :=
  MakeDate (Day t - (getDate t - 1) + n - 1) (TimeWithinDay t).

Definition setMonth (t : Date) (m : Z) : Date :=
  MakeDate (MakeDay (getFullYear t) m (getDate t)) (TimeWithinDay t).

Definition setFullYear (t : Date) (y : Z) : Date :=
  MakeDate (MakeDay y (getMonth t) (getDate t)) (TimeWithinDay t).

End DateTime.

(* ================================================================== *)
(** ** Documents under a schema (the object-document mapper) *)
(* ================================================================== *)

Module Mongoose.

(** The JavaScript values the share and reminder controllers handle. *)
Inductive value : Type :=
| VUndefined
| VNull
| VBool (b : bool)
| VNum (z : Z)
| VNaN
| VStr (s : string)
| VId (n : nat)
| VDate (t : Z)
| VStrs (l : list string).

Definition value_eq_dec : forall a b : value, {a = b} + {a <> b}.
Proof.
  decide equality;
    first [ apply Bool.bool_dec | apply Z.eq_dec | apply string_dec
          | apply Nat.eq_dec | apply list_eq_dec; apply string_dec ].
Defined.

(** A plain object: its own properties in insertion order. *)
Definition obj : Type := list (string * value).

(** [o[k]]: a missing property reads as [undefined]. *)
Fixpoint lookup (o : obj) (k : string) : value :=
  match o with
  | [] => VUndefined
  | (k', v) :: o' => if string_dec k k' then v else lookup o' k
  end.

(** [o[k] = v] *)
Fixpoint assign (o : obj) (k : string) (v : value) : obj :=
  match o with
  | [] => [(k, v)]
  | (k', v') :: o' =>
      if string_dec k k' then (k', v) :: o' else (k', v') :: assign o' k v
  end.

(** ToBoolean *)
Definition truthy (v : value) : bool :=
  match v with
  | VUndefined | VNull | VNaN => false
  | VBool b => b
  | VNum z => negb (z =? 0)%Z
  | VStr s => negb (JS.isEmpty s)
  | VId _ | VDate _ | VStrs _ => true
  end.

(** [v + 1] for the primitive values; objects (ids, dates, arrays), which
    turn into strings first, are left out. *)
Definition addOne (v : value) : option value :=
  match v with
  | VNum z => Some (VNum (z + 1))
  | VUndefined | VNaN => Some VNaN
  | VNull => Some (VNum 1)
  | VBool b => Some (VNum (if b then 2 else 1))
  | VStr s => Some (VStr (s ++ "1"))
  | VId _ | VDate _ | VStrs _ => None
  end.

Inductive ptype : Type := TString | TNumber | TBoolean | TDate | TObjectId.

Inductive pdefault : Type :=
| NoDefault
| Default (v : value)
| DefaultNow.                    (* default: Date.now *)

(** One path of a schema with the options the models use. *)
Record path : Type := mkPath {
  p_name : string;
  p_type : ptype;
  p_required : bool;
  p_default : pdefault;
  p_enum : option (list value);
  p_maxlength : option nat
}.

Definition schema : Type := list path.

Definition casts (ty : ptype) (v : value) : bool :=
  match v, ty with
  | VUndefined, _ | VNull, _ => true
  | VStr _, TString | VNum _, TNumber | VBool _, TBoolean
  | VDate _, TDate | VId _, TObjectId => true
  | _, _ => false
  end.

Definition hasPath (sch : schema) (k : string) : bool :=
  existsb (fun p => if string_dec k (p_name p) then true else false) sch.

(** The paths of a document: those of the schema, its [_id], and the two
    timestamps of [timestamps: true]. *)
Definition isDocPath (sch : schema) (k : string) : bool :=
  hasPath sch k
  || (if string_dec k "_id" then true else false)
  || (if string_dec k "createdAt" then true else false)
  || (if string_dec k "updatedAt" then true else false).

Definition defaultOf (p : path) (now : Z) : value :=
  match p_default p with
  | NoDefault => VUndefined
  | Default v => v
  | DefaultNow => VDate now
  end.

(** [new Model(input)] in strict mode: only the paths of the schema are
    read from the input, a path that is [undefined] takes its default, every
    other property of the input is dropped. *)
Definition construct (sch : schema) (input : obj) (now : Z) : obj :=
  map (fun p =>
         (p_name p,
          match lookup input (p_name p) with
          | VUndefined => defaultOf p now
          | v => v
          end)) sch.

Definition isMember (v : value) (vs : list value) : bool :=
  existsb (fun w => if value_eq_dec v w then true else false) vs.

(** The first failing validator of a path, as its message. *)
Definition validatePath (p : path) (v : value) : option string :=
  if negb (casts (p_type p) v) then
    Some ("Cast failed for path `" ++ p_name p ++ "`")%string
  else if p_required p
          && match v with
             | VUndefined | VNull => true
             | VStr s => JS.isEmpty s
             | _ => false
             end then
    Some ("Path `" ++ p_name p ++ "` is required.")%string
  else
    match v with
    | VUndefined => None
    | _ =>
        if match p_enum p with
           | Some vs => negb (isMember v vs)
           | None => false
           end then
          Some ("Value is not a valid enum value for path `"
                ++ p_name p ++ "`.")%string
        else
          match p_maxlength p, v with
          | Some n, VStr s =>
              if n <? String.length s then
                Some ("Path `" ++ p_name p
                      ++ "` is longer than the maximum allowed length.")%string
              else None
          | _, _ => None
          end
    end.

Fixpoint validate (sch : schema) (fields : obj) : list string :=
  match sch with
  | [] => []
  | p :: sch' =>
      match validatePath p (lookup fields (p_name p)) with
      | Some msg => msg :: validate sch' fields
      | None => validate sch' fields
      end
  end.

(** Properties whose value is [undefined] are not written to the store. *)
Definition defined (o : obj) : obj :=
  filter (fun kv => match snd kv with VUndefined => false | _ => true end) o.

(** [Model.create(input)]: construct, validate, insert with a fresh [_id]
    and both timestamps.  [inl] carries the validation messages. *)
Definition create (sch : schema) (coll : list obj) (id : nat) (input : obj)
  (now : Z) : list string + (obj * list obj) :=
  let fields := construct sch input now in
  match validate sch fields with
  | [] =>
      let doc := (("_id", VId id) :: defined fields
                  ++ [("createdAt", VDate now); ("updatedAt", VDate now)])%list in
      inr (doc, (coll ++ [doc])%list)
  | msgs => inl msgs
  end.

(** A document in memory: the paths it was loaded with, and the properties
    that were set on the object without being paths of the schema. *)
Record document : Type := mkDocument {
  doc_fields : obj;
  doc_adhoc : obj
}.

Definition hydrate (stored : obj) : document := mkDocument stored [].

(** [doc[k]] *)
Definition get (sch : schema) (d : document) (k : string) : value :=
  if isDocPath sch k then lookup (doc_fields d) k else lookup (doc_adhoc d) k.

(** [doc[k] = v] *)
Definition set (sch : schema) (d : document) (k : string) (v : value)
  : document :=
  if isDocPath sch k then mkDocument (assign (doc_fields d) k v) (doc_adhoc d)
  else mkDocument (doc_fields d) (assign (doc_adhoc d) k v).

Definition obj_eq_dec : forall a b : obj, {a = b} + {a <> b}.
Proof.
  apply list_eq_dec. intros [k v] [k' v'].
  destruct (string_dec k k') as [->|Hk];
    [destruct (value_eq_dec v v') as [->|Hv]|];
    [left; reflexivity | right; congruence | right; congruence].
Defined.

Definition idOf (o : obj) : value := lookup o "_id".

Fixpoint replaceById (coll : list obj) (doc : obj) : list obj :=
  match coll with
  | [] => []
  | o :: coll' =>
      if value_eq_dec (idOf o) (idOf doc) then doc :: coll'
      else o :: replaceById coll' doc
  end.

(** The paths that [save] validates: the required ones and those whose
    value is no longer the stored one. *)
Definition pathsToValidate (sch : schema) (orig fields : obj) : schema :=
  filter (fun p =>
            p_required p
            || (if value_eq_dec (lookup fields (p_name p))
                     (lookup orig (p_name p))
                then false else true)) sch.

(** [doc.save()] of a loaded document [d] whose stored form is [orig]: the
    required and the modified paths are validated; when a path changed, the
    document is written back with a new [updatedAt].  Properties outside
    the schema are never written. *)
Definition save (sch : schema) (coll : list obj) (orig : obj) (d : document)
  (now : Z) : list string + (document * list obj) :=
  match validate (pathsToValidate sch orig (doc_fields d)) (doc_fields d) with
  | [] =>
      if obj_eq_dec (doc_fields d) orig then inr (d, coll)
      else
        let fields := assign (doc_fields d) "updatedAt" (VDate now) in
        inr (mkDocument fields (doc_adhoc d), replaceById coll fields)
  | msgs => inl msgs
  end.

(** The filter of a query, as conjunction of equalities.  With
    [strictQuery] the conditions on properties outside the schema are
    removed before the query is sent. *)
Definition castFilter (sch : schema) (strictQuery : bool) (filter : obj)
  : obj :=
  if strictQuery then
    List.filter (fun kv => isDocPath sch (fst kv)) filter
  else filter.

Definition matchesAll (filter : obj) (o : obj) : bool :=
  forallb (fun kv =>
             if value_eq_dec (lookup o (fst kv)) (snd kv) then true
             else false) filter.

(** [Model.findOne(filter)] *)
Definition findOne (sch : schema) (strictQuery : bool) (coll : list obj)
  (filter : obj) : option obj :=
  find (matchesAll (castFilter sch strictQuery filter)) coll.

(** [JSON.stringify] of a document: its paths only. *)
Definition toJSON (d : document) : obj := doc_fields d.

End Mongoose.

(* ================================================================== *)
(** ** The collections *)
(* ================================================================== *)

Definition ObjectId : Type := nat.
Definition Date : Type := DateTime.Date.

(** models/Note.js, [attachmentSchema] *)
Record Attachment : Type := mkAttachment {
  filename : string;
  originalName : string;
  mimeType : string;
  size : Z;
  url : string;
  publicId : option string
}.

(** models/Note.js, [noteSchema], with [_id] and the two timestamps. *)
Record Note : Type := mkNote {
  note_id : ObjectId;
  title : string;
  content : string;
  contentType : string;
  user : ObjectId;
  folder : option ObjectId;
  tags : list ObjectId;
  isPinned : bool;
  isArchived : bool;
  isTrashed : bool;
  trashedAt : option Date;
  color : string;
  attachments : list Attachment;
  wordCount : nat;
  characterCount : nat;
  order : Z;
  isFavorite : bool;
  lastViewedAt : option Date;
  viewCount : nat;
  createdAt : Date;
  updatedAt : Date
}.

Definition set_title (v : string) (n : Note) : Note :=
  mkNote (note_id n) v (content n) (contentType n) (user n) (folder n)
    (tags n) (isPinned n) (isArchived n) (isTrashed n) (trashedAt n)
    (color n) (attachments n) (wordCount n) (characterCount n) (order n)
    (isFavorite n) (lastViewedAt n) (viewCount n) (createdAt n)
    (updatedAt n).

Definition set_content (v : string) (n : Note) : Note :=
  mkNote (note_id n) (title n) v (contentType n) (user n) (folder n)
    (tags n) (isPinned n) (isArchived n) (isTrashed n) (trashedAt n)
    (color n) (attachments n) (wordCount n) (characterCount n) (order n)
    (isFavorite n) (lastViewedAt n) (viewCount n) (createdAt n)
    (updatedAt n).

Definition set_contentType (v : string) (n : Note) : Note :=
  mkNote (note_id n) (title n) (content n) v (user n) (folder n) (tags n)
    (isPinned n) (isArchived n) (isTrashed n) (trashedAt n) (color n)
    (attachments n) (wordCount n) (characterCount n) (order n)
    (isFavorite n) (lastViewedAt n) (viewCount n) (createdAt n)
    (updatedAt n).

Definition set_folder (v : option ObjectId) (n : Note) : Note :=
  mkNote (note_id n) (title n) (content n) (contentType n) (user n) v
    (tags n) (isPinned n) (isArchived n) (isTrashed n) (trashedAt n)
    (color n) (attachments n) (wordCount n) (characterCount n) (order n)
    (isFavorite n) (lastViewedAt n) (viewCount n) (createdAt n)
    (updatedAt n).

Definition set_tags (v : list ObjectId) (n : Note) : Note :=
  mkNote (note_id n) (title n) (content n) (contentType n) (user n)
    (folder n) v (isPinned n) (isArchived n) (isTrashed n) (trashedAt n)
    (color n) (attachments n) (wordCount n) (characterCount n) (order n)
    (isFavorite n) (lastViewedAt n) (viewCount n) (createdAt n)
    (updatedAt n).

Definition set_isPinned (v : bool) (n : Note) : Note :=
  mkNote (note_id n) (title n) (content n) (contentType n) (user n)
    (folder n) (tags n) v (isArchived n) (isTrashed n) (trashedAt n)
    (color n) (attachments n) (wordCount n) (characterCount n) (order n)
    (isFavorite n) (lastViewedAt n) (viewCount n) (createdAt n)
    (updatedAt n).

Definition set_isArchived (v : bool) (n : Note) : Note :=
  mkNote (note_id n) (title n) (content n) (contentType n) (user n)
    (folder n) (tags n) (isPinned n) v (isTrashed n) (trashedAt n) (color n)
    (attachments n) (wordCount n) (characterCount n) (order n)
    (isFavorite n) (lastViewedAt n) (viewCount n) (createdAt n)
    (updatedAt n).

Definition set_isTrashed (v : bool) (n : Note) : Note :=
  mkNote (note_id n) (title n) (content n) (contentType n) (user n)
    (folder n) (tags n) (isPinned n) (isArchived n) v (trashedAt n)
    (color n) (attachments n) (wordCount n) (characterCount n) (order n)
    (isFavorite n) (lastViewedAt n) (viewCount n) (createdAt n)
    (updatedAt n).

Definition set_trashedAt (v : option Date) (n : Note) : Note :=
  mkNote (note_id n) (title n) (content n) (contentType n) (user n)
    (folder n) (tags n) (isPinned n) (isArchived n) (isTrashed n) v
    (color n) (attachments n) (wordCount n) (characterCount n) (order n)
    (isFavorite n) (lastViewedAt n) (viewCount n) (createdAt n)
    (updatedAt n).

Definition set_color (v : string) (n : Note) : Note :=
  mkNote (note_id n) (title n) (content n) (contentType n) (user n)
    (folder n) (tags n) (isPinned n) (isArchived n) (isTrashed n)
    (trashedAt n) v (attachments n) (wordCount n) (characterCount n)
    (order n) (isFavorite n) (lastViewedAt n) (viewCount n) (createdAt n)
    (updatedAt n).

Definition set_wordCount (v : nat) (n : Note) : Note :=
  mkNote (note_id n) (title n) (content n) (contentType n) (user n)
    (folder n) (tags n) (isPinned n) (isArchived n) (isTrashed n)
    (trashedAt n) (color n) (attachments n) v (characterCount n) (order n)
    (isFavorite n) (lastViewedAt n) (viewCount n) (createdAt n)
    (updatedAt n).

Definition set_characterCount (v : nat) (n : Note) : Note :=
  mkNote (note_id n) (title n) (content n) (contentType n) (user n)
    (folder n) (tags n) (isPinned n) (isArchived n) (isTrashed n)
    (trashedAt n) (color n) (attachments n) (wordCount n) v (order n)
    (isFavorite n) (lastViewedAt n) (viewCount n) (createdAt n)
    (updatedAt n).

Definition set_isFavorite (v : bool) (n : Note) : Note :=
  mkNote (note_id n) (title n) (content n) (contentType n) (user n)
    (folder n) (tags n) (isPinned n) (isArchived n) (isTrashed n)
    (trashedAt n) (color n) (attachments n) (wordCount n) (characterCount n)
    (order n) v (lastViewedAt n) (viewCount n) (createdAt n) (updatedAt n).

Definition set_lastViewedAt (v : option Date) (n : Note) : Note :=
  mkNote (note_id n) (title n) (content n) (contentType n) (user n)
    (folder n) (tags n) (isPinned n) (isArchived n) (isTrashed n)
    (trashedAt n) (color n) (attachments n) (wordCount n) (characterCount n)
    (order n) (isFavorite n) v (viewCount n) (createdAt n) (updatedAt n).

Definition set_viewCount (v : nat) (n : Note) : Note :=
  mkNote (note_id n) (title n) (content n) (contentType n) (user n)
    (folder n) (tags n) (isPinned n) (isArchived n) (isTrashed n)
    (trashedAt n) (color n) (attachments n) (wordCount n) (characterCount n)
    (order n) (isFavorite n) (lastViewedAt n) v (createdAt n) (updatedAt n).

Definition set_updatedAt (v : Date) (n : Note) : Note :=
  mkNote (note_id n) (title n) (content n) (contentType n) (user n)
    (folder n) (tags n) (isPinned n) (isArchived n) (isTrashed n)
    (trashedAt n) (color n) (attachments n) (wordCount n) (characterCount n)
    (order n) (isFavorite n) (lastViewedAt n) (viewCount n) (createdAt n) v.

Definition Attachment_eq_dec : forall a b : Attachment, {a = b} + {a <> b}.
Proof.
  decide equality;
    first [ apply string_dec | apply Z.eq_dec
          | decide equality; apply string_dec ].
Defined.

Definition Note_eq_dec : forall a b : Note, {a = b} + {a <> b}.
Proof.
  decide equality;
    first [ apply Nat.eq_dec | apply string_dec | apply Z.eq_dec
          | apply Bool.bool_dec
          | apply list_eq_dec; first [apply Nat.eq_dec | apply Attachment_eq_dec]
          | decide equality; first [apply Nat.eq_dec | apply Z.eq_dec] ].
Defined.

(** models/Tag.js, [tagSchema] *)
Record Tag : Type := mkTag {
  tag_id : ObjectId;
  tag_name : string;
  tag_color : string;
  tag_user : ObjectId;
  tag_createdAt : Date;
  tag_updatedAt : Date
}.

(** models/Folder.js, [folderSchema] *)
Record Folder : Type := mkFolder {
  folder_id : ObjectId;
  folder_name : string;
  folder_icon : string;
  folder_color : string;
  folder_user : ObjectId;
  folder_parent : option ObjectId;
  folder_order : Z;
  folder_createdAt : Date;
  folder_updatedAt : Date
}.

(** The database: one list per collection, and the next fresh ObjectId. *)
Record Db : Type := mkDb {
  db_notes : list Note;
  db_tags : list Tag;
  db_folders : list Folder;
  db_shares : list Mongoose.obj;
  db_reminders : list Mongoose.obj;
  db_nextId : ObjectId
}.

Definition with_notes (db : Db) (ns : list Note) : Db :=
  mkDb ns (db_tags db) (db_folders db) (db_shares db) (db_reminders db)
    (db_nextId db).

Definition with_tags (db : Db) (ts : list Tag) : Db :=
  mkDb (db_notes db) ts (db_folders db) (db_shares db) (db_reminders db)
    (db_nextId db).

Definition with_shares (db : Db) (ss : list Mongoose.obj) : Db :=
  mkDb (db_notes db) (db_tags db) (db_folders db) ss (db_reminders db)
    (db_nextId db).

Definition with_reminders (db : Db) (rs : list Mongoose.obj) : Db :=
  mkDb (db_notes db) (db_tags db) (db_folders db) (db_shares db) rs
    (db_nextId db).

Definition with_nextId (db : Db) (i : ObjectId) : Db :=
  mkDb (db_notes db) (db_tags db) (db_folders db) (db_shares db)
    (db_reminders db) i.

(** What a controller sends: [res.status(code).json({success: true, message,
    ...body})], [res.status(code).json({success: false, message})], or, for
    an input the embedding does not cover, no statement at all. *)
Inductive Response (A : Type) : Type :=
| Success (code : nat) (message : string) (body : A)
| Failure (code : nat) (message : string)
| OutsideModel.

Arguments Success {A} code message body.
Arguments Failure {A} code message.
Arguments OutsideModel {A}.

(** An answer whose JSON carries no [message]. *)
Definition noMessage : string := EmptyString.

(* ================================================================== *)
(** ** models/Note.js *)
(* ================================================================== *)

Definition optList {A : Type} (o : option A) : list A :=
  match o with Some a => [a] | None => [] end.

Definition isHexDigit (c : ascii) : bool :=
  let n := nat_of_ascii c in
  ((48 <=? n) && (n <=? 57)) || ((65 <=? n) && (n <=? 70))
  || ((97 <=? n) && (n <=? 102)).

Fixpoint allChars (p : ascii -> bool) (s : string) : bool :=
  match s with
  | EmptyString => true
  | String c s' => p c && allChars p s'
  end.

(** [/^#([A-Fa-f0-9]{6}|[A-Fa-f0-9]{3})$/.test(s)] *)
Definition isHexColor (s : string) : bool :=
  match s with
  | String "#"%char r =>
      ((String.length r =? 6) || (String.length r =? 3))
      && allChars isHexDigit r
  | _ => false
  end.

(** The validators of a path stop at the first failure. *)
Definition validateTitle (t : string) : option string :=
  if JS.isEmpty t then Some "Note title is required"
  else if String.length t <? 1 then Some "Title must be at least 1 character"
  else if 200 <? String.length t then
    Some "Title cannot exceed 200 characters"
  else None.

Definition validateContent (c : string) : option string :=
  if JS.isEmpty c then Some "Note content is required"
  else if String.length c <? 1 then
    Some "Content must be at least 1 character"
  else if (50000 <? Z.of_nat (String.length c))%Z then
    Some "Content cannot exceed 50000 characters"
  else None.

Definition contentTypes : list string := ["plain"; "markdown"; "richtext"].

Definition validateContentType (t : string) : option string :=
  if existsb (String.eqb t) contentTypes then None
  else Some ("`" ++ t
             ++ "` is not a valid enum value for path `contentType`.")%string.

(** The [match] validator lets the empty string through. *)
Definition validateColor (c : string) : option string :=
  if JS.isEmpty c || isHexColor c then None else Some "Invalid color format".

Definition validateNote (n : Note) : list string :=
  (optList (validateTitle (title n)) ++ optList (validateContent (content n))
   ++ optList (validateContentType (contentType n))
   ++ optList (validateColor (color n)))%list.

(** [this.content.trim().split(/\s+/).filter(word => word.length > 0).length] *)
Definition countWords (c : string) : nat :=
  List.length (filter JS.nonEmptyWord (JS.split_ws (JS.trim c))).

(** [noteSchema.pre('save')]; the argument is [this.isModified('content')]. *)
Definition preSave (contentModified : bool) (n : Note) : Note :=
  if contentModified then
    set_wordCount (countWords (content n))
      (set_characterCount (String.length (content n)) n)
  else n.

Fixpoint replaceNote (ns : list Note) (n : Note) : list Note :=
  match ns with
  | [] => []
  | m :: ns' =>
      if note_id m =? note_id n then n :: ns' else m :: replaceNote ns' n
  end.

(** [note.save()] of a loaded note: [orig] is the note as it was read, [cur]
    the object after the assignments.  Validation covers the required paths
    (title, content) and the modified ones; then the pre-save hook runs;
    when a path changed the note is written back with a new [updatedAt].
    [inl] is the ValidationError that [save] throws. *)
Definition Note_save (db : Db) (orig cur : Note) (now : Date)
  : list string + (Note * Db) :=
  let msgs :=
    (optList (validateTitle (title cur))
     ++ optList (validateContent (content cur))
     ++ (if String.eqb (contentType orig) (contentType cur) then []
         else optList (validateContentType (contentType cur)))
     ++ (if String.eqb (color orig) (color cur) then []
         else optList (validateColor (color cur))))%list in
  match msgs with
  | [] =>
      let cur1 := preSave (negb (String.eqb (content orig) (content cur))) cur in
      if Note_eq_dec cur1 orig then inr (cur1, db)
      else
        let cur2 := set_updatedAt now cur1 in
        inr (cur2, with_notes db (replaceNote (db_notes db) cur2))
  | _ => inl msgs
  end.

(** [Note.create({title, content, user, isPinned, color, tags, folder,
    contentType})]: the setters trim title and content, the other paths take
    their defaults, the document is validated, the pre-save hook runs on the
    new content, and the note is inserted under a fresh [_id]. *)
Definition Note_create (db : Db) (title content : string) (user : ObjectId)
  (isPinned : bool) (color : string) (tags : list ObjectId)
  (folder : option ObjectId) (contentType : string) (now : Date)
  : list string + (Note * Db) :=
  let n := mkNote (db_nextId db) (JS.trim title) (JS.trim content) contentType
             user folder tags isPinned false false None color [] 0 0 0%Z
             false None 0 now now in
  match validateNote n with
  | [] =>
      let n' := preSave true n in
      inr (n', mkDb (db_notes db ++ [n'])%list (db_tags db) (db_folders db)
                 (db_shares db) (db_reminders db) (S (db_nextId db)))
  | msgs => inl msgs
  end.

(** The conditions the controllers put into a query on notes. *)
Record NoteFilter : Type := mkFilter {
  f_id : option ObjectId;
  f_user : option ObjectId;
  f_isTrashed : option bool;
  f_isArchived : option bool;
  f_or : option (string -> bool);        (* title or content matches *)
  f_tags : option ObjectId;              (* the array holds the id *)
  f_folder : option (option ObjectId);
  f_color : option string;
  f_isFavorite : option bool
}.

Definition cond {A : Type} (c : option A) (p : A -> bool) : bool :=
  match c with None => true | Some a => p a end.

Definition optId_eqb (a b : option ObjectId) : bool :=
  match a, b with
  | None, None => true
  | Some x, Some y => x =? y
  | _, _ => false
  end.

Definition matchesNote (f : NoteFilter) (n : Note) : bool :=
  cond (f_id f) (fun i => note_id n =? i)
  && cond (f_user f) (fun u => user n =? u)
  && cond (f_isTrashed f) (fun b => Bool.eqb (isTrashed n) b)
  && cond (f_isArchived f) (fun b => Bool.eqb (isArchived n) b)
  && cond (f_or f) (fun test => test (title n) || test (content n))
  && cond (f_tags f) (fun t => existsb (Nat.eqb t) (tags n))
  && cond (f_folder f) (fun fo => optId_eqb (folder n) fo)
  && cond (f_color f) (fun c => String.eqb (color n) c)
  && cond (f_isFavorite f) (fun b => Bool.eqb (isFavorite n) b).

Definition emptyFilter : NoteFilter :=
  mkFilter None None None None None None None None None.

(** [{ _id: noteId, user: userId }] *)
Definition byIdAndUser (i u : ObjectId) : NoteFilter :=
  mkFilter (Some i) (Some u) None None None None None None None.

(** [{ _id: noteId, user: userId, isTrashed: b }] *)
Definition byIdUserTrashed (i u : ObjectId) (b : bool) : NoteFilter :=
  mkFilter (Some i) (Some u) (Some b) None None None None None None.

(** [Note.find(filter)] and [Note.findOne(filter)], in collection order. *)
Definition Note_find (db : Db) (f : NoteFilter) : list Note :=
  filter (matchesNote f) (db_notes db).

Definition Note_findOne (db : Db) (f : NoteFilter) : option Note :=
  find (matchesNote f) (db_notes db).

(** Sort keys.  A path that is an array (tags, attachments) or that no note
    has gives no key: the sort leaves the order to the other keys. *)
Inductive key : Type :=
| KNull
| KNum (z : Z)
| KStr (s : string)
| KBool (b : bool)
| KDate (t : Z)
| KId (i : nat).

Definition optDateKey (o : option Date) : key :=
  match o with Some t => KDate t | None => KNull end.

Definition fieldKey (f : string) (n : Note) : option key :=
  if String.eqb f "_id" then Some (KId (note_id n))
  else if String.eqb f "title" then Some (KStr (title n))
  else if String.eqb f "content" then Some (KStr (content n))
  else if String.eqb f "contentType" then Some (KStr (contentType n))
  else if String.eqb f "user" then Some (KId (user n))
  else if String.eqb f "folder" then
    Some (match folder n with Some i => KId i | None => KNull end)
  else if String.eqb f "isPinned" then Some (KBool (isPinned n))
  else if String.eqb f "isArchived" then Some (KBool (isArchived n))
  else if String.eqb f "isTrashed" then Some (KBool (isTrashed n))
  else if String.eqb f "trashedAt" then Some (optDateKey (trashedAt n))
  else if String.eqb f "color" then Some (KStr (color n))
  else if String.eqb f "wordCount" then Some (KNum (Z.of_nat (wordCount n)))
  else if String.eqb f "characterCount" then
    Some (KNum (Z.of_nat (characterCount n)))
  else if String.eqb f "order" then Some (KNum (order n))
  else if String.eqb f "isFavorite" then Some (KBool (isFavorite n))
  else if String.eqb f "lastViewedAt" then Some (optDateKey (lastViewedAt n))
  else if String.eqb f "viewCount" then Some (KNum (Z.of_nat (viewCount n)))
  else if String.eqb f "createdAt" then Some (KDate (createdAt n))
  else if String.eqb f "updatedAt" then Some (KDate (updatedAt n))
  else None.

Definition compareKey (a b : key) : comparison :=
  match a, b with
  | KNull, KNull => Eq
  | KNull, _ => Lt
  | _, KNull => Gt
  | KNum x, KNum y => Z.compare x y
  | KStr x, KStr y => String.compare x y
  | KBool x, KBool y =>
      match x, y with
      | false, true => Lt
      | true, false => Gt
      | _, _ => Eq
      end
  | KDate x, KDate y => Z.compare x y
  | KId x, KId y => Nat.compare x y
  | _, _ => Eq
  end.

(** A sort specification: the keys of the sort object in order, [true] for
    descending ([-1]). *)
Definition sortSpec : Type := list (string * bool).

Fixpoint compareNotes (spec : sortSpec) (a b : Note) : comparison :=
  match spec with
  | [] => Eq
  | (f, desc) :: spec' =>
      let c := match fieldKey f a, fieldKey f b with
               | Some x, Some y => compareKey x y
               | _, _ => Eq
               end in
      match (if desc then CompOpp c else c) with
      | Eq => compareNotes spec' a b
      | r => r
      end
  end.

(** Insertion before the first larger note: notes that compare equal keep
    the order of the collection. *)
Fixpoint insertNote (spec : sortSpec) (x : Note) (l : list Note) : list Note :=
  match l with
  | [] => [x]
  | y :: l' =>
      match compareNotes spec x y with
      | Gt => y :: insertNote spec x l'
      | _ => x :: l
      end
  end.

Definition sortNotes (spec : sortSpec) (l : list Note) : list Note :=
  fold_right (insertNote spec) [] l.

(** [.skip(skip).limit(limit)] on the sorted result; [None] for [skip] is
    NaN.  The store rejects a skip that is NaN or negative; a limit of 0 is
    no limit, a negative limit is taken by its absolute value. *)
Definition skipLimit (skip : option Z) (limit : Z) (l : list Note)
  : option (list Note) :=
  match skip with
  | None => None
  | Some k =>
      if (k <? 0)%Z then None
      else
        let rest := List.skipn (Z.to_nat k) l in
        Some (if (limit =? 0)%Z then rest
              else List.firstn (Z.to_nat (Z.abs limit)) rest)
  end.

(** [noteSchema.statics.findTrashed], with the controller's second
    [.sort({ deletedAt: -1 })] merged into the sort object. *)
Definition findTrashed (db : Db) (userId : ObjectId) : list Note :=
  sortNotes [("trashedAt", true); ("deletedAt", true)]
    (Note_find db
       (mkFilter None (Some userId) (Some true) None None None None None
          None)).

(** [noteSchema.statics.findArchived], with the controller's
    [.sort({ archivedAt: -1 })] merged in. *)
Definition findArchived (db : Db) (userId : ObjectId) : list Note :=
  sortNotes [("updatedAt", true); ("archivedAt", true)]
    (Note_find db
       (mkFilter None (Some userId) (Some false) (Some true) None None None
          None None)).

(** [noteSchema.methods.moveToTrash], before its [save]. *)
Definition moveToTrash (n : Note) (now : Date) : Note :=
  set_trashedAt (Some now) (set_isTrashed true n).

(** [noteSchema.methods.restore], before its [save]. *)
Definition restore (n : Note) : Note :=
  set_trashedAt None (set_isTrashed false n).

(** [noteSchema.methods.archive], before its [save]. *)
Definition archive (n : Note) : Note := set_isArchived true n.

(* ================================================================== *)
(** ** controllers/noteController.js *)
(* ================================================================== *)

(** [x || d] on an optional string: the empty string is falsy too. *)
Definition orDefault (o : option string) (d : string) : string :=
  match o with
  | Some s => if JS.isEmpty s then d else s
  | None => d
  end.

(** [Tag.find({ _id: { $in: tags }, user })] *)
Definition validTags (db : Db) (owner : ObjectId) (tags : list ObjectId)
  : list Tag :=
  filter (fun t => existsb (Nat.eqb (tag_id t)) tags && (tag_user t =? owner))
    (db_tags db).

(** [tags && tags.length > 0] and the lengths differ. *)
Definition tagsRejected (db : Db) (owner : ObjectId)
  (tags : option (list ObjectId)) : bool :=
  match tags with
  | Some (t :: ts) =>
      negb (List.length (validTags db owner (t :: ts))
            =? List.length (t :: ts))
  | _ => false
  end.

(** [Folder.findOne({ _id: folder, user })] finds nothing. *)
Definition folderRejected (db : Db) (owner : ObjectId) (folder : ObjectId)
  : bool :=
  negb (existsb (fun f => (folder_id f =? folder) && (folder_user f =? owner))
          (db_folders db)).

(** [req.body] of POST /api/notes.  A property that is absent is [None]; ids
    are well-formed ObjectIds. *)
Record CreateNoteBody : Type := mkCreateNoteBody {
  cb_title : option string;
  cb_content : option string;
  cb_isPinned : option bool;
  cb_color : option string;
  cb_tags : option (list ObjectId);
  cb_folder : option ObjectId;
  cb_contentType : option string
}.

(** The populate calls, which replace the tag and folder ids of the answer
    by summaries, are left out of all controllers. *)
Definition createNote (db : Db) (owner : ObjectId) (body : CreateNoteBody)
  (now : Date) : Response Note * Db :=
  match cb_title body, cb_content body with
  | Some title, Some content =>
      if JS.isEmpty title || JS.isEmpty content then
        (Failure 400 "Please provide title and content for the note", db)
      else if tagsRejected db owner (cb_tags body) then
        (Failure 400 "One or more invalid tags", db)
      else if match cb_folder body with
              | Some f => folderRejected db owner f
              | None => false
              end then
        (Failure 400 "Invalid folder", db)
      else
        match Note_create db (JS.trim title) (JS.trim content) owner
                (match cb_isPinned body with Some b => b | None => false end)
                (orDefault (cb_color body) "#ffffff")
                (match cb_tags body with Some ts => ts | None => [] end)
                (cb_folder body)
                (orDefault (cb_contentType body) "plain") now with
        | inr (note, db') => (Success 201 "Note created successfully" note, db')
        | inl msgs => (Failure 400 (String.concat ". " msgs), db)
        end
  | _, _ => (Failure 400 "Please provide title and content for the note", db)
  end.

(** [req.query] of GET /api/notes; every parameter is a string when present,
    the tag and the folder a well-formed ObjectId.  [qn_folder = Some None] is
    the string 'null'. *)
Record NotesQuery : Type := mkNotesQuery {
  qn_page : option string;
  qn_limit : option string;
  qn_search : option string;
  qn_sortBy : option string;
  qn_sortOrder : option string;
  qn_tag : option ObjectId;
  qn_folder : option (option ObjectId);
  qn_color : option string;
  qn_favorite : option string
}.

Record NotesPage : Type := mkNotesPage {
  np_count : nat;
  np_total : nat;
  np_page : Z;
  np_pages : option Z;       (* [None]: not a finite number *)
  np_notes : list Note
}.

(** [Math.ceil(total / limitNum)] *)
Definition pageCount (total : nat) (limitNum : Z) : option Z :=
  if (limitNum =? 0)%Z then None
  else Some (- ((- Z.of_nat total) / limitNum))%Z.

(** The sort object of [getNotes]: [isPinned: -1] first, then [sortBy]; when
    [sortBy] is isPinned itself the second assignment replaces the first. *)
Definition notesSort (sortBy sortOrder : string) : sortSpec :=
  let desc := negb (String.eqb sortOrder "asc") in
  if String.eqb sortBy "isPinned" then [("isPinned", desc)]
  else [("isPinned", true); (sortBy, desc)].

Definition colorCond (c : option string) : option string :=
  match c with
  | Some s => if JS.isEmpty s then None else Some s
  | None => None
  end.

(** The query object of [getNotes]; [text] is the test that the search
    string stands for. *)
Definition notesFilter (owner : ObjectId) (q : NotesQuery)
  (text : option (string -> bool)) : NoteFilter :=
  mkFilter None (Some owner) (Some false) (Some false) text (qn_tag q)
    (qn_folder q) (colorCond (qn_color q))
    (match qn_favorite q with
     | Some s => if String.eqb s "true" then Some true else None
     | None => None
     end).

Definition getNotes (db : Db) (owner : ObjectId) (q : NotesQuery)
  : Response NotesPage :=
  let page := match qn_page q with Some s => s | None => "1" end in
  let limit := match qn_limit q with Some s => s | None => "20" end in
  let sortBy := match qn_sortBy q with Some s => s | None => "updatedAt" end in
  let sortOrder := match qn_sortOrder q with Some s => s | None => "desc" end in
  let pageNum := JS.parseInt10 page in
  let limitNum := JS.parseInt10 limit in
  let skip := match pageNum, limitNum with
              | Some p, Some l => Some ((p - 1) * l)%Z
              | _, _ => None
              end in
  match pageNum, limitNum, skip with
  | Some p, Some l, Some k =>
      (* a negative skip is rejected whatever the filter is *)
      if (k <? 0)%Z then Failure 500 "Server error fetching notes"
      else
        let run (text : option (string -> bool)) :=
          let matching := Note_find db (notesFilter owner q text) in
          match skipLimit skip l (sortNotes (notesSort sortBy sortOrder)
                                    matching) with
          | Some notes =>
              Success 200 noMessage
                (mkNotesPage (List.length notes) (List.length matching) p
                   (pageCount (List.length matching) l) notes)
          | None => Failure 500 "Server error fetching notes"
          end in
        match qn_search q with
        | Some (String c s) =>
            match Regex.compile Regex.PCRE (String c s) with
            | Regex.Compiled r => run (Some (Regex.test r))
            | Regex.SyntaxError => Failure 500 "Server error fetching notes"
            | Regex.Unsupported => OutsideModel
            end
        | _ => run None
        end
  | _, _, _ => Failure 500 "Server error fetching notes"
  end.

(** [req.body] of PUT /api/notes/:id.  [ub_folder = Some None] is the
    string 'null' (or null). *)
Record UpdateNoteBody : Type := mkUpdateNoteBody {
  ub_title : option string;
  ub_content : option string;
  ub_isPinned : option bool;
  ub_color : option string;
  ub_tags : option (list ObjectId);
  ub_folder : option (option ObjectId);
  ub_contentType : option string;
  ub_isFavorite : option bool
}.

(** [updateFields] *)
Definition updateFields (body : UpdateNoteBody) : UpdateNoteBody :=
  mkUpdateNoteBody (option_map JS.trim (ub_title body))
    (option_map JS.trim (ub_content body)) (ub_isPinned body) (ub_color body)
    (ub_tags body) (ub_folder body) (ub_contentType body) (ub_isFavorite body).

(** [Object.keys(updateFields).length === 0] *)
Definition noFields (u : UpdateNoteBody) : bool :=
  match ub_title u, ub_content u, ub_isPinned u, ub_color u, ub_tags u,
        ub_folder u, ub_contentType u, ub_isFavorite u with
  | None, None, None, None, None, None, None, None => true
  | _, _, _, _, _, _, _, _ => false
  end.

Definition applyOpt {A : Type} (o : option A) (set : A -> Note -> Note)
  (n : Note) : Note :=
  match o with Some a => set a n | None => n end.

(** [$set] of the update fields. *)
Definition applyFields (u : UpdateNoteBody) (n : Note) : Note :=
  applyOpt (ub_isFavorite u) set_isFavorite
    (applyOpt (ub_contentType u) set_contentType
       (applyOpt (ub_folder u) set_folder
          (applyOpt (ub_tags u) set_tags
             (applyOpt (ub_color u) set_color
                (applyOpt (ub_isPinned u) set_isPinned
                   (applyOpt (ub_content u) set_content
                      (applyOpt (ub_title u) set_title n))))))).

(** [Note.findByIdAndUpdate(noteId, updateFields, { new: true,
    runValidators: true })]: the validators of the paths in the update run,
    the fields and [updatedAt] are set in the store, the new document is
    returned.  No [save] takes place, so the pre-save hook does not run.
    [inl] is the ValidationError; [inr None] when no note has that id. *)
Definition Note_findByIdAndUpdate (db : Db) (noteId : ObjectId)
  (u : UpdateNoteBody) (now : Date) : list string + (option Note * Db) :=
  let msgs :=
    (match ub_title u with Some t => optList (validateTitle t) | None => [] end
     ++ match ub_content u with
        | Some c => optList (validateContent c)
        | None => []
        end
     ++ match ub_color u with
        | Some c => optList (validateColor c)
        | None => []
        end
     ++ match ub_contentType u with
        | Some t => optList (validateContentType t)
        | None => []
        end)%list in
  match msgs with
  | [] =>
      match Note_findOne db
              (mkFilter (Some noteId) None None None None None None None None)
      with
      | Some n =>
          let n' := set_updatedAt now (applyFields u n) in
          inr (Some n', with_notes db (replaceNote (db_notes db) n'))
      | None => inr (None, db)
      end
  | _ => inl msgs
  end.

Definition updateNote (db : Db) (owner noteId : ObjectId)
  (body : UpdateNoteBody) (now : Date) : Response Note * Db :=
  match Note_findOne db (byIdUserTrashed noteId owner false) with
  | None =>
      (Failure 404
         "Note not found or you do not have permission to update it", db)
  | Some _ =>
      if tagsRejected db owner (ub_tags body) then
        (Failure 400 "One or more invalid tags", db)
      else if match ub_folder body with
              | Some (Some f) => folderRejected db owner f
              | _ => false
              end then
        (Failure 400 "Invalid folder", db)
      else if noFields (updateFields body) then
        (Failure 400 "Please provide at least one field to update", db)
      else
        match Note_findByIdAndUpdate db noteId (updateFields body) now with
        | inr (Some note, db') =>
            (Success 200 "Note updated successfully" note, db')
        | inr (None, _) => (Failure 500 "Server error updating note", db)
        | inl msgs => (Failure 400 (String.concat ". " msgs), db)
        end
  end.

Fixpoint removeNote (ns : list Note) (i : ObjectId) : list Note :=
  match ns with
  | [] => []
  | m :: ns' => if note_id m =? i then ns' else m :: removeNote ns' i
  end.

(** What [deleteNote] answers with: [deletedNote: {id, title}] or [note]. *)
Inductive DeleteBody : Type :=
| DeletedNote (id : ObjectId) (title : string)
| TrashedNote (note : Note).

(** [permanent] is [req.query.permanent]. *)
Definition deleteNote (db : Db) (owner noteId : ObjectId)
  (permanent : option string) (now : Date) : Response DeleteBody * Db :=
  match Note_findOne db (byIdAndUser noteId owner) with
  | None =>
      (Failure 404
         "Note not found or you do not have permission to delete it", db)
  | Some note =>
      if match permanent with
         | Some s => String.eqb s "true"
         | None => false
         end then
        (Success 200 "Note permanently deleted"
           (DeletedNote (note_id note) (title note)),
         with_notes db (removeNote (db_notes db) noteId))
      else
        match Note_save db note (moveToTrash note now) now with
        | inr (note', db') =>
            (Success 200 "Note moved to trash" (TrashedNote note'), db')
        | inl _ => (Failure 500 "Server error deleting note", db)
        end
  end.

Record SearchQuery : Type := mkSearchQuery {
  sq_q : option string;
  sq_tag : option ObjectId;
  sq_folder : option (option ObjectId);
  sq_color : option string
}.

Definition searchNotes (db : Db) (owner : ObjectId) (q : SearchQuery)
  : Response (list Note) :=
  match sq_q q with
  | Some text =>
      if JS.isEmpty text || (String.length (JS.trim text) =? 0) then
        Failure 400 "Please provide a search query"
      else
        match Regex.compile Regex.PCRE text with
        | Regex.Compiled r =>
            Success 200 noMessage
              (sortNotes [("isPinned", true); ("updatedAt", true)]
                 (Note_find db
                    (mkFilter None (Some owner) (Some false) (Some false)
                       (Some (Regex.test r)) (sq_tag q) (sq_folder q)
                       (colorCond (sq_color q)) None)))
        | Regex.SyntaxError => Failure 500 "Server error searching notes"
        | Regex.Unsupported => OutsideModel
        end
  | None => Failure 400 "Please provide a search query"
  end.

Definition getTrashedNotes (db : Db) (owner : ObjectId)
  : Response (list Note) :=
  Success 200 noMessage (findTrashed db owner).

Definition getArchivedNotes (db : Db) (owner : ObjectId)
  : Response (list Note) :=
  Success 200 noMessage (findArchived db owner).

Definition restoreNote (db : Db) (owner noteId : ObjectId) (now : Date)
  : Response Note * Db :=
  match Note_findOne db (byIdUserTrashed noteId owner true) with
  | None => (Failure 404 "Note not found in trash", db)
  | Some note =>
      match Note_save db note (restore note) now with
      | inr (note', db') => (Success 200 "Note restored successfully" note', db')
      | inl _ => (Failure 500 "Server error restoring note", db)
      end
  end.

Definition archiveNote (db : Db) (owner noteId : ObjectId) (now : Date)
  : Response Note * Db :=
  match Note_findOne db (byIdUserTrashed noteId owner false) with
  | None => (Failure 404 "Note not found", db)
  | Some note =>
      match Note_save db note (archive note) now with
      | inr (note', db') =>
          (Success 200 (if isArchived note' then "Note archived"
                        else "Note unarchived") note', db')
      | inl _ => (Failure 500 "Server error archiving note", db)
      end
  end.

(* ================================================================== *)
(** ** controllers/tagController.js and models/Tag.js *)
(* ================================================================== *)

Record CreateTagBody : Type := mkCreateTagBody {
  tb_name : option string;
  tb_color : option string
}.

(** [Tag.create({ name, color, user })]: the setter trims the name; the
    name is required and at most 30 long, the color has the hex format; the
    unique index on (name, user) compares the stored names exactly.  [inl]
    is the error thrown. *)
Definition Tag_create (db : Db) (name : option string) (color : string)
  (owner : ObjectId) (now : Date) : list string + (Tag * Db) :=
  let nm := match name with Some s => JS.trim s | None => EmptyString end in
  let msgs :=
    (optList (if JS.isEmpty nm then Some "Tag name is required"
              else if 30 <? String.length nm then
                Some "Tag name cannot exceed 30 characters"
              else None)
     ++ optList (validateColor color))%list in
  match msgs with
  | [] =>
      if existsb (fun t => String.eqb (tag_name t) nm && (tag_user t =? owner))
           (db_tags db) then
        inl ["E11000 duplicate key error"]
      else
        let tag := mkTag (db_nextId db) nm color owner now now in
        inr (tag, with_nextId (with_tags db (db_tags db ++ [tag])%list)
                    (S (db_nextId db)))
  | _ => inl msgs
  end.

(** The template literal [`^${name}$`]. *)
Definition tagPattern (name : option string) : string :=
  ("^" ++ match name with Some s => s | None => "undefined" end ++ "$")%string.

Definition createTag (db : Db) (owner : ObjectId) (body : CreateTagBody)
  (now : Date) : Response Tag * Db :=
  match Regex.compile Regex.JavaScript (tagPattern (tb_name body)) with
  | Regex.SyntaxError => (Failure 500 "Server error while creating tag", db)
  | Regex.Unsupported => (OutsideModel, db)
  | Regex.Compiled r =>
      match find (fun t => (tag_user t =? owner) && Regex.test r (tag_name t))
              (db_tags db) with
      | Some _ => (Failure 400 "Tag with this name already exists", db)
      | None =>
          match Tag_create db (tb_name body)
                  (orDefault (tb_color body) "#3b82f6") owner now with
          | inr (tag, db') => (Success 201 noMessage tag, db')
          | inl _ => (Failure 500 "Server error while creating tag", db)
          end
      end
  end.

(* ================================================================== *)
(** ** models/SharedNote.js and controllers/shareController.js *)
(* ================================================================== *)

Import Mongoose.

Definition sharedNoteSchema : schema :=
  [ mkPath "note" TObjectId true NoDefault None None;
    mkPath "owner" TObjectId true NoDefault None None;
    mkPath "sharedWith" TObjectId true NoDefault None None;
    mkPath "permission" TString false (Default (VStr "read"))
      (Some [VStr "read"; VStr "edit"]) None;
    mkPath "sharedAt" TDate false DefaultNow None None;
    mkPath "expiresAt" TDate false (Default VNull) None None ].

(** [SharedNote.create(input)], with the unique index on (note,
    sharedWith). *)
Definition SharedNote_create (db : Db) (input : obj) (now : Date)
  : list string + (obj * Db) :=
  let fields := construct sharedNoteSchema input now in
  let sameKey (o : obj) :=
    (if value_eq_dec (lookup o "note") (lookup fields "note")
     then true else false)
    && (if value_eq_dec (lookup o "sharedWith") (lookup fields "sharedWith")
        then true else false) in
  match validate sharedNoteSchema fields with
  | [] =>
      if existsb sameKey (db_shares db) then inl ["E11000 duplicate key error"]
      else
        match create sharedNoteSchema (db_shares db) (db_nextId db) input now
        with
        | inr (doc, coll) =>
            inr (doc, with_nextId (with_shares db coll) (S (db_nextId db)))
        | inl msgs => inl msgs
        end
  | msgs => inl msgs
  end.

Definition hexDigit (n : nat) : ascii :=
  ascii_of_nat (if n <? 10 then 48 + n else 87 + n).

(** [buffer.toString('hex')] *)
Fixpoint toHex (bytes : list ascii) : string :=
  match bytes with
  | [] => EmptyString
  | b :: bs =>
      String (hexDigit (nat_of_ascii b / 16))
        (String (hexDigit (nat_of_ascii b mod 16)) (toHex bs))
  end.

Definition optDate (o : option Date) : value :=
  match o with Some t => VDate t | None => VNull end.

Record ShareLinkBody : Type := mkShareLinkBody {
  sl_shareLink : string;
  sl_share : obj
}.

(** [randomBytes] is what [crypto.randomBytes(32)] returns, [frontendUrl]
    is [process.env.FRONTEND_URL], [expiresAt] the date [req.body.expiresAt]
    parses to when it is given. *)
Definition generateShareLink (db : Db) (owner noteId : ObjectId)
  (expiresAt : option Date) (randomBytes : list ascii)
  (frontendUrl : option string) (now : Date) : Response ShareLinkBody * Db :=
  match Note_findOne db (byIdUserTrashed noteId owner false) with
  | None => (Failure 404 "Note not found", db)
  | Some _ =>
      let shareToken := toHex randomBytes in
      match SharedNote_create db
              [ ("note", VId noteId); ("owner", VId owner);
                ("sharedWith", VNull); ("permission", VStr "read");
                ("shareToken", VStr shareToken);
                ("expiresAt", optDate expiresAt) ] now with
      | inr (share, db') =>
          (Success 201 noMessage
             (mkShareLinkBody
                (orDefault frontendUrl "http://localhost:5173" ++ "/shared/"
                 ++ shareToken)%string share), db')
      | inl _ => (Failure 500 "Server error while generating share link", db)
      end
  end.

Record SharedView : Type := mkSharedView {
  sv_note : value;
  sv_owner : value;
  sv_permission : value;
  sv_viewCount : value
}.

(** [strictQuery] is the setting of the mapper (its default differs between
    major versions). *)
Definition getSharedNoteByToken (strictQuery : bool) (db : Db)
  (token : string) (now : Date) : Response SharedView * Db :=
  match findOne sharedNoteSchema strictQuery (db_shares db)
          [("shareToken", VStr token)] with
  | None => (Failure 404 "Shared note not found", db)
  | Some stored =>
      let share := hydrate stored in
      if truthy (get sharedNoteSchema share "expiresAt")
         && match get sharedNoteSchema share "expiresAt" with
            | VDate e => (e <? now)%Z
            | _ => false
            end then
        (Failure 403 "This share link has expired", db)
      else
        match addOne (get sharedNoteSchema share "viewCount") with
        | None => (OutsideModel, db)
        | Some v =>
            let share1 := set sharedNoteSchema share "viewCount" v in
            match save sharedNoteSchema (db_shares db) stored share1 now with
            | inr (share2, coll) =>
                (Success 200 noMessage
                   (mkSharedView (get sharedNoteSchema share2 "note")
                      (get sharedNoteSchema share2 "owner")
                      (get sharedNoteSchema share2 "permission")
                      (get sharedNoteSchema share2 "viewCount")),
                 with_shares db coll)
            | inl _ =>
                (Failure 500 "Server error while fetching shared note", db)
            end
        end
  end.

(* ================================================================== *)
(** ** models/Reminder.js and controllers/reminderController.js *)
(* ================================================================== *)

Definition reminderSchema : schema :=
  [ mkPath "note" TObjectId true NoDefault None None;
    mkPath "user" TObjectId true NoDefault None None;
    mkPath "reminderDate" TDate true NoDefault None None;
    mkPath "message" TString false NoDefault None (Some 200);
    mkPath "isRecurring" TBoolean false (Default (VBool false)) None None;
    mkPath "recurringType" TString false (Default VNull)
      (Some [VStr "daily"; VStr "weekly"; VStr "monthly"; VStr "yearly";
             VNull]) None;
    mkPath "isCompleted" TBoolean false (Default (VBool false)) None None;
    mkPath "notifiedAt" TDate false (Default VNull) None None ].

Definition Reminder_create (db : Db) (input : obj) (now : Date)
  : list string + (obj * Db) :=
  match create reminderSchema (db_reminders db) (db_nextId db) input now with
  | inr (doc, coll) =>
      inr (doc, with_nextId (with_reminders db coll) (S (db_nextId db)))
  | inl msgs => inl msgs
  end.

(** [calculateNextDate(currentDate, pattern)]; [None] is [null]. *)
Definition calculateNextDate (currentDate : Date) (pattern : string)
  : option Date :=
  let date := currentDate in
  if String.eqb pattern "daily" then
    Some (DateTime.setDate date (DateTime.getDate date + 1))
  else if String.eqb pattern "weekly" then
    Some (DateTime.setDate date (DateTime.getDate date + 7))
  else if String.eqb pattern "biweekly" then
    Some (DateTime.setDate date (DateTime.getDate date + 14))
  else if String.eqb pattern "monthly" then
    Some (DateTime.setMonth date (DateTime.getMonth date + 1))
  else if String.eqb pattern "yearly" then
    Some (DateTime.setFullYear date (DateTime.getFullYear date + 1))
  else None.

Record CreateReminderBody : Type := mkCreateReminderBody {
  rb_noteId : option ObjectId;
  rb_title : option string;
  rb_reminderDate : Date;                (* what the date string parses to *)
  rb_isRecurring : option bool;
  rb_recurringPattern : option string;
  rb_notificationMethods : option (list string)
}.

Definition optStr (o : option string) : value :=
  match o with Some s => VStr s | None => VUndefined end.

Definition createReminder (db : Db) (owner : ObjectId)
  (body : CreateReminderBody) (now : Date) : Response obj * Db :=
  if match rb_noteId body with
     | Some i =>
         match Note_findOne db (byIdUserTrashed i owner false) with
         | Some _ => false
         | None => true
         end
     | None => false
     end then (Failure 404 "Note not found", db)
  else if (rb_reminderDate body <? now)%Z then
    (Failure 400 "Reminder date must be in the future", db)
  else
    match Reminder_create db
            [ ("note", match rb_noteId body with
                       | Some i => VId i
                       | None => VNull
                       end);
              ("user", VId owner);
              ("title", optStr (rb_title body));
              ("reminderDate", VDate (rb_reminderDate body));
              ("isRecurring", VBool (match rb_isRecurring body with
                                     | Some b => b
                                     | None => false
                                     end));
              ("recurringPattern",
               match rb_recurringPattern body with
               | Some s => if JS.isEmpty s then VNull else VStr s
               | None => VNull
               end);
              ("notificationMethods",
               VStrs (match rb_notificationMethods body with
                      | Some l => l
                      | None => ["app"]
                      end)) ] now with
    | inr (doc, db') => (Success 201 noMessage doc, db')
    | inl _ => (Failure 500 "Server error while creating reminder", db)
    end.

(** Both conditions of the query are on paths of the schema, so the
    [strictQuery] setting makes no difference here. *)
Definition completeReminder (db : Db) (owner reminderId : ObjectId)
  (now : Date) : Response obj * Db :=
  match findOne reminderSchema false (db_reminders db)
          [("_id", VId reminderId); ("user", VId owner)] with
  | None => (Failure 404 "Reminder not found", db)
  | Some stored =>
      let reminder := set reminderSchema (hydrate stored) "status"
                        (VStr "completed") in
      match save reminderSchema (db_reminders db) stored reminder now with
      | inl _ => (Failure 500 "Server error while completing reminder", db)
      | inr (reminder1, coll) =>
          let db1 := with_reminders db coll in
          let answer := (Success 200 noMessage (toJSON reminder1), db1) in
          if truthy (get reminderSchema reminder1 "isRecurring")
             && truthy (get reminderSchema reminder1 "recurringPattern") then
            match get reminderSchema reminder1 "reminderDate",
                  get reminderSchema reminder1 "recurringPattern" with
            | VDate t, VStr pattern =>
                match calculateNextDate t pattern with
                | Some nextDate =>
                    match Reminder_create db1
                            [ ("note", get reminderSchema reminder1 "note");
                              ("user", VId owner);
                              ("title", get reminderSchema reminder1 "title");
                              ("reminderDate", VDate nextDate);
                              ("isRecurring", VBool true);
                              ("recurringPattern", VStr pattern);
                              ("notificationMethods",
                               get reminderSchema reminder1
                                 "notificationMethods") ] now with
                    | inr (_, db2) => (Success 200 noMessage (toJSON reminder1), db2)
                    | inl _ =>
                        (Failure 500 "Server error while completing reminder",
                         db1)
                    end
                | None => answer
                end
            | _, _ => (OutsideModel, db1)
            end
          else answer
      end
  end.

(* ================================================================== *)
(** ** Notions used in the statements *)
(* ================================================================== *)

Definition countNonEmpty (l : list string) : nat :=
  List.length (filter JS.nonEmptyWord l).

(** The string is empty or starts with a code unit that is not white
    space. *)
Definition startsClean (s : string) : bool :=
  match s with
  | EmptyString => true
  | String c _ => negb (JS.isWhiteSpace c)
  end.

(** The notes a list view shows: those of a successful answer. *)
Definition listed (r : Response (list Note)) : list Note :=
  match r with
  | Success _ _ ns => ns
  | _ => []
  end.

Definition listedPage (r : Response NotesPage) : list Note :=
  match r with
  | Success _ _ p => np_notes p
  | _ => []
  end.

(** ** Sample data *)

Definition emptyDb : Db := mkDb [] [] [] [] [] 1.

Definition alice : ObjectId := 7.
Definition bob : ObjectId := 8.

Definition shoppingBody : CreateNoteBody :=
  mkCreateNoteBody (Some "Shopping") (Some "milk eggs bread") None None None
    None None.

(** The note that [createNote] stores for [shoppingBody] at time 1000. *)
Definition shoppingNote : Note :=
  mkNote 1 "Shopping" "milk eggs bread" "plain" alice None [] false false
    false None "#ffffff" [] 3 15 0%Z false None 0 1000%Z 1000%Z.

Definition shoppingDb : Db := mkDb [shoppingNote] [] [] [] [] 2.

(** The same note once archived (at 1500) and then moved to trash (at
    2000). *)
Definition trashedShoppingNote : Note :=
  mkNote 1 "Shopping" "milk eggs bread" "plain" alice None [] false true true
    (Some 2000%Z) "#ffffff" [] 3 15 0%Z false None 0 1000%Z 2000%Z.

Definition trashDb : Db := mkDb [trashedShoppingNote] [] [] [] [] 2.

Definition noQuery : NotesQuery :=
  mkNotesQuery None None None None None None None None None.

Definition shopSearch : SearchQuery :=
  mkSearchQuery (Some "shop") None None None.

(** An update that carries a new content only. *)
Definition newContent (c : string) : UpdateNoteBody :=
  mkUpdateNoteBody None (Some c) None None None None None None.




(** The reading of "soft delete of a trashed note is a no-op success": the
    request succeeds and the database is what it was. *)
Definition softDeleteIsNoOp (db : Db) (owner noteId : ObjectId) (now : Date)
  : Prop :=
  exists code msg body,
    deleteNote db owner noteId None now = (Success code msg body, db).


(** Thirty-two bytes, as [crypto.randomBytes(32)] may return them. *)
Definition sampleBytes : list ascii := List.repeat (ascii_of_nat 171) 32.

(** The record that [shareNote] stores when alice shares note 1 with bob at
    time 5000, without expiry. *)
Definition directShare : obj :=
  [ ("_id", VId 2); ("note", VId 1); ("owner", VId alice);
    ("sharedWith", VId bob); ("permission", VStr "read");
    ("sharedAt", VDate 5000); ("expiresAt", VNull);
    ("createdAt", VDate 5000); ("updatedAt", VDate 5000) ].

Definition sharedDb : Db := mkDb [shoppingNote] [] [] [directShare] [] 3.

(** A daily reminder on note 1, due at [86400000]. *)
Definition dailyBody : CreateReminderBody :=
  mkCreateReminderBody (Some 1) (Some "Buy milk") 86400000%Z (Some true)
    (Some "daily") None.

(** What [createReminder] stores for [dailyBody] at time 5000. *)
Definition dailyReminder : obj :=
  [ ("_id", VId 2); ("note", VId 1); ("user", VId alice);
    ("reminderDate", VDate 86400000); ("isRecurring", VBool true);
    ("recurringType", VNull); ("isCompleted", VBool false);
    ("notifiedAt", VNull); ("createdAt", VDate 5000);
    ("updatedAt", VDate 5000) ].

Definition reminderDb : Db := mkDb [shoppingNote] [] [] [] [dailyReminder] 3.

Definition tagAPlus : Tag := mkTag 1 "a+" "#3b82f6" alice 10%Z 10%Z.
Definition tagAPlusUpper : Tag := mkTag 2 "A+" "#3b82f6" alice 20%Z 20%Z.
Definition tagWork : Tag := mkTag 1 "Work" "#3b82f6" alice 10%Z 10%Z.
Definition tagWorkBob : Tag := mkTag 2 "work" "#3b82f6" bob 20%Z 20%Z.

Definition named (s : string) : CreateTagBody := mkCreateTagBody (Some s) None.

(** A string with its ASCII letters folded: two names differ only by letter
    case when their folded forms agree. *)
Fixpoint foldString (s : string) : list nat :=
  match s with
  | EmptyString => []
  | String c s' => Regex.fold c :: foldString s'
  end.

(** A code unit that stands for itself in a pattern. *)
Definition isPlain (c : ascii) : bool :=
  negb (Regex.isQuantifierChar c) && negb (Regex.isOtherSyntax c)
  && negb (nat_of_ascii c =? 46).

Fixpoint literals (s : string) : list (Regex.atom * Regex.quant) :=
  match s with
  | EmptyString => []
  | String c s' => (Regex.Lit c, Regex.One) :: literals s'
  end.

(* ================================================================== *)
(** ** models/Note.js: the purge of the trash and the virtual fields *)
(* ================================================================== *)

(** [30 * 24 * 60 * 60 * 1000] *)
Definition thirtyDays : Z := (30 * 24 * 60 * 60 * 1000)%Z.

(** The condition [{ isTrashed: true, trashedAt: { $lt: thirtyDaysAgo } }];
    a [trashedAt] that is null is not below any date. *)
Definition purgeable (now : Date) (n : Note) : bool :=
  Bool.eqb (isTrashed n) true
  && match trashedAt n with
     | Some t => (t <? now - thirtyDays)%Z
     | None => false
     end.

(** [noteSchema.statics.cleanupTrash]: [deleteMany] over all owners; the
    first component is [deletedCount]. *)
Definition cleanupTrash (db : Db) (now : Date) : nat * Db :=
  (List.length (filter (purgeable now) (db_notes db)),
   with_notes db (filter (fun n => negb (purgeable now n)) (db_notes db))).

(** [noteSchema.virtual('isExpired')] *)
Definition isExpired (n : Note) (now : Date) : bool :=
  if negb (isTrashed n)
     || match trashedAt n with None => true | Some _ => false end
  then false
  else match trashedAt n with
       | Some t => (t <? now - thirtyDays)%Z
       | None => false
       end.

(** [noteSchema.virtual('preview')] *)
Definition preview (n : Note) : string :=
  if String.length (content n) <=? 150 then content n
  else (substring 0 150 (content n) ++ "...")%string.

(* ================================================================== *)
(** ** controllers/noteController.js: the other note actions *)
(* ================================================================== *)

(** A number inside a template literal. *)
Definition natToString (n : nat) : string :=
  NilEmpty.string_of_uint (Nat.to_uint n).

Definition intToString (z : Z) : string :=
  NilEmpty.string_of_int (Z.to_int z).

Definition getNoteById (db : Db) (owner noteId : ObjectId) (now : Date)
  : Response Note * Db :=
  match Note_findOne db (byIdUserTrashed noteId owner false) with
  | None =>
      (Failure 404
         "Note not found or you do not have permission to access it", db)
  | Some note =>
      match Note_save db note (set_viewCount (viewCount note + 1) note) now
      with
      | inr (note', db') => (Success 200 noMessage note', db')
      | inl _ => (Failure 500 "Server error fetching note", db)
      end
  end.

(** [{ isPinned: b }] *)
Definition onlyPinned (b : bool) : UpdateNoteBody :=
  mkUpdateNoteBody None None (Some b) None None None None None.

(** [{ isFavorite: b }] *)
Definition onlyFavorite (b : bool) : UpdateNoteBody :=
  mkUpdateNoteBody None None None None None None None (Some b).

Definition togglePinNote (db : Db) (owner noteId : ObjectId) (now : Date)
  : Response Note * Db :=
  match Note_findOne db (byIdAndUser noteId owner) with
  | None =>
      (Failure 404
         "Note not found or you do not have permission to modify it", db)
  | Some note =>
      match Note_findByIdAndUpdate db noteId
              (onlyPinned (negb (isPinned note))) now with
      | inr (Some note', db') =>
          (Success 200 (if isPinned note' then "Note pinned"
                        else "Note unpinned") note', db')
      | _ => (Failure 500 "Server error toggling pin status", db)
      end
  end.

Definition toggleFavorite (db : Db) (owner noteId : ObjectId) (now : Date)
  : Response Note * Db :=
  match Note_findOne db (byIdUserTrashed noteId owner false) with
  | None => (Failure 404 "Note not found", db)
  | Some note =>
      match Note_findByIdAndUpdate db noteId
              (onlyFavorite (negb (isFavorite note))) now with
      | inr (Some note', db') =>
          (Success 200 (if isFavorite note' then "Added to favorites"
                        else "Removed from favorites") note', db')
      | _ => (Failure 500 "Server error toggling favorite", db)
      end
  end.

(** The condition [{ user, isTrashed: true }] of [emptyTrash]. *)
Definition inTrashOf (owner : ObjectId) (n : Note) : bool :=
  (user n =? owner) && Bool.eqb (isTrashed n) true.

(** The body is [deletedCount]. *)
Definition emptyTrash (db : Db) (owner : ObjectId) : Response nat * Db :=
  let deletedCount := List.length (filter (inTrashOf owner) (db_notes db)) in
  (Success 200
     (natToString deletedCount ++ " notes permanently deleted")%string
     deletedCount,
   with_notes db (filter (fun n => negb (inTrashOf owner n)) (db_notes db))).

Definition duplicateNote (db : Db) (owner noteId : ObjectId) (now : Date)
  : Response Note * Db :=
  match Note_findOne db (byIdUserTrashed noteId owner false) with
  | None => (Failure 404 "Note not found", db)
  | Some originalNote =>
      match Note_create db (title originalNote ++ " (Copy)")%string
              (content originalNote) owner false (color originalNote)
              (tags originalNote) (folder originalNote)
              (contentType originalNote) now with
      | inr (duplicatedNote, db') =>
          (Success 201 "Note duplicated successfully" duplicatedNote, db')
      | inl _ => (Failure 500 "Server error duplicating note", db)
      end
  end.

(** ** Further notions used in the statements *)


(** The notes that belong to somebody else than [owner]. *)
Definition notesOfOthers (owner : ObjectId) (db : Db) : list Note :=
  filter (fun n => negb (user n =? owner)) (db_notes db).

(** No unpinned note comes before a pinned one. *)
Fixpoint pinnedFirst (l : list Note) : Prop :=
  match l with
  | [] => True
  | x :: l' =>
      (isPinned x = false -> Forall (fun y => isPinned y = false) l')
      /\ pinnedFirst l'
  end.

(** ** Further sample data *)

(** A title of 194 code units. *)
Definition longTitle : string :=
  string_of_list_ascii (List.repeat "x"%char 194).

Definition longTitleNote : Note :=
  mkNote 1 longTitle "text" "plain" alice None [] false false false None
    "#ffffff" [] 1 4 0%Z false None 0 1000%Z 1000%Z.

Definition longTitleDb : Db := mkDb [longTitleNote] [] [] [] [] 2.

(** What [duplicateNote] stores as copy of [shoppingNote] at time 3000. *)
Definition shoppingCopy : Note :=
  mkNote 2 "Shopping (Copy)" "milk eggs bread" "plain" alice None [] false
    false false None "#ffffff" [] 3 15 0%Z false None 0 3000%Z 3000%Z.

(* ================================================================== *)
(** ** controllers/tagController.js: the other tag actions *)
(* ================================================================== *)

Definition hexValue (c : ascii) : Z :=
  let n := nat_of_ascii c in
  if n <=? 57 then Z.of_nat n - 48
  else if n <=? 70 then Z.of_nat n - 55
  else Z.of_nat n - 87.

Fixpoint parseHexDigits (s : string) (acc : Z) (seen : bool) : option Z :=
  match s with
  | EmptyString => if seen then Some acc else None
  | String c s' =>
      if isHexDigit c then parseHexDigits s' (16 * acc + hexValue c)%Z true
      else if seen then Some acc else None
  end.

(** The digits after the sign when no radix is given: a prefix [0x] or [0X]
    switches to base 16. *)
Definition parseUnsigned (s : string) : option Z :=
  match s with
  | String "0"%char (String x r) =>
      if (nat_of_ascii x =? 120) || (nat_of_ascii x =? 88) then
        parseHexDigits r 0%Z false
      else JS.parseDigits s 0%Z false
  | _ => JS.parseDigits s 0%Z false
  end.

(** [parseInt(s)]; [None] is NaN. *)
Definition parseIntAuto (s : string) : option Z :=
  match JS.trimStart s with
  | String "-"%char s' => option_map Z.opp (parseUnsigned s')
  | String "+"%char s' => parseUnsigned s'
  | t => parseUnsigned t
  end.

(** [parseInt(param) || d]: the default stands in for an absent parameter,
    for NaN and for 0. *)
Definition parseOr (param : option string) (d : Z) : Z :=
  match param with
  | Some s =>
      match parseIntAuto s with
      | Some z => if (z =? 0)%Z then d else z
      | None => d
      end
  | None => d
  end.

Fixpoint insertSorted {A : Type} (cmp : A -> A -> comparison) (x : A)
  (l : list A) : list A :=
  match l with
  | [] => [x]
  | y :: l' =>
      match cmp x y with
      | Gt => y :: insertSorted cmp x l'
      | _ => x :: l
      end
  end.

(** [.sort(...)] on other collections than the notes; equal elements keep
    the order of the collection. *)
Definition sortWith {A : Type} (cmp : A -> A -> comparison) (l : list A)
  : list A :=
  fold_right (insertSorted cmp) [] l.

(** [Note.countDocuments({ user, tags: tag._id, isTrashed: false })] *)
Definition tagNoteCount (db : Db) (owner : ObjectId) (t : Tag) : nat :=
  List.length
    (Note_find db
       (mkFilter None (Some owner) (Some false) None None (Some (tag_id t))
          None None None)).

(** Every tag of the caller, sorted by name, with its [noteCount]. *)
Definition getTags (db : Db) (owner : ObjectId) : Response (list (Tag * nat)) :=
  let tags := sortWith (fun a b => String.compare (tag_name a) (tag_name b))
                (filter (fun t => tag_user t =? owner) (db_tags db)) in
  Success 200 noMessage (map (fun t => (t, tagNoteCount db owner t)) tags).

Definition Tag_findOne (db : Db) (tagId owner : ObjectId) : option Tag :=
  find (fun t => (tag_id t =? tagId) && (tag_user t =? owner)) (db_tags db).

Fixpoint removeTag (ts : list Tag) (i : ObjectId) : list Tag :=
  match ts with
  | [] => []
  | t :: ts' => if tag_id t =? i then ts' else t :: removeTag ts' i
  end.

(** [Note.updateMany({ user, tags: tag._id }, { $pull: { tags: tag._id } })]
    on one note: every occurrence goes, [updatedAt] is set. *)
Definition pullTag (owner tagId : ObjectId) (now : Date) (n : Note) : Note :=
  if (user n =? owner) && existsb (Nat.eqb tagId) (tags n) then
    set_updatedAt now
      (set_tags (filter (fun x => negb (x =? tagId)) (tags n)) n)
  else n.

Definition deleteTag (db : Db) (owner tagId : ObjectId) (now : Date)
  : Response unit * Db :=
  match Tag_findOne db tagId owner with
  | None => (Failure 404 "Tag not found", db)
  | Some tag =>
      (Success 200 "Tag deleted successfully" tt,
       with_tags
         (with_notes db (map (pullTag owner (tag_id tag) now) (db_notes db)))
         (removeTag (db_tags db) (tag_id tag)))
  end.

(** The body of the two paged views by tag and by folder: [notes] and
    [pagination: { page, limit, total, pages }]. *)
Record PagedNotes : Type := mkPagedNotes {
  pn_notes : list Note;
  pn_page : Z;
  pn_limit : Z;
  pn_total : nat;
  pn_pages : option Z
}.

(** The common part of [getNotesByTag] and [getNotesInFolder] after the
    lookup of the tag or folder. *)
Definition pagedNotes (db : Db) (f : NoteFilter) (pageParam' limitParam'
  : option string) : Response PagedNotes :=
  let page := parseOr pageParam' 1 in
  let limit := parseOr limitParam' 20 in
  let skip := ((page - 1) * limit)%Z in
  let matching := Note_find db f in
  match skipLimit (Some skip) limit
          (sortNotes [("isPinned", true); ("updatedAt", true)] matching) with
  | Some notes =>
      Success 200 noMessage
        (mkPagedNotes notes page limit (List.length matching)
           (pageCount (List.length matching) limit))
  | None => Failure 500 "Server error while fetching notes"
  end.

Definition getNotesByTag (db : Db) (owner tagId : ObjectId)
  (page limit : option string) : Response PagedNotes :=
  match Tag_findOne db tagId owner with
  | None => Failure 404 "Tag not found"
  | Some tag =>
      pagedNotes db
        (mkFilter None (Some owner) (Some false) (Some false) None
           (Some (tag_id tag)) None None None) page limit
  end.

(* ================================================================== *)
(** ** controllers/folderController.js *)
(* ================================================================== *)

Definition with_folders (db : Db) (fs : list Folder) : Db :=
  mkDb (db_notes db) (db_tags db) fs (db_shares db) (db_reminders db)
    (db_nextId db).

Definition Folder_findOne (db : Db) (folderId owner : ObjectId)
  : option Folder :=
  find (fun f => (folder_id f =? folderId) && (folder_user f =? owner))
    (db_folders db).

Definition getNotesInFolder (db : Db) (owner folderId : ObjectId)
  (page limit : option string) : Response PagedNotes :=
  match Folder_findOne db folderId owner with
  | None => Failure 404 "Folder not found"
  | Some folder =>
      pagedNotes db
        (mkFilter None (Some owner) (Some false) (Some false) None None
           (Some (Some (folder_id folder))) None None) page limit
  end.

(** The default icon, U+1F4C1, as its UTF-8 bytes. *)
Definition folderIcon : string :=
  string_of_list_ascii (map ascii_of_nat [240; 159; 147; 129]).


(** [{ user, parent }]: the folders of the caller at one level. *)
Definition siblings (db : Db) (owner : ObjectId) (parent : option ObjectId)
  : list Folder :=
  filter (fun f => (folder_user f =? owner)
                   && optId_eqb (folder_parent f) parent) (db_folders db).




Fixpoint removeFolder (fs : list Folder) (i : ObjectId) : list Folder :=
  match fs with
  | [] => []
  | f :: fs' => if folder_id f =? i then fs' else f :: removeFolder fs' i
  end.

(** [Note.updateMany({ user, folder: folder._id }, { $set: { folder } })] on
    one note. *)
Definition moveNote (owner folderId : ObjectId) (target : option ObjectId)
  (now : Date) (n : Note) : Note :=
  if (user n =? owner) && optId_eqb (folder n) (Some folderId) then
    set_updatedAt now (set_folder target n)
  else n.

(** [moveNotesTo] is [req.query.moveNotesTo]: absent, the string 'null'
    ([Some None]) or an id. *)
Definition deleteFolder (db : Db) (owner folderId : ObjectId)
  (moveNotesTo : option (option ObjectId)) (now : Date) : Response unit * Db :=
  match Folder_findOne db folderId owner with
  | None => (Failure 404 "Folder not found", db)
  | Some folder =>
      match siblings db owner (Some (folder_id folder)) with
      | _ :: _ =>
          (Failure 400
             "Cannot delete folder with subfolders. Delete subfolders first.",
           db)
      | [] =>
          let target := match moveNotesTo with
                        | Some (Some t) => Some t
                        | _ => None
                        end in
          (Success 200 "Folder deleted successfully" tt,
           with_folders
             (with_notes db
                (map (moveNote owner (folder_id folder) target now)
                   (db_notes db)))
             (removeFolder (db_folders db) (folder_id folder)))
      end
  end.

(* ================================================================== *)
(** ** The other share and reminder actions *)
(* ================================================================== *)

(** [doc.deleteOne()] *)
Fixpoint removeById (coll : list obj) (doc : obj) : list obj :=
  match coll with
  | [] => []
  | o :: coll' =>
      if value_eq_dec (idOf o) (idOf doc) then coll'
      else o :: removeById coll' doc
  end.


Definition updateShare (db : Db) (owner shareId : ObjectId)
  (permission : option string) (expiresAt : option Date) (now : Date)
  : Response obj * Db :=
  match findOne sharedNoteSchema false (db_shares db)
          [("_id", VId shareId); ("owner", VId owner)] with
  | None => (Failure 404 "Share not found", db)
  | Some stored =>
      let share0 := hydrate stored in
      let share1 :=
        set sharedNoteSchema share0 "permission"
          (match permission with
           | Some s => if JS.isEmpty s
                       then get sharedNoteSchema share0 "permission"
                       else VStr s
           | None => get sharedNoteSchema share0 "permission"
           end) in
      let share2 :=
        set sharedNoteSchema share1 "expiresAt"
          (match expiresAt with
           | Some t => VDate t
           | None => get sharedNoteSchema share1 "expiresAt"
           end) in
      match save sharedNoteSchema (db_shares db) stored share2 now with
      | inr (share, coll) =>
          (Success 200 noMessage (toJSON share), with_shares db coll)
      | inl _ => (Failure 500 "Server error while updating share", db)
      end
  end.

Definition removeShare (db : Db) (owner shareId : ObjectId)
  : Response unit * Db :=
  match findOne sharedNoteSchema false (db_shares db)
          [("_id", VId shareId); ("owner", VId owner)] with
  | None => (Failure 404 "Share not found", db)
  | Some stored =>
      (Success 200 "Share removed successfully" tt,
       with_shares db (removeById (db_shares db) stored))
  end.

(** [snoozeMinutes] is [req.body.snoozeMinutes], a number when present. *)
Definition snoozeReminder (db : Db) (owner reminderId : ObjectId)
  (snoozeMinutes : option Z) (now : Date) : Response obj * Db :=
  match findOne reminderSchema false (db_reminders db)
          [("_id", VId reminderId); ("user", VId owner)] with
  | None => (Failure 404 "Reminder not found", db)
  | Some stored =>
      let snoozeDuration :=
        match snoozeMinutes with
        | Some z => if (z =? 0)%Z then 15%Z else z
        | None => 15%Z
        end in
      let reminder :=
        set reminderSchema
          (set reminderSchema (hydrate stored) "reminderDate"
             (VDate (now + snoozeDuration * 60 * 1000)))
          "status" (VStr "pending") in
      match save reminderSchema (db_reminders db) stored reminder now with
      | inr (reminder', coll) =>
          (Success 200
             ("Reminder snoozed for " ++ intToString snoozeDuration
              ++ " minutes")%string (toJSON reminder'),
           with_reminders db coll)
      | inl _ => (Failure 500 "Server error while snoozing reminder", db)
      end
  end.

Definition deleteReminder (db : Db) (owner reminderId : ObjectId)
  : Response unit * Db :=
  match findOne reminderSchema false (db_reminders db)
          [("_id", VId reminderId); ("user", VId owner)] with
  | None => (Failure 404 "Reminder not found", db)
  | Some stored =>
      (Success 200 "Reminder deleted successfully" tt,
       with_reminders db (removeById (db_reminders db) stored))
  end.

(** The notes of a paged view by tag or by folder. *)
Definition listedPaged (r : Response PagedNotes) : list Note :=
  match r with
  | Success _ _ p => pn_notes p
  | _ => []
  end.


Definition pinnedShoppingNote : Note :=
  mkNote 2 "Pinned" "first" "plain" alice None [] true false false None
    "#ffffff" [] 1 5 0%Z false None 0 500%Z 500%Z.

(** An unpinned note that was updated last, and a pinned one. *)
Definition twoNotesDb : Db :=
  mkDb [shoppingNote; pinnedShoppingNote] [] [] [] [] 3.

(** What an action of [owner] may do to the collection of notes: nothing,
    replace one of the owner's notes by a note of the same id and owner,
    remove notes of the owner, or append a note of the owner under the next
    fresh id. *)
Inductive noteStep (owner : ObjectId) (db db' : Db) : Prop :=
| step_same :
    db_notes db' = db_notes db -> db_nextId db' = db_nextId db ->
    noteStep owner db db'
| step_replace (n n' : Note) :
    In n (db_notes db) -> user n = owner ->
    note_id n' = note_id n -> user n' = owner ->
    db_notes db' = replaceNote (db_notes db) n' ->
    db_nextId db' = db_nextId db ->
    noteStep owner db db'
| step_remove (p : Note -> bool) :
    (forall n, In n (db_notes db) -> p n = true -> user n = owner) ->
    db_notes db' = filter (fun n => negb (p n)) (db_notes db) ->
    db_nextId db' = db_nextId db ->
    noteStep owner db db'
| step_add (n' : Note) :
    user n' = owner -> note_id n' = db_nextId db ->
    db_notes db' = (db_notes db ++ [n'])%list ->
    db_nextId db' = S (db_nextId db) ->
    noteStep owner db db'.

(** The databases that the note actions of [owner] on the note [noteId]
    lead to. *)
Definition afterNoteActions (db : Db) (owner noteId : ObjectId)
  (cbody : CreateNoteBody) (ubody : UpdateNoteBody)
  (permanent : option string) (now : Date) : list Db :=
  [ snd (createNote db owner cbody now);
    snd (getNoteById db owner noteId now);
    snd (updateNote db owner noteId ubody now);
    snd (deleteNote db owner noteId permanent now);
    snd (togglePinNote db owner noteId now);
    snd (restoreNote db owner noteId now);
    snd (emptyTrash db owner);
    snd (archiveNote db owner noteId now);
    snd (toggleFavorite db owner noteId now);
    snd (duplicateNote db owner noteId now) ].

Definition bobNote : Note :=
  mkNote 2 "Bob's" "private" "plain" bob None [] false false true
    (Some 100%Z) "#ffffff" [] 1 7 0%Z false None 0 100%Z 100%Z.

(** A note of alice and a trashed note of bob. *)
Definition sharedHouseDb : Db := mkDb [shoppingNote; bobNote] [] [] [] [] 3.

Definition workTag : Tag := mkTag 5 "work" "#3b82f6" alice 10%Z 10%Z.

Definition taggedNote : Note :=
  mkNote 1 "Plan" "roadmap" "plain" alice (Some 6) [5; 9; 5] false false true
    (Some 50%Z) "#ffffff" [] 1 7 0%Z false None 0 20%Z 50%Z.

Definition inboxFolder : Folder :=
  mkFolder 6 "Inbox" folderIcon "#6b7280" alice None 4%Z 10%Z 10%Z.

(** A trashed note of alice that holds the tag 5 twice and lies in the
    folder 6. *)
Definition taggedDb : Db := mkDb [taggedNote] [workTag] [inboxFolder] [] [] 10.



(* ================================================================== *)
(** * Properties *)
(* ================================================================== *)

(** ** Strings *)

Example split_ws_inner_run : JS.split_ws "a  b" = ["a"; "b"].
Proof. reflexivity. Qed.

Example split_ws_outer_runs : JS.split_ws " a " = [EmptyString; "a"; EmptyString].
Proof. reflexivity. Qed.

Example split_ws_empty : JS.split_ws EmptyString = [EmptyString].
Proof. reflexivity. Qed.

Example trim_both_sides : JS.trim "  milk eggs  " = "milk eggs".
Proof. reflexivity. Qed.

Example parseInt_stops_at_letters : JS.parseInt10 " -20px" = Some (-20)%Z.
Proof. reflexivity. Qed.

Example parseInt_no_digits : JS.parseInt10 "abc" = None.
Proof. reflexivity. Qed.

(** ** Patterns and dates *)

Example compile_anchored_plus :
  Regex.compile Regex.JavaScript "^A+$"
  = Regex.Compiled (Regex.mkRegex true [(Regex.Lit "A", Regex.Plus)] true).
Proof. reflexivity. Qed.

Example compile_nothing_to_repeat :
  Regex.compile Regex.JavaScript "^C++$" = Regex.SyntaxError.
Proof. reflexivity. Qed.

Example test_caseless_substring :
  match Regex.compile Regex.PCRE "grocer" with
  | Regex.Compiled r => (Regex.test r "Grocery List", Regex.test r "milk")
  | _ => (false, true)
  end = (true, false).
Proof. reflexivity. Qed.

Example test_plus_is_a_quantifier :
  match Regex.compile Regex.JavaScript "^A+$" with
  | Regex.Compiled r => (Regex.test r "a+", Regex.test r "aAa")
  | _ => (true, false)
  end = (false, true).
Proof. reflexivity. Qed.

Example civil_epoch : DateTime.civilFromDays 0%Z = (1970, 1, 1)%Z.
Proof. reflexivity. Qed.

Example civil_roundtrip :
  DateTime.civilFromDays (DateTime.daysFromCivil 2024 2 29) = (2024, 2, 29)%Z.
Proof. reflexivity. Qed.

(** 31 January 2023 plus one month overflows into 3 March 2023. *)
Example setMonth_overflow :
  DateTime.civilFromDays
    (DateTime.Day
       (DateTime.setMonth (DateTime.daysFromCivil 2023 1 31 * 86400000)%Z 1%Z))
  = (2023, 3, 3)%Z.
Proof. reflexivity. Qed.

(** ** Counting words *)

Lemma splitWs_not_nil (s : string) (b : bool) : JS.splitWs b s <> [].
Proof.
  revert b; induction s as [|c s IH]; intros b; simpl.
  - discriminate.
  - destruct (JS.isWhiteSpace c).
    + destruct b; [apply IH | discriminate].
    + destruct (JS.splitWs false s); discriminate.
Qed.

(** The tokens that [split] returns, the empty ones removed, are as many as
    the token starts of the string; the first token of a split that
    continues a word is counted by the caller. *)
Lemma splitWs_count (s : string) :
  (forall b, countNonEmpty (JS.splitWs b s) = countTokens true s)
  /\ countNonEmpty (tl (JS.splitWs false s)) = countTokens false s.
Proof.
  induction s as [|c s [IHt IHf]]; simpl.
  - split; [intros b|]; reflexivity.
  - destruct (JS.isWhiteSpace c) eqn:Hc.
    + split.
      * intros [|]; [apply IHt|].
        unfold countNonEmpty; simpl. apply (IHt true).
      * simpl. apply (IHt true).
    + pose proof (splitWs_not_nil s false) as Hne.
      destruct (JS.splitWs false s) as [|tok rest] eqn:Hs; [congruence|].
      simpl in IHf. split.
      * intros b. unfold countNonEmpty in *; simpl. rewrite IHf. reflexivity.
      * simpl. exact IHf.
Qed.

Lemma countWords_tokenCount (s : string) :
  countWords s = tokenCount (JS.trim s).
Proof.
  unfold countWords, tokenCount, JS.split_ws.
  apply (proj1 (splitWs_count (JS.trim s)) false).
Qed.

Lemma trimStart_clean (s : string) : startsClean (JS.trimStart s) = true.
Proof.
  induction s as [|c s IH]; simpl; [reflexivity|].
  destruct (JS.isWhiteSpace c) eqn:Hc; [exact IH|]. simpl. now rewrite Hc.
Qed.

Lemma trimStart_of_clean (s : string) :
  startsClean s = true -> JS.trimStart s = s.
Proof.
  destruct s as [|c s]; simpl; [reflexivity|].
  destruct (JS.isWhiteSpace c); [discriminate | reflexivity].
Qed.

Lemma trimEnd_clean (s : string) :
  startsClean s = true -> startsClean (JS.trimEnd s) = true.
Proof.
  destruct s as [|c s]; simpl; [reflexivity|].
  destruct (JS.isWhiteSpace c) eqn:Hc; [discriminate|].
  simpl. now rewrite Hc.
Qed.

Lemma trimEnd_idem (s : string) : JS.trimEnd (JS.trimEnd s) = JS.trimEnd s.
Proof.
  induction s as [|c s IH]; simpl; [reflexivity|].
  destruct (JS.isWhiteSpace c && JS.isEmpty (JS.trimEnd s)) eqn:E;
    [reflexivity|].
  simpl. rewrite IH, E. reflexivity.
Qed.

Lemma trim_idem (s : string) : JS.trim (JS.trim s) = JS.trim s.
Proof.
  unfold JS.trim.
  rewrite (trimStart_of_clean (JS.trimEnd (JS.trimStart s))).
  - apply trimEnd_idem.
  - apply trimEnd_clean, trimStart_clean.
Qed.

(** ** Notes: creation *)

Lemma createNote_shopping :
  createNote emptyDb alice shoppingBody 1000%Z
  = (Success 201 "Note created successfully" shoppingNote, shoppingDb).
Proof. reflexivity. Qed.

Lemma Note_create_counts (db db' : Db) (t c : string) (u : ObjectId)
  (p : bool) (col : string) (tg : list ObjectId) (fo : option ObjectId)
  (ct : string) (now : Date) (note : Note) :
  Note_create db t c u p col tg fo ct now = inr (note, db') ->
  content note = JS.trim c
  /\ characterCount note = String.length (content note)
  /\ wordCount note = countWords (content note)
  /\ In note (db_notes db').
Proof.
  unfold Note_create.
  destruct (validateNote _); [|discriminate].
  intros H; injection H as <- <-. simpl.
  repeat split; try reflexivity.
  apply in_or_app; right; left; reflexivity.
Qed.

(** C1. Every note that [createNote] creates from a body with content [C] is
    persisted with [characterCount] equal to the length of the stored
    content, which is [C.trim()], and with [wordCount] equal to the number of
    non-empty white-space separated tokens of [C.trim()]. *)
Theorem createNote_counts (db : Db) (owner : ObjectId) (body : CreateNoteBody)
  (now : Date) (code : nat) (msg : string) (note : Note) (db' : Db) :
  createNote db owner body now = (Success code msg note, db') ->
  exists C,
    cb_content body = Some C
    /\ content note = JS.trim C
    /\ characterCount note = String.length (content note)
    /\ wordCount note = tokenCount (JS.trim C)
    /\ In note (db_notes db').
Proof.
  unfold createNote.
  destruct (cb_title body) as [t|]; [|discriminate].
  destruct (cb_content body) as [C|]; [|discriminate].
  destruct (JS.isEmpty t || JS.isEmpty C); [discriminate|].
  destruct (tagsRejected db owner (cb_tags body)); [discriminate|].
  destruct (match cb_folder body with
            | Some f => folderRejected db owner f
            | None => false
            end); [discriminate|].
  destruct (Note_create _ _ _ _ _ _ _ _ _ _) as [msgs|[n d]] eqn:Hc;
    [discriminate|].
  intros H; injection H as _ _ <- <-.
  apply Note_create_counts in Hc as (Hcont & Hchars & Hwords & Hin).
  rewrite trim_idem in Hcont.
  exists C. repeat split; trivial.
  rewrite Hwords, Hcont, countWords_tokenCount, trim_idem. reflexivity.
Qed.

Lemma createNote_counts_witness :
  exists C,
    cb_content shoppingBody = Some C
    /\ content shoppingNote = JS.trim C
    /\ characterCount shoppingNote = String.length (content shoppingNote)
    /\ wordCount shoppingNote = tokenCount (JS.trim C)
    /\ In shoppingNote (db_notes shoppingDb).
Proof.
  apply (createNote_counts emptyDb alice shoppingBody 1000%Z 201
           "Note created successfully" shoppingNote shoppingDb).
  reflexivity.
Defined.

Lemma trim_nonempty (s : string) :
  JS.isEmpty (JS.trim s) = false -> JS.isEmpty s = false.
Proof. destruct s; [discriminate | reflexivity]. Qed.

Lemma validateTitle_nonempty (t : string) :
  validateTitle t = None -> JS.isEmpty t = false.
Proof. unfold validateTitle. destruct (JS.isEmpty t); [discriminate|auto]. Qed.

Lemma validateContent_nonempty (c : string) :
  validateContent c = None -> JS.isEmpty c = false.
Proof.
  unfold validateContent. destruct (JS.isEmpty c); [discriminate|auto].
Qed.

(** A request that carries only a title and a content, both within the
    bounds of the schema once trimmed, is answered with status 201. *)
Lemma createNote_succeeds (db : Db) (owner : ObjectId) (t c : string)
  (now : Date) :
  validateTitle (JS.trim t) = None ->
  validateContent (JS.trim c) = None ->
  exists note db',
    createNote db owner
      (mkCreateNoteBody (Some t) (Some c) None None None None None) now
    = (Success 201 "Note created successfully" note, db')
    /\ content note = JS.trim c
    /\ wordCount note = tokenCount (JS.trim c)
    /\ characterCount note = String.length (JS.trim c).
Proof.
  intros Ht Hc. unfold createNote. cbn [cb_title cb_content cb_tags cb_folder
    cb_isPinned cb_color cb_contentType tagsRejected orDefault].
  rewrite (trim_nonempty t (validateTitle_nonempty _ Ht)),
    (trim_nonempty c (validateContent_nonempty _ Hc)).
  cbn [orb JS.isEmpty]. unfold Note_create, validateNote.
  cbn [title content contentType color]. rewrite !trim_idem, Ht, Hc.
  cbn [optList app]. change (validateContentType "plain") with (@None string).
  change (validateColor "#ffffff") with (@None string). cbn [optList app].
  eexists; eexists. split; [reflexivity|].
  cbn [preSave set_wordCount set_characterCount content wordCount
       characterCount].
  rewrite countWords_tokenCount, trim_idem. auto.
Qed.

(** ** Notes: update *)

Lemma applyFields_counts (u : UpdateNoteBody) (n : Note) :
  wordCount (applyFields u n) = wordCount n
  /\ characterCount (applyFields u n) = characterCount n.
Proof.
  unfold applyFields, applyOpt.
  destruct (ub_isFavorite u), (ub_contentType u), (ub_folder u), (ub_tags u),
    (ub_color u), (ub_isPinned u), (ub_content u), (ub_title u);
    split; reflexivity.
Qed.

(** Whatever the update carries, the note that [updateNote] answers with has
    the counts of the stored note: the update goes through
    [findByIdAndUpdate], past the pre-save hook. *)
Lemma updateNote_keeps_counts (db db' : Db) (owner noteId : ObjectId)
  (body : UpdateNoteBody) (now : Date) (code : nat) (msg : string)
  (note : Note) :
  updateNote db owner noteId body now = (Success code msg note, db') ->
  exists old,
    In old (db_notes db)
    /\ wordCount note = wordCount old
    /\ characterCount note = characterCount old.
Proof.
  unfold updateNote.
  destruct (Note_findOne db (byIdUserTrashed noteId owner false));
    [|discriminate].
  destruct (tagsRejected db owner (ub_tags body)); [discriminate|].
  destruct (match ub_folder body with
            | Some (Some f) => folderRejected db owner f
            | _ => false
            end); [discriminate|].
  destruct (noFields (updateFields body)); [discriminate|].
  unfold Note_findByIdAndUpdate.
  destruct (_ ++ _)%list; [|discriminate].
  destruct (Note_findOne db _) as [old|] eqn:Hold; [|discriminate].
  intros H; injection H as _ _ <- _.
  exists old. split.
  - apply find_some in Hold. apply Hold.
  - exact (applyFields_counts (updateFields body) old).
Qed.

(** C2 (the code departs from it). The note of [shoppingDb] has 3 words and
    15 characters.  Updating its content to "one two" succeeds and stores the
    new content, but the stored counts stay 3 and 15, while the new content
    has 2 tokens and length 7. *)
Theorem updateNote_counts_not_recomputed :
  exists note db',
    updateNote shoppingDb alice 1 (newContent "one two") 2000%Z
    = (Success 200 "Note updated successfully" note, db')
    /\ db_notes db' = [note]
    /\ content note = "one two"
    /\ wordCount note = 3 /\ characterCount note = 15
    /\ tokenCount (JS.trim "one two") = 2 /\ String.length "one two" = 7.
Proof.
  eexists; eexists. split; [reflexivity|].
  repeat split; reflexivity.
Qed.

(** ** Notes: the list views *)

Lemma insertNote_In (spec : sortSpec) (x n : Note) (l : list Note) :
  In n (insertNote spec x l) <-> n = x \/ In n l.
Proof.
  induction l as [|y l IH]; simpl.
  - intuition congruence.
  - destruct (compareNotes spec x y); simpl; rewrite ?IH;
      intuition congruence.
Qed.

Lemma sortNotes_In (spec : sortSpec) (n : Note) (l : list Note) :
  In n (sortNotes spec l) <-> In n l.
Proof.
  unfold sortNotes. induction l as [|x l IH]; simpl; [tauto|].
  rewrite insertNote_In, IH. intuition congruence.
Qed.

Lemma firstn_subset (A : Type) (k : nat) (l : list A) (a : A) :
  In a (firstn k l) -> In a l.
Proof.
  revert l; induction k as [|k IH]; intros [|x l]; simpl; try tauto.
  intros [->|H]; [left; reflexivity | right; apply IH, H].
Qed.

Lemma skipn_subset (A : Type) (k : nat) (l : list A) (a : A) :
  In a (skipn k l) -> In a l.
Proof.
  revert l; induction k as [|k IH]; intros [|x l]; simpl; try tauto.
  intros H; right; apply IH, H.
Qed.

Lemma skipLimit_subset (skip : option Z) (limit : Z) (l r : list Note)
  (n : Note) :
  skipLimit skip limit l = Some r -> In n r -> In n l.
Proof.
  unfold skipLimit. destruct skip as [k|]; [|discriminate].
  destruct (k <? 0)%Z; [discriminate|].
  intros H; injection H as <-.
  destruct (limit =? 0)%Z; intros H.
  - eapply skipn_subset, H.
  - eapply skipn_subset, firstn_subset, H.
Qed.

Lemma matchesNote_core (f : NoteFilter) (n : Note) :
  matchesNote f n = true ->
  cond (f_user f) (fun u => user n =? u) = true
  /\ cond (f_isTrashed f) (fun b => Bool.eqb (isTrashed n) b) = true
  /\ cond (f_isArchived f) (fun b => Bool.eqb (isArchived n) b) = true.
Proof.
  unfold matchesNote. rewrite !andb_true_iff. tauto.
Qed.

(** What a query that fixes the owner and both flags returns. *)
Lemma Note_find_flags (db : Db) (f : NoteFilter) (u : ObjectId)
  (tr ar : bool) (n : Note) :
  f_user f = Some u -> f_isTrashed f = Some tr -> f_isArchived f = Some ar ->
  In n (Note_find db f) ->
  In n (db_notes db) /\ user n = u /\ isTrashed n = tr /\ isArchived n = ar.
Proof.
  intros Hu Ht Ha Hin. apply filter_In in Hin as [Hin Hm].
  apply matchesNote_core in Hm as (Hu' & Ht' & Ha').
  rewrite Hu in Hu'. rewrite Ht in Ht'. rewrite Ha in Ha'. simpl in *.
  apply Nat.eqb_eq in Hu'. apply Bool.eqb_prop in Ht'.
  apply Bool.eqb_prop in Ha'. auto.
Qed.

(** The query of [getNotes] returns stored notes of the caller that are
    neither trashed nor archived, whatever test the search string stands
    for, inside the modelled fragment of patterns or outside. *)
Lemma getNotes_query_flags (db : Db) (owner : ObjectId) (q : NotesQuery)
  (text : option (string -> bool)) (n : Note) :
  In n (Note_find db (notesFilter owner q text)) ->
  In n (db_notes db) /\ user n = owner
  /\ isTrashed n = false /\ isArchived n = false.
Proof.
  apply (Note_find_flags db (notesFilter owner q text) owner false false n);
    reflexivity.
Qed.

(** Every note of a page of [getNotes] is a stored note of the caller that
    is neither trashed nor archived. *)
Lemma getNotes_listed (db : Db) (owner : ObjectId) (q : NotesQuery)
  (n : Note) :
  In n (listedPage (getNotes db owner q)) ->
  In n (db_notes db) /\ user n = owner
  /\ isTrashed n = false /\ isArchived n = false.
Proof.
  assert (Hrun : forall text sk l spec r,
    skipLimit sk l (sortNotes spec (Note_find db (notesFilter owner q text)))
    = Some r -> In n r ->
    In n (db_notes db) /\ user n = owner
    /\ isTrashed n = false /\ isArchived n = false).
  { intros text sk l spec r Hr Hin.
    apply (skipLimit_subset _ _ _ _ _ Hr) in Hin. apply sortNotes_In in Hin.
    eapply Note_find_flags; eauto; reflexivity. }
  unfold getNotes.
  destruct (JS.parseInt10 _) as [p|]; [|simpl; tauto].
  destruct (JS.parseInt10 _) as [l|]; [|simpl; tauto].
  destruct (_ <? 0)%Z; [simpl; tauto|].
  destruct (qn_search q) as [[|c s]|].
  - destruct (skipLimit _ _ _) eqn:Hr; simpl; [eauto | tauto].
  - destruct (Regex.compile _ _); try (simpl; tauto).
    destruct (skipLimit _ _ _) eqn:Hr; simpl; [eauto | tauto].
  - destruct (skipLimit _ _ _) eqn:Hr; simpl; [eauto | tauto].
Qed.

Lemma searchNotes_listed (db : Db) (owner : ObjectId) (q : SearchQuery)
  (n : Note) :
  In n (listed (searchNotes db owner q)) ->
  In n (db_notes db) /\ user n = owner
  /\ isTrashed n = false /\ isArchived n = false.
Proof.
  unfold searchNotes.
  destruct (sq_q q) as [text|]; [|simpl; tauto].
  destruct (_ || _); [simpl; tauto|].
  destruct (Regex.compile _ _); try (simpl; tauto).
  simpl. intros Hin. apply sortNotes_In in Hin.
  eapply Note_find_flags; eauto; reflexivity.
Qed.

Lemma getArchivedNotes_listed (db : Db) (owner : ObjectId) (n : Note) :
  In n (listed (getArchivedNotes db owner)) ->
  In n (db_notes db) /\ user n = owner
  /\ isTrashed n = false /\ isArchived n = true.
Proof.
  simpl. unfold findArchived. intros Hin. apply sortNotes_In in Hin.
  eapply Note_find_flags; eauto; reflexivity.
Qed.

Lemma getTrashedNotes_listed (db : Db) (owner : ObjectId) (n : Note) :
  In n (listed (getTrashedNotes db owner)) <->
  In n (db_notes db) /\ user n = owner /\ isTrashed n = true.
Proof.
  simpl. unfold findTrashed. rewrite sortNotes_In.
  unfold Note_find. rewrite filter_In. unfold matchesNote. simpl.
  rewrite !andb_true_r, andb_true_iff, Nat.eqb_eq.
  destruct (isTrashed n); simpl; intuition congruence.
Qed.

(** C3. A stored note that is trashed or archived is on no page of the
    default list ([getNotes]) and in no search result ([searchNotes]),
    whatever the owner and the parameters are; a trashed note is not in the
    archive view either, and it is in the trash view of its owner. *)
Theorem views_exclude_trashed_and_archived (db : Db) (owner : ObjectId)
  (q : NotesQuery) (sq : SearchQuery) (n : Note) :
  In n (db_notes db) ->
  isTrashed n = true \/ isArchived n = true ->
  ~ In n (listedPage (getNotes db owner q))
  /\ ~ In n (listed (searchNotes db owner sq))
  /\ (isTrashed n = true ->
      ~ In n (listed (getArchivedNotes db owner))
      /\ (user n = owner -> In n (listed (getTrashedNotes db owner)))).
Proof.
  intros Hin Hflag. split; [|split].
  - intros H. apply getNotes_listed in H. intuition congruence.
  - intros H. apply searchNotes_listed in H. intuition congruence.
  - intros Htr. split.
    + intros H. apply getArchivedNotes_listed in H. intuition congruence.
    + intros Hu. apply getTrashedNotes_listed. auto.
Qed.

Lemma views_exclude_trashed_and_archived_witness :
  ~ In trashedShoppingNote (listedPage (getNotes trashDb alice noQuery))
  /\ ~ In trashedShoppingNote (listed (searchNotes trashDb alice shopSearch))
  /\ (isTrashed trashedShoppingNote = true ->
      ~ In trashedShoppingNote (listed (getArchivedNotes trashDb alice))
      /\ (user trashedShoppingNote = alice ->
          In trashedShoppingNote (listed (getTrashedNotes trashDb alice)))).
Proof.
  apply (views_exclude_trashed_and_archived trashDb alice noQuery shopSearch
           trashedShoppingNote).
  - simpl. left. reflexivity.
  - left. reflexivity.
Defined.

(** ** Notes: trash and restore *)

Lemma byId_found (db : Db) (f : NoteFilter) (i u : ObjectId) (n : Note) :
  f_id f = Some i -> f_user f = Some u ->
  Note_findOne db f = Some n ->
  In n (db_notes db) /\ note_id n = i /\ user n = u.
Proof.
  intros Hi Hu H. apply find_some in H as [Hin Hm].
  unfold matchesNote in Hm. rewrite Hi, Hu in Hm. simpl in Hm.
  rewrite !andb_true_iff in Hm.
  destruct Hm as [[[[[[[[Hid Hus] _] _] _] _] _] _] _].
  apply Nat.eqb_eq in Hid, Hus. auto.
Qed.

Lemma replaceNote_In (ns : list Note) (n n' : Note) :
  In n ns -> note_id n' = note_id n -> In n' (replaceNote ns n').
Proof.
  intros Hin Hid. induction ns as [|m ns IH]; simpl; [contradiction|].
  destruct (note_id m =? note_id n') eqn:E; [left; reflexivity|].
  destruct Hin as [->|Hin].
  - rewrite Hid, Nat.eqb_refl in E. discriminate.
  - right. apply IH, Hin.
Qed.

(** [save] of a note whose title and content are valid and whose content,
    content type and color were not assigned. *)
Lemma Note_save_flags (db : Db) (orig cur : Note) (now : Date) :
  validateTitle (title orig) = None ->
  validateContent (content orig) = None ->
  title cur = title orig -> content cur = content orig ->
  contentType cur = contentType orig -> color cur = color orig ->
  Note_save db orig cur now
  = if Note_eq_dec cur orig then inr (cur, db)
    else inr (set_updatedAt now cur,
              with_notes db (replaceNote (db_notes db) (set_updatedAt now cur))).
Proof.
  intros Ht Hc Et Ec Ety Eco. unfold Note_save.
  rewrite Et, Ec, Ety, Eco, Ht, Hc, !String.eqb_refl. simpl.
  reflexivity.
Qed.

(** C4, as the spec words it, fails: [trashDb] holds a note of alice that
    was trashed at 2000; her soft delete at 3000 succeeds but rewrites the
    note, so it is not a no-op. *)
Lemma softDelete_not_noop :
  Note_findOne trashDb (byIdAndUser 1 alice) = Some trashedShoppingNote
  /\ isTrashed trashedShoppingNote = true
  /\ ~ softDeleteIsNoOp trashDb alice 1 3000%Z.
Proof.
  split; [reflexivity|]. split; [reflexivity|].
  intros (code & msg & body & H).
  apply (f_equal snd) in H. simpl in H.
  apply (f_equal db_notes) in H. vm_compute in H. discriminate.
Qed.

(** C4, amended. Soft delete of a note of the caller that is already
    trashed succeeds with status 200.  The stored note keeps [isTrashed] and
    every other field, except that [trashedAt] becomes the current time and,
    when that is a change, [updatedAt] with it. *)
Theorem softDelete_of_trashed (db : Db) (owner noteId : ObjectId) (now : Date)
  (n : Note) :
  Note_findOne db (byIdAndUser noteId owner) = Some n ->
  isTrashed n = true ->
  validateTitle (title n) = None ->
  validateContent (content n) = None ->
  exists n',
    deleteNote db owner noteId None now
    = (Success 200 "Note moved to trash" (TrashedNote n'),
       if Note_eq_dec n' n then db
       else with_notes db (replaceNote (db_notes db) n'))
    /\ isTrashed n' = true
    /\ trashedAt n' = Some now
    /\ set_updatedAt (updatedAt n) (set_trashedAt (trashedAt n) n') = n
    /\ (trashedAt n <> Some now -> updatedAt n' = now /\ n' <> n).
Proof.
  intros Hfind Htr Ht Hc. unfold deleteNote. rewrite Hfind.
  rewrite (Note_save_flags db n (moveToTrash n now) now Ht Hc);
    try reflexivity.
  destruct (Note_eq_dec (moveToTrash n now) n) as [E|E].
  - exists (moveToTrash n now). rewrite E at 1.
    destruct (Note_eq_dec (moveToTrash n now) n); [|contradiction].
    split; [rewrite E; reflexivity|].
    split; [reflexivity|]. split; [reflexivity|].
    split; [destruct n; simpl in *; subst; reflexivity|].
    intros Hne. exfalso. apply Hne. rewrite <- E at 1. reflexivity.
  - exists (set_updatedAt now (moveToTrash n now)).
    destruct (Note_eq_dec (set_updatedAt now (moveToTrash n now)) n) as [E'|E'].
    + exfalso. apply E. destruct n; simpl in *.
      unfold moveToTrash, set_updatedAt, set_trashedAt, set_isTrashed in *.
      simpl in *. injection E' as -> ->. subst. reflexivity.
    + split; [reflexivity|].
      split; [reflexivity|]. split; [reflexivity|].
      split; [destruct n; simpl in *; subst; reflexivity|].
      intros _. split; [reflexivity | exact E'].
Qed.

Lemma softDelete_of_trashed_witness :
  exists n',
    deleteNote trashDb alice 1 None 3000%Z
    = (Success 200 "Note moved to trash" (TrashedNote n'),
       if Note_eq_dec n' trashedShoppingNote then trashDb
       else with_notes trashDb (replaceNote (db_notes trashDb) n'))
    /\ isTrashed n' = true
    /\ trashedAt n' = Some 3000%Z
    /\ set_updatedAt (updatedAt trashedShoppingNote)
         (set_trashedAt (trashedAt trashedShoppingNote) n')
       = trashedShoppingNote
    /\ (trashedAt trashedShoppingNote <> Some 3000%Z ->
        updatedAt n' = 3000%Z /\ n' <> trashedShoppingNote).
Proof.
  apply (softDelete_of_trashed trashDb alice 1 3000%Z trashedShoppingNote);
    reflexivity.
Defined.

(** C10. [restoreNote] on a trashed note of the caller succeeds and changes
    [isTrashed], [trashedAt] and the timestamp [updatedAt] of the stored
    note, nothing else.  In particular [isArchived] is kept: a note that was
    archived before it was trashed is, once restored, in the archive view and
    on no page of the default list. *)
Theorem restore_keeps_archived (db : Db) (owner noteId : ObjectId) (now : Date)
  (q : NotesQuery) (n : Note) :
  Note_findOne db (byIdUserTrashed noteId owner true) = Some n ->
  validateTitle (title n) = None ->
  validateContent (content n) = None ->
  exists n' db',
    restoreNote db owner noteId now
    = (Success 200 "Note restored successfully" n', db')
    /\ n' = set_updatedAt now (set_trashedAt None (set_isTrashed false n))
    /\ db_notes db' = replaceNote (db_notes db) n'
    /\ isArchived n' = isArchived n
    /\ (isArchived n = true ->
        In n' (listed (getArchivedNotes db' owner))
        /\ ~ In n' (listedPage (getNotes db' owner q))).
Proof.
  intros Hfind Ht Hc.
  pose proof (byId_found db (byIdUserTrashed noteId owner true) noteId owner n
                eq_refl eq_refl Hfind)
    as (Hin & Hid & Hu).
  assert (Htr : isTrashed n = true).
  { apply find_some in Hfind as [_ Hm].
    apply matchesNote_core in Hm as (_ & Hm & _). simpl in Hm.
    apply Bool.eqb_prop in Hm. exact Hm. }
  unfold restoreNote. rewrite Hfind.
  rewrite (Note_save_flags db n (restore n) now Ht Hc); try reflexivity.
  destruct (Note_eq_dec (restore n) n) as [E|E].
  { apply (f_equal isTrashed) in E. simpl in E. congruence. }
  eexists; eexists. split; [reflexivity|].
  split; [reflexivity|]. split; [reflexivity|]. split; [reflexivity|].
  intros Har.
  set (n' := set_updatedAt now (restore n)).
  assert (Hin' : In n' (replaceNote (db_notes db) n')).
  { apply (replaceNote_In (db_notes db) n n' Hin). reflexivity. }
  split.
  - simpl. unfold findArchived. apply sortNotes_In.
    unfold Note_find. apply filter_In. split; [exact Hin'|].
    unfold matchesNote. simpl. rewrite Har, Hu, Nat.eqb_refl. reflexivity.
  - intros H. apply getNotes_listed in H as (_ & _ & _ & H).
    simpl in H. congruence.
Qed.

Lemma restore_keeps_archived_witness :
  exists n' db',
    restoreNote trashDb alice 1 4000%Z
    = (Success 200 "Note restored successfully" n', db')
    /\ n' = set_updatedAt 4000%Z
              (set_trashedAt None (set_isTrashed false trashedShoppingNote))
    /\ db_notes db' = replaceNote (db_notes trashDb) n'
    /\ isArchived n' = isArchived trashedShoppingNote
    /\ (isArchived trashedShoppingNote = true ->
        In n' (listed (getArchivedNotes db' alice))
        /\ ~ In n' (listedPage (getNotes db' alice noQuery))).
Proof.
  apply (restore_keeps_archived trashDb alice 1 4000%Z noQuery
           trashedShoppingNote); reflexivity.
Defined.

(** The sample notes are what the controllers produce: the shopping note
    archived at 1500 and trashed at 2000 is the note of [trashDb]. *)
Lemma trashDb_reached :
  snd (deleteNote (snd (archiveNote shoppingDb alice 1 1500%Z)) alice 1 None
         2000%Z) = trashDb.
Proof. reflexivity. Qed.

(** ** Notes: pagination *)




(** ** Tags *)

(** The check for an existing name works for a name made of letters: "work"
    is refused while alice has "Work", with the duplicate-name answer and no
    change; bob may have the same name. *)
Example createTag_plain_name :
  createTag emptyDb alice (named "Work") 10%Z
  = (Success 201 noMessage tagWork, mkDb [] [tagWork] [] [] [] 2)
  /\ createTag (mkDb [] [tagWork] [] [] [] 2) alice (named "work") 20%Z
     = (Failure 400 "Tag with this name already exists",
        mkDb [] [tagWork] [] [] [] 2)
  /\ createTag (mkDb [] [tagWork] [] [] [] 2) bob (named "work") 20%Z
     = (Success 201 noMessage tagWorkBob, mkDb [] [tagWork; tagWorkBob] [] [] [] 3).
Proof. repeat split; reflexivity. Qed.

Lemma parseItems_plain (d : Regex.dialect) (s : string) (st : Regex.pstate)
  (acc : list (Regex.atom * Regex.quant)) :
  allChars isPlain s = true ->
  Regex.parseItems d (s ++ "$") st acc
  = Regex.Compiled (Regex.mkRegex false (rev acc ++ literals s)%list true).
Proof.
  revert st acc. induction s as [|c s IH]; intros st acc Hs.
  - simpl. rewrite app_nil_r. reflexivity.
  - simpl in Hs. apply andb_true_iff in Hs as [Hc Hs].
    unfold isPlain in Hc. rewrite !andb_true_iff, !negb_true_iff in Hc.
    destruct Hc as [[Hq Ho] Hdot].
    change ((String c s ++ "$")%string) with (String c (s ++ "$")).
    cbn [Regex.parseItems]. rewrite Hq, Ho, Hdot.
    assert (H36 : (nat_of_ascii c =? 36) = false).
    { unfold Regex.isOtherSyntax in Ho. rewrite !orb_false_iff in Ho. tauto. }
    rewrite H36. cbn [andb].
    rewrite (IH Regex.AfterAtom ((Regex.Lit c, Regex.One) :: acc) Hs).
    cbn [rev literals]. rewrite <- app_assoc. reflexivity.
Qed.

Lemma literals_match (name s : string) :
  foldString s = foldString name ->
  Regex.matchItems (literals name) Regex.atEnd s = true.
Proof.
  revert s. induction name as [|p name IH]; intros [|c s] H;
    simpl in H; try discriminate.
  - reflexivity.
  - injection H as Hc Hs. cbn [literals Regex.matchItems Regex.atomMatches].
    rewrite Hc, Nat.eqb_refl. apply IH, Hs.
Qed.

(** For a name made of plain code units the check does what C9 says: when
    the owner has a tag whose name differs from it by letter case at most,
    [createTag] answers with the duplicate-name error and creates nothing. *)
Lemma createTag_plain_duplicate (db : Db) (owner : ObjectId) (name : string)
  (color : option string) (now : Date) (t : Tag) :
  allChars isPlain name = true ->
  In t (db_tags db) -> tag_user t = owner ->
  foldString (tag_name t) = foldString name ->
  createTag db owner (mkCreateTagBody (Some name) color) now
  = (Failure 400 "Tag with this name already exists", db).
Proof.
  intros Hplain Hin Hu Hfold. unfold createTag, tagPattern, Regex.compile.
  cbn [tb_name]. change (("^" ++ name ++ "$")%string)
    with (String "^"%char (name ++ "$")).
  cbv iota beta.
  rewrite (parseItems_plain Regex.JavaScript name Regex.NoAtom [] Hplain).
  cbn [rev app Regex.items Regex.anchorEnd].
  destruct (find _ (db_tags db)) eqn:Hf; [reflexivity|].
  apply (find_none _ _ Hf) in Hin.
  unfold Regex.test in Hin. cbn [Regex.anchorStart Regex.anchorEnd Regex.items]
    in Hin.
  rewrite Hu, Nat.eqb_refl, (literals_match name (tag_name t) Hfold) in Hin.
  discriminate.
Qed.

(** C9 (the code departs from it). The name goes into the pattern as it is.
    Alice creates the tag "a+" and then "A+", which differs from it by letter
    case only: the pattern [^A+$] stands for one or more letters a and does
    not match the stored "a+", the unique index compares exactly, and the
    second tag is created. *)
Theorem createTag_case_variant_created :
  createTag emptyDb alice (named "a+") 10%Z
  = (Success 201 noMessage tagAPlus, mkDb [] [tagAPlus] [] [] [] 2)
  /\ createTag (mkDb [] [tagAPlus] [] [] [] 2) alice (named "A+") 20%Z
     = (Success 201 noMessage tagAPlusUpper,
        mkDb [] [tagAPlus; tagAPlusUpper] [] [] [] 3)
  /\ foldString (tag_name tagAPlus) = foldString (tag_name tagAPlusUpper)
  /\ tag_user tagAPlus = tag_user tagAPlusUpper.
Proof. repeat split; reflexivity. Qed.

(** ** Shares *)

Lemma with_shares_same (db : Db) : with_shares db (db_shares db) = db.
Proof. destruct db; reflexivity. Qed.

Lemma with_reminders_same (db : Db) : with_reminders db (db_reminders db) = db.
Proof. destruct db; reflexivity. Qed.

(** For every note, owner and token, the share record of a link is
    rejected by the schema, where [sharedWith] is required; nothing is
    stored. *)
Lemma generateShareLink_never_succeeds (db : Db) (owner noteId : ObjectId)
  (expiresAt : option Date) (bytes : list ascii) (url : option string)
  (now : Date) :
  generateShareLink db owner noteId expiresAt bytes url now
  = (Failure 404 "Note not found", db)
  \/ generateShareLink db owner noteId expiresAt bytes url now
     = (Failure 500 "Server error while generating share link", db).
Proof.
  unfold generateShareLink.
  destruct (Note_findOne db _); [right | left; reflexivity].
  unfold SharedNote_create. destruct expiresAt; reflexivity.
Qed.

(** C5 (the code departs from it). Note 1 of [shoppingDb] is owned by alice
    and not trashed, and her request for a share link is answered with
    status 500; no share record is created. *)
Theorem generateShareLink_fails :
  Note_findOne shoppingDb (byIdUserTrashed 1 alice false) = Some shoppingNote
  /\ List.length sampleBytes = 32
  /\ generateShareLink shoppingDb alice 1 None sampleBytes None 5000%Z
     = (Failure 500 "Server error while generating share link", shoppingDb).
Proof. repeat split; reflexivity. Qed.

(** The share that [sharedDb] holds is the one a direct share creates. *)
Lemma sharedDb_reached :
  SharedNote_create shoppingDb
    [ ("note", VId 1); ("owner", VId alice); ("sharedWith", VId bob);
      ("permission", VStr "read"); ("expiresAt", VNull) ] 5000%Z
  = inr (directShare, sharedDb).
Proof. reflexivity. Qed.

(** Fetching by token never changes the database, and a successful answer
    carries NaN as its view count: [viewCount] is not a path of the schema,
    so it reads as undefined and is not written by [save]. *)
Lemma getSharedNoteByToken_stores_nothing (strictQuery : bool) (db : Db)
  (token : string) (now : Date) :
  snd (getSharedNoteByToken strictQuery db token now) = db
  /\ forall code msg view,
       fst (getSharedNoteByToken strictQuery db token now)
       = Success code msg view ->
       sv_viewCount view = VNaN.
Proof.
  unfold getSharedNoteByToken.
  destruct (findOne _ _ _ _) as [stored|]; [|split; [reflexivity|discriminate]].
  destruct (_ && _); [split; [reflexivity|discriminate]|].
  change (get sharedNoteSchema (hydrate stored) "viewCount") with VUndefined.
  cbv beta iota delta [addOne].
  change (set sharedNoteSchema (hydrate stored) "viewCount" VNaN)
    with (mkDocument stored [("viewCount", VNaN)]).
  unfold save. cbv beta iota delta [doc_fields doc_adhoc].
  destruct (validate _ stored); [|split; [reflexivity|discriminate]].
  destruct (obj_eq_dec stored stored) as [_|E]; [|contradiction].
  split; [apply with_shares_same|].
  simpl. intros code msg view H. injection H as _ _ <-. reflexivity.
Qed.

(** The expiry check is as the spec has it: a share that is found and whose
    [expiresAt] lies before the current time is refused with status 403, and
    nothing is written. *)
Lemma getSharedNoteByToken_expired (strictQuery : bool) (db : Db)
  (token : string) (now e : Date) (stored : obj) :
  findOne sharedNoteSchema strictQuery (db_shares db)
    [("shareToken", VStr token)] = Some stored ->
  lookup stored "expiresAt" = VDate e ->
  (e < now)%Z ->
  getSharedNoteByToken strictQuery db token now
  = (Failure 403 "This share link has expired", db).
Proof.
  intros Hfind He Hlt. unfold getSharedNoteByToken. rewrite Hfind.
  change (get sharedNoteSchema (hydrate stored) "expiresAt")
    with (lookup stored "expiresAt").
  rewrite He. cbn [truthy andb]. apply Z.ltb_lt in Hlt. rewrite Hlt.
  reflexivity.
Qed.

(** C6 (the code departs from it). [sharedDb] holds one share, without
    expiry.  A fetch by token does not increment a stored counter: when the
    mapper drops the unknown [shareToken] condition, the share is served for
    any token with NaN as view count and the record is left as it was, also
    on the second fetch; when the condition is kept, no share is found. *)
Theorem getSharedNoteByToken_count_not_incremented :
  getSharedNoteByToken true sharedDb "abcd" 6000%Z
  = (Success 200 noMessage (mkSharedView (VId 1) (VId alice) (VStr "read") VNaN),
     sharedDb)
  /\ getSharedNoteByToken true
       (snd (getSharedNoteByToken true sharedDb "abcd" 6000%Z)) "abcd" 7000%Z
     = (Success 200 noMessage (mkSharedView (VId 1) (VId alice) (VStr "read") VNaN),
        sharedDb)
  /\ lookup directShare "viewCount" = VUndefined
  /\ getSharedNoteByToken false sharedDb "abcd" 6000%Z
     = (Failure 404 "Shared note not found", sharedDb).
Proof. repeat split; reflexivity. Qed.

(** ** Reminders *)

Lemma calculateNextDate_daily (t : Date) :
  calculateNextDate t "daily" = Some (t + DateTime.msPerDay)%Z.
Proof.
  unfold calculateNextDate. simpl. f_equal.
  unfold DateTime.setDate, DateTime.MakeDate, DateTime.Day,
    DateTime.TimeWithinDay.
  pose proof (Z.div_mod t DateTime.msPerDay) as H.
  assert (DateTime.msPerDay <> 0)%Z as Hne by discriminate.
  specialize (H Hne). lia.
Qed.

Lemma reminderDb_reached :
  createReminder shoppingDb alice dailyBody 5000%Z
  = (Success 201 noMessage dailyReminder, reminderDb).
Proof. reflexivity. Qed.

(** Completing a reminder never changes the database: [status] and
    [recurringPattern] are not paths of the schema, so the first is not
    written and the second reads as undefined. *)
Lemma completeReminder_stores_nothing (db : Db) (owner reminderId : ObjectId)
  (now : Date) :
  snd (completeReminder db owner reminderId now) = db.
Proof.
  unfold completeReminder.
  destruct (findOne _ _ _ _) as [stored|]; [|reflexivity].
  change (set reminderSchema (hydrate stored) "status" (VStr "completed"))
    with (mkDocument stored [("status", VStr "completed")]).
  unfold save. cbv beta iota delta [doc_fields doc_adhoc].
  destruct (validate _ stored); [|reflexivity].
  destruct (obj_eq_dec stored stored) as [_|E]; [|contradiction].
  change (get reminderSchema
            (mkDocument stored [("status", VStr "completed")])
            "recurringPattern") with VUndefined.
  cbv beta iota delta [truthy]. rewrite andb_false_r.
  apply with_reminders_same.
Qed.


(* ================================================================== *)
(** * Further properties of the code *)
(* ================================================================== *)

(** ** The purge of the trash *)

Lemma isExpired_purgeable (n : Note) (now : Date) :
  isExpired n now = purgeable now n.
Proof.
  unfold isExpired, purgeable.
  destruct (isTrashed n), (trashedAt n); reflexivity.
Qed.

Lemma purgeable_spec (now : Date) (n : Note) :
  purgeable now n = true <->
  isTrashed n = true
  /\ exists t, trashedAt n = Some t /\ (t < now - thirtyDays)%Z.
Proof.
  unfold purgeable. rewrite andb_true_iff. split.
  - intros [Htr Hold]. apply Bool.eqb_prop in Htr. split; [exact Htr|].
    destruct (trashedAt n) as [t|]; [|discriminate].
    exists t. split; [reflexivity | apply Z.ltb_lt, Hold].
  - intros [Htr (t & Ht & Hlt)]. rewrite Htr, Ht. split; [reflexivity|].
    apply Z.ltb_lt, Hlt.
Qed.

(** X1. [cleanupTrash] deletes a note exactly when it is trashed and its
    [trashedAt] lies more than thirty days before the current time: a note
    that is not trashed, or was trashed within the last thirty days, or has
    no [trashedAt], is kept.  The count it returns is the number of notes
    that went away. *)
Theorem cleanupTrash_deletes_exactly_old_trash (db : Db) (now : Date)
  (n : Note) :
  (In n (db_notes (snd (cleanupTrash db now))) <->
   In n (db_notes db)
   /\ ~ (isTrashed n = true
         /\ exists t, trashedAt n = Some t /\ (t < now - thirtyDays)%Z))
  /\ List.length (db_notes db)
     = fst (cleanupTrash db now)
       + List.length (db_notes (snd (cleanupTrash db now))).
Proof.
  unfold cleanupTrash; cbn [fst snd with_notes db_notes]. split.
  - rewrite filter_In, negb_true_iff, <- purgeable_spec.
    destruct (purgeable now n); intuition congruence.
  - induction (db_notes db) as [|m ns IH]; [reflexivity|].
    cbn [filter]. destruct (purgeable now m); cbn [negb length]; lia.
Qed.

Lemma filter_filter_same (A : Type) (p : A -> bool) (l : list A) :
  filter p (filter p l) = filter p l.
Proof.
  induction l as [|a l IH]; [reflexivity|].
  cbn [filter]. destruct (p a) eqn:E; [|exact IH].
  cbn [filter]. rewrite E, IH. reflexivity.
Qed.

Lemma filter_none (A : Type) (p : A -> bool) (l : list A) :
  filter p (filter (fun a => negb (p a)) l) = [].
Proof.
  induction l as [|a l IH]; [reflexivity|].
  cbn [filter]. destruct (p a) eqn:E; cbn [negb filter]; [exact IH|].
  rewrite E. exact IH.
Qed.

(** X2. The purge agrees with the virtual field [isExpired]: the notes it
    keeps are those that are not expired.  Running it again at the same time
    deletes nothing more. *)
Theorem cleanupTrash_keeps_unexpired_and_is_idempotent (db : Db) (now : Date) :
  db_notes (snd (cleanupTrash db now))
  = filter (fun n => negb (isExpired n now)) (db_notes db)
  /\ cleanupTrash (snd (cleanupTrash db now)) now
     = (0, snd (cleanupTrash db now)).
Proof.
  split.
  - unfold cleanupTrash; cbn [snd with_notes db_notes].
    apply filter_ext. intros n. rewrite isExpired_purgeable. reflexivity.
  - unfold cleanupTrash; cbn [fst snd with_notes db_notes].
    rewrite filter_none.
    rewrite (filter_filter_same Note (fun n => negb (purgeable now n))).
    reflexivity.
Qed.

(** What [save] of a loaded note gives back: the stored form of the object
    that was assigned to, present in the collection. *)
Lemma Note_save_stored (db db' : Db) (orig cur n' : Note) (now : Date) :
  In orig (db_notes db) -> note_id cur = note_id orig ->
  Note_save db orig cur now = inr (n', db') ->
  In n' (db_notes db')
  /\ isTrashed n' = isTrashed cur /\ isArchived n' = isArchived cur
  /\ user n' = user cur /\ note_id n' = note_id cur.
Proof.
  intros Hin Hid. unfold Note_save.
  destruct (_ ++ _)%list; [|discriminate].
  set (cur1 := preSave _ cur).
  assert (H1 : isTrashed cur1 = isTrashed cur /\ isArchived cur1 = isArchived cur
               /\ user cur1 = user cur /\ note_id cur1 = note_id cur).
  { unfold cur1, preSave. destruct (negb _); repeat split; reflexivity. }
  destruct (Note_eq_dec cur1 orig) as [E|E]; intros H; injection H as <- <-.
  - rewrite E in *. tauto.
  - split; [|exact H1]. cbn [with_notes db_notes].
    apply (replaceNote_In (db_notes db) orig _ Hin).
    cbn. destruct H1 as (_ & _ & _ & ->). exact Hid.
Qed.

(** X3. A note that was restored from the trash survives every later purge,
    however long it had been in the trash. *)
Theorem restored_note_survives_purge (db db' : Db) (owner noteId : ObjectId)
  (now later : Date) (code : nat) (msg : string) (n' : Note) :
  restoreNote db owner noteId now = (Success code msg n', db') ->
  In n' (db_notes (snd (cleanupTrash db' later))).
Proof.
  unfold restoreNote.
  destruct (Note_findOne db _) as [n|] eqn:Hfind; [|discriminate].
  destruct (Note_save db n (restore n) now) as [|[m d]] eqn:Hsave;
    [discriminate|].
  intros H; injection H as _ _ <- <-.
  apply find_some in Hfind as [Hin _].
  apply (Note_save_stored db d n (restore n) m now Hin eq_refl) in Hsave
    as (Hin' & Htr & _).
  unfold cleanupTrash; cbn [snd with_notes db_notes].
  apply filter_In. split; [exact Hin'|].
  unfold purgeable. rewrite Htr. reflexivity.
Qed.

Lemma restored_note_survives_purge_witness :
  In (set_updatedAt 4000%Z (restore trashedShoppingNote))
    (db_notes
       (snd (cleanupTrash
               (with_notes trashDb
                  [set_updatedAt 4000%Z (restore trashedShoppingNote)])
               9000000000%Z))).
Proof.
  apply (restored_note_survives_purge trashDb _ alice 1 4000%Z 9000000000%Z
           200 "Note restored successfully").
  reflexivity.
Defined.

(** ** Emptying the trash *)

(** X4. [emptyTrash] removes the trashed notes of the caller and nothing
    else: every other note, trashed notes of other users among them, stays
    as it is.  Afterwards the trash view of the caller is empty, and the
    count in the answer is the number of notes that view showed. *)
Theorem emptyTrash_removes_own_trash_only (db : Db) (owner : ObjectId)
  (n : Note) :
  (In n (db_notes (snd (emptyTrash db owner))) <->
   In n (db_notes db) /\ ~ (user n = owner /\ isTrashed n = true))
  /\ listed (getTrashedNotes (snd (emptyTrash db owner)) owner) = []
  /\ fst (emptyTrash db owner)
     = Success 200
         (natToString (List.length (listed (getTrashedNotes db owner)))
          ++ " notes permanently deleted")%string
         (List.length (listed (getTrashedNotes db owner))).
Proof.
  assert (Hlen : forall spec l, List.length (sortNotes spec l) = List.length l).
  { intros spec l. unfold sortNotes. induction l as [|x l IH]; [reflexivity|].
    cbn [fold_right].
    assert (Hins : forall y k, List.length (insertNote spec y k)
                               = S (List.length k)).
    { intros y k. induction k as [|z k IHk]; [reflexivity|].
      cbn [insertNote]. destruct (compareNotes spec y z); cbn [length];
        rewrite ?IHk; reflexivity. }
    rewrite Hins, IH. reflexivity. }
  assert (Hsame : forall m,
    matchesNote (mkFilter None (Some owner) (Some true) None None None None
                   None None) m = inTrashOf owner m).
  { intros m. unfold matchesNote, inTrashOf. cbn.
    rewrite !andb_true_r. reflexivity. }
  split; [|split].
  - unfold emptyTrash; cbn [snd with_notes db_notes].
    rewrite filter_In, negb_true_iff. unfold inTrashOf.
    destruct (Nat.eqb_spec (user n) owner) as [E|E];
      destruct (isTrashed n); cbn; intuition congruence.
  - cbn [listed getTrashedNotes]. unfold findTrashed, Note_find.
    unfold emptyTrash; cbn [snd with_notes db_notes].
    rewrite (filter_ext _ _ Hsame), filter_none. reflexivity.
  - unfold emptyTrash; cbn [fst]. cbn [listed getTrashedNotes].
    unfold findTrashed, Note_find. rewrite Hlen, (filter_ext _ _ Hsame).
    reflexivity.
Qed.

(** ** Lookup and replacement under unique ids *)

Lemma matches_id (f : NoteFilter) (m : Note) (i : ObjectId) :
  matchesNote f m = true -> f_id f = Some i -> note_id m = i.
Proof.
  unfold matchesNote. intros H Hi. rewrite Hi in H. cbn [cond] in H.
  rewrite !andb_true_iff in H.
  destruct H as [[[[[[[[H _] _] _] _] _] _] _] _].
  apply Nat.eqb_eq, H.
Qed.

Lemma unique_by_id (ns : list Note) (n m : Note) :
  NoDup (map note_id ns) -> In n ns -> In m ns ->
  note_id n = note_id m -> n = m.
Proof.
  induction ns as [|x ns IH]; cbn [map]; intros Hnd Hn Hm Hid;
    [contradiction|].
  inversion Hnd as [|? ? Hnot Hnd']; subst.
  destruct Hn as [->|Hn], Hm as [->|Hm]; auto.
  - exfalso. apply Hnot. rewrite Hid. apply in_map, Hm.
  - exfalso. apply Hnot. rewrite <- Hid. apply in_map, Hn.
Qed.

Lemma findOne_unique (db : Db) (f : NoteFilter) (n : Note) :
  NoDup (map note_id (db_notes db)) -> In n (db_notes db) ->
  f_id f = Some (note_id n) -> matchesNote f n = true ->
  Note_findOne db f = Some n.
Proof.
  intros Hnd Hin Hid Hm. unfold Note_findOne.
  destruct (find _ _) as [m|] eqn:Hf.
  - apply find_some in Hf as [Hin' Hm'].
    f_equal. apply (unique_by_id (db_notes db)); auto.
    apply (matches_id f m _ Hm' Hid).
  - apply (find_none _ _ Hf) in Hin. congruence.
Qed.

Lemma findOne_none (db : Db) (f : NoteFilter) (n : Note) :
  NoDup (map note_id (db_notes db)) -> In n (db_notes db) ->
  f_id f = Some (note_id n) -> matchesNote f n = false ->
  Note_findOne db f = None.
Proof.
  intros Hnd Hin Hid Hm. unfold Note_findOne.
  destruct (find _ _) as [m|] eqn:Hf; [|reflexivity].
  apply find_some in Hf as [Hin' Hm'].
  assert (m = n).
  { apply (unique_by_id (db_notes db)); auto.
    apply (matches_id f m _ Hm' Hid). }
  congruence.
Qed.

Lemma replaceNote_ids (ns : list Note) (n' : Note) :
  map note_id (replaceNote ns n') = map note_id ns.
Proof.
  induction ns as [|m ns IH]; [reflexivity|]. cbn [replaceNote].
  destruct (Nat.eqb_spec (note_id m) (note_id n')) as [E|E]; cbn [map].
  - rewrite E. reflexivity.
  - rewrite IH. reflexivity.
Qed.

Lemma replaceNote_members (ns : list Note) (n n' m : Note) :
  NoDup (map note_id ns) -> In n ns -> note_id n' = note_id n ->
  (In m (replaceNote ns n') <->
   m = n' \/ (In m ns /\ note_id m <> note_id n')).
Proof.
  induction ns as [|x ns IH]; cbn [map]; intros Hnd Hin Hid;
    [contradiction|].
  inversion Hnd as [|? ? Hnot Hnd']; subst. cbn [replaceNote].
  destruct (Nat.eqb_spec (note_id x) (note_id n')) as [E|E]; cbn [In].
  - split.
    + intros [->|H]; [left; reflexivity|]. right. split; [right; exact H|].
      intros E'. apply Hnot. rewrite E, <- E'. apply in_map, H.
    + intros [->|[[->|H] Hne]]; [left; reflexivity | congruence | right; exact H].
  - destruct Hin as [->|Hin]; [congruence|].
    rewrite (IH Hnd' Hin Hid). split.
    + intros [->|[->|[H Hne]]]; [right; split; [left; reflexivity | congruence]
                                | left; reflexivity | right; tauto].
    + intros [->|[[->|H] Hne]]; [right; left; reflexivity | left; reflexivity
                                | right; right; tauto].
Qed.

Lemma replaceNote_twice (ns : list Note) (a b : Note) :
  note_id a = note_id b ->
  replaceNote (replaceNote ns a) b = replaceNote ns b.
Proof.
  intros Hid. induction ns as [|m ns IH]; [reflexivity|]. cbn [replaceNote].
  rewrite Hid.
  destruct (Nat.eqb_spec (note_id m) (note_id b)) as [E|E]; cbn [replaceNote].
  - rewrite Hid, Nat.eqb_refl. reflexivity.
  - destruct (Nat.eqb_spec (note_id m) (note_id b)); [contradiction|].
    rewrite IH. reflexivity.
Qed.

Lemma removeNote_members (ns : list Note) (i : ObjectId) (m : Note) :
  NoDup (map note_id ns) ->
  (In m (removeNote ns i) <-> In m ns /\ note_id m <> i).
Proof.
  induction ns as [|x ns IH]; cbn [map]; intros Hnd; [cbn; tauto|].
  inversion Hnd as [|? ? Hnot Hnd']; subst. cbn [removeNote].
  destruct (Nat.eqb_spec (note_id x) i) as [E|E]; cbn [In].
  - split.
    + intros H. split; [right; exact H|].
      intros E'. apply Hnot. rewrite E, <- E'. apply in_map, H.
    + intros [[->|H] Hne]; [congruence | exact H].
  - rewrite (IH Hnd'). split.
    + intros [->|[H Hne]]; [split; [left; reflexivity | exact E] | tauto].
    + intros [[->|H] Hne]; [left; reflexivity | right; tauto].
Qed.

(** [findByIdAndUpdate] with fields that pass their validators, on a
    collection with unique ids. *)
Lemma findByIdAndUpdate_unique (db : Db) (n : Note) (u : UpdateNoteBody)
  (now : Date) :
  NoDup (map note_id (db_notes db)) -> In n (db_notes db) ->
  ub_title u = None -> ub_content u = None -> ub_color u = None ->
  ub_contentType u = None ->
  Note_findByIdAndUpdate db (note_id n) u now
  = inr (Some (set_updatedAt now (applyFields u n)),
         with_notes db
           (replaceNote (db_notes db) (set_updatedAt now (applyFields u n)))).
Proof.
  intros Hnd Hin Ht Hc Hco Hty. unfold Note_findByIdAndUpdate.
  rewrite Ht, Hc, Hco, Hty. cbn [app].
  rewrite (findOne_unique db
             (mkFilter (Some (note_id n)) None None None None None None None
                None) n Hnd Hin eq_refl).
  - reflexivity.
  - unfold matchesNote. cbn. rewrite Nat.eqb_refl. reflexivity.
Qed.

(** ** Permanent delete, views, pin and favorite *)

(** X5. With [permanent=true], [deleteNote] removes a note of the caller
    whatever its state is, trashed or not; the other notes stay, and from
    then on nobody can fetch a note under that id. *)
Theorem permanent_delete_is_final (db : Db) (owner noteId : ObjectId)
  (now later : Date) (anyone : ObjectId) (n m : Note) :
  NoDup (map note_id (db_notes db)) ->
  Note_findOne db (byIdAndUser noteId owner) = Some n ->
  exists db',
    deleteNote db owner noteId (Some "true") now
    = (Success 200 "Note permanently deleted"
         (DeletedNote noteId (title n)), db')
    /\ (In m (db_notes db') <-> In m (db_notes db) /\ note_id m <> noteId)
    /\ getNoteById db' anyone noteId later
       = (Failure 404
            "Note not found or you do not have permission to access it", db').
Proof.
  intros Hnd Hfind.
  pose proof (byId_found db (byIdAndUser noteId owner) noteId owner n
                eq_refl eq_refl Hfind) as (Hin & Hid & Hu).
  unfold deleteNote. rewrite Hfind. cbn [String.eqb Ascii.eqb Bool.eqb].
  rewrite Hid. eexists. split; [reflexivity|].
  cbn [with_notes db_notes]. split.
  - apply removeNote_members, Hnd.
  - unfold getNoteById, Note_findOne. cbn [with_notes db_notes].
    destruct (find _ _) as [x|] eqn:Hf; [|reflexivity].
    apply find_some in Hf as [Hx Hmx].
    apply (removeNote_members _ _ _ Hnd) in Hx as [_ Hne].
    exfalso. apply Hne.
    apply (matches_id (byIdUserTrashed noteId anyone false) x noteId Hmx).
    reflexivity.
Qed.

Lemma permanent_delete_is_final_witness :
  exists db',
    deleteNote trashDb alice 1 (Some "true") 3000%Z
    = (Success 200 "Note permanently deleted"
         (DeletedNote 1 (title trashedShoppingNote)), db')
    /\ (In trashedShoppingNote (db_notes db') <->
        In trashedShoppingNote (db_notes trashDb)
        /\ note_id trashedShoppingNote <> 1)
    /\ getNoteById db' bob 1 4000%Z
       = (Failure 404
            "Note not found or you do not have permission to access it", db').
Proof.
  apply (permanent_delete_is_final trashDb alice 1 3000%Z 4000%Z bob
           trashedShoppingNote trashedShoppingNote).
  - simpl. repeat constructor. simpl. tauto.
  - reflexivity.
Defined.

(** X6. [getNoteById] on a note of the caller that is not trashed answers
    with the note and counts the view: [viewCount] grows by one.  Apart from
    the timestamp [updatedAt] nothing else changes; in particular
    [lastViewedAt] is not set and the word and character counts stay. *)
Theorem getNoteById_counts_view (db : Db) (owner noteId : ObjectId)
  (now : Date) (n : Note) :
  Note_findOne db (byIdUserTrashed noteId owner false) = Some n ->
  validateTitle (title n) = None ->
  validateContent (content n) = None ->
  exists n',
    getNoteById db owner noteId now
    = (Success 200 noMessage n',
       with_notes db (replaceNote (db_notes db) n'))
    /\ n' = set_updatedAt now (set_viewCount (viewCount n + 1) n)
    /\ viewCount n' = viewCount n + 1
    /\ lastViewedAt n' = lastViewedAt n
    /\ wordCount n' = wordCount n /\ characterCount n' = characterCount n.
Proof.
  intros Hfind Ht Hc. unfold getNoteById. rewrite Hfind.
  rewrite (Note_save_flags db n _ now Ht Hc); try reflexivity.
  destruct (Note_eq_dec _ n) as [E|E].
  - apply (f_equal viewCount) in E. cbn in E. lia.
  - eexists. split; [reflexivity|]. repeat split; reflexivity.
Qed.

Lemma getNoteById_counts_view_witness :
  exists n',
    getNoteById shoppingDb alice 1 3000%Z
    = (Success 200 noMessage n',
       with_notes shoppingDb (replaceNote (db_notes shoppingDb) n'))
    /\ n' = set_updatedAt 3000%Z
              (set_viewCount (viewCount shoppingNote + 1) shoppingNote)
    /\ viewCount n' = viewCount shoppingNote + 1
    /\ lastViewedAt n' = lastViewedAt shoppingNote
    /\ wordCount n' = wordCount shoppingNote
    /\ characterCount n' = characterCount shoppingNote.
Proof.
  apply (getNoteById_counts_view shoppingDb alice 1 3000%Z shoppingNote);
    reflexivity.
Defined.

Lemma matches_byIdAndUser (n : Note) :
  matchesNote (byIdAndUser (note_id n) (user n)) n = true.
Proof. unfold matchesNote. cbn. rewrite !Nat.eqb_refl. reflexivity. Qed.

(** X7. [togglePinNote] needs nothing but ownership, it also works on a
    trashed note, and it is an involution: toggling twice gives back the
    stored note with only [updatedAt] moved. *)
Theorem togglePin_twice (db : Db) (owner noteId : ObjectId) (t1 t2 : Date)
  (n : Note) :
  NoDup (map note_id (db_notes db)) ->
  Note_findOne db (byIdAndUser noteId owner) = Some n ->
  exists n1 db1 msg1 msg2,
    togglePinNote db owner noteId t1 = (Success 200 msg1 n1, db1)
    /\ isPinned n1 = negb (isPinned n)
    /\ togglePinNote db1 owner noteId t2
       = (Success 200 msg2 (set_updatedAt t2 n),
          with_notes db (replaceNote (db_notes db) (set_updatedAt t2 n))).
Proof.
  intros Hnd Hfind.
  pose proof (byId_found db (byIdAndUser noteId owner) noteId owner n
                eq_refl eq_refl Hfind) as (Hin & Hid & Hu).
  subst noteId owner.
  set (n1 := set_updatedAt t1 (set_isPinned (negb (isPinned n)) n)).
  set (db1 := with_notes db (replaceNote (db_notes db) n1)).
  assert (H1 : togglePinNote db (user n) (note_id n) t1
               = (Success 200 (if isPinned n1 then "Note pinned"
                               else "Note unpinned") n1, db1)).
  { unfold togglePinNote. rewrite Hfind.
    rewrite (findByIdAndUpdate_unique db n _ t1 Hnd Hin); reflexivity. }
  assert (Hnd1 : NoDup (map note_id (db_notes db1))).
  { unfold db1. cbn [with_notes db_notes]. rewrite replaceNote_ids. exact Hnd. }
  assert (Hin1 : In n1 (db_notes db1)).
  { unfold db1. cbn [with_notes db_notes].
    apply (replaceNote_In (db_notes db) n n1 Hin). reflexivity. }
  exists n1, db1. eexists. eexists. split; [exact H1|].
  split; [reflexivity|].
  unfold togglePinNote.
  rewrite (findOne_unique db1 (byIdAndUser (note_id n) (user n)) n1 Hnd1 Hin1
             eq_refl (matches_byIdAndUser n)).
  change (note_id n) with (note_id n1).
  rewrite (findByIdAndUpdate_unique db1 n1 _ t2 Hnd1 Hin1); try reflexivity.
  assert (E : set_updatedAt t2
                (applyFields (onlyPinned (negb (isPinned n1))) n1)
              = set_updatedAt t2 n).
  { destruct n. cbn. rewrite negb_involutive. reflexivity. }
  rewrite E. unfold db1. cbn [with_notes db_notes].
  rewrite (replaceNote_twice (db_notes db) n1 (set_updatedAt t2 n) eq_refl).
  destruct db. reflexivity.
Qed.

Lemma togglePin_twice_witness :
  exists n1 db1 msg1 msg2,
    togglePinNote trashDb alice 1 3000%Z = (Success 200 msg1 n1, db1)
    /\ isPinned n1 = negb (isPinned trashedShoppingNote)
    /\ togglePinNote db1 alice 1 4000%Z
       = (Success 200 msg2 (set_updatedAt 4000%Z trashedShoppingNote),
          with_notes trashDb
            (replaceNote (db_notes trashDb)
               (set_updatedAt 4000%Z trashedShoppingNote))).
Proof.
  apply (togglePin_twice trashDb alice 1 3000%Z 4000%Z trashedShoppingNote).
  - simpl. repeat constructor. simpl. tauto.
  - reflexivity.
Defined.

(** ** What a trashed note admits *)

Lemma trashed_not_found (db : Db) (owner : ObjectId) (n : Note) :
  NoDup (map note_id (db_notes db)) -> In n (db_notes db) ->
  isTrashed n = true ->
  Note_findOne db (byIdUserTrashed (note_id n) owner false) = None.
Proof.
  intros Hnd Hin Htr.
  apply (findOne_none db (byIdUserTrashed (note_id n) owner false) n Hnd Hin
           eq_refl).
  unfold matchesNote. cbn. rewrite Htr, Nat.eqb_refl. cbn.
  rewrite andb_false_r. reflexivity.
Qed.

(** X8. A note in the trash is frozen: reading it, updating it, archiving
    it, marking it favorite, duplicating it, sharing it by link and setting
    a reminder on it are all answered with status 404, for every caller, and
    change nothing. *)
Theorem trashed_note_is_frozen (db : Db) (owner : ObjectId) (n : Note)
  (now : Date) (body : UpdateNoteBody) (expiresAt : option Date)
  (bytes : list ascii) (url : option string) (rtitle : option string)
  (due : Date) (recurring : option bool) (pattern : option string)
  (methods : option (list string)) :
  NoDup (map note_id (db_notes db)) -> In n (db_notes db) ->
  isTrashed n = true ->
  getNoteById db owner (note_id n) now
  = (Failure 404 "Note not found or you do not have permission to access it",
     db)
  /\ updateNote db owner (note_id n) body now
     = (Failure 404
          "Note not found or you do not have permission to update it", db)
  /\ archiveNote db owner (note_id n) now = (Failure 404 "Note not found", db)
  /\ toggleFavorite db owner (note_id n) now
     = (Failure 404 "Note not found", db)
  /\ duplicateNote db owner (note_id n) now
     = (Failure 404 "Note not found", db)
  /\ generateShareLink db owner (note_id n) expiresAt bytes url now
     = (Failure 404 "Note not found", db)
  /\ createReminder db owner
       (mkCreateReminderBody (Some (note_id n)) rtitle due recurring pattern
          methods) now
     = (Failure 404 "Note not found", db).
Proof.
  intros Hnd Hin Htr.
  pose proof (trashed_not_found db owner n Hnd Hin Htr) as Hnone.
  unfold getNoteById, updateNote, archiveNote, toggleFavorite, duplicateNote,
    generateShareLink, createReminder.
  cbn [rb_noteId]. rewrite Hnone. repeat split; reflexivity.
Qed.

Lemma trashed_note_is_frozen_witness :
  getNoteById trashDb alice (note_id trashedShoppingNote) 3000%Z
  = (Failure 404 "Note not found or you do not have permission to access it",
     trashDb)
  /\ updateNote trashDb alice (note_id trashedShoppingNote)
       (newContent "x") 3000%Z
     = (Failure 404
          "Note not found or you do not have permission to update it",
        trashDb)
  /\ archiveNote trashDb alice (note_id trashedShoppingNote) 3000%Z
     = (Failure 404 "Note not found", trashDb)
  /\ toggleFavorite trashDb alice (note_id trashedShoppingNote) 3000%Z
     = (Failure 404 "Note not found", trashDb)
  /\ duplicateNote trashDb alice (note_id trashedShoppingNote) 3000%Z
     = (Failure 404 "Note not found", trashDb)
  /\ generateShareLink trashDb alice (note_id trashedShoppingNote) None
       sampleBytes None 3000%Z
     = (Failure 404 "Note not found", trashDb)
  /\ createReminder trashDb alice
       (mkCreateReminderBody (Some (note_id trashedShoppingNote)) None
          86400000%Z None None None) 3000%Z
     = (Failure 404 "Note not found", trashDb).
Proof.
  apply (trashed_note_is_frozen trashDb alice trashedShoppingNote 3000%Z
           (newContent "x") None sampleBytes None None 86400000%Z None None
           None).
  - simpl. repeat constructor. simpl. tauto.
  - simpl. left. reflexivity.
  - reflexivity.
Defined.

(** ** Duplicates *)

(** X9. The copy that [duplicateNote] creates carries the title with
    " (Copy)" appended and the content, color, tags, folder and content type
    of the original.  It starts unpinned, not favorite, not archived, with no
    views, under a fresh id, with counts computed from its content; it is
    appended to the collection and the original is left as it is. *)
Theorem duplicateNote_copy (db db' : Db) (owner noteId : ObjectId) (now : Date)
  (code : nat) (msg : string) (d : Note) :
  duplicateNote db owner noteId now = (Success code msg d, db') ->
  exists o,
    Note_findOne db (byIdUserTrashed noteId owner false) = Some o
    /\ title d = JS.trim (title o ++ " (Copy)")
    /\ content d = JS.trim (content o)
    /\ (color d, tags d, folder d, contentType d)
       = (color o, tags o, folder o, contentType o)
    /\ user d = owner
    /\ (isPinned d, isFavorite d, isArchived d, isTrashed d)
       = (false, false, false, false)
    /\ viewCount d = 0
    /\ note_id d = db_nextId db
    /\ wordCount d = tokenCount (JS.trim (content o))
    /\ characterCount d = String.length (content d)
    /\ db_notes db' = (db_notes db ++ [d])%list.
Proof.
  unfold duplicateNote.
  destruct (Note_findOne db _) as [o|]; [|discriminate].
  unfold Note_create. destruct (validateNote _); [|discriminate].
  intros H; injection H as _ _ <- <-. exists o.
  cbn [preSave title content color tags folder contentType user isPinned
       isFavorite isArchived isTrashed viewCount note_id wordCount
       characterCount set_wordCount set_characterCount db_notes].
  rewrite countWords_tokenCount, trim_idem.
  repeat split; reflexivity.
Qed.

Lemma duplicateNote_copy_witness :
  exists o,
    Note_findOne shoppingDb (byIdUserTrashed 1 alice false) = Some o
    /\ title shoppingCopy = JS.trim (title o ++ " (Copy)")
    /\ content shoppingCopy = JS.trim (content o)
    /\ (color shoppingCopy, tags shoppingCopy, folder shoppingCopy,
        contentType shoppingCopy)
       = (color o, tags o, folder o, contentType o)
    /\ user shoppingCopy = alice
    /\ (isPinned shoppingCopy, isFavorite shoppingCopy,
        isArchived shoppingCopy, isTrashed shoppingCopy)
       = (false, false, false, false)
    /\ viewCount shoppingCopy = 0
    /\ note_id shoppingCopy = db_nextId shoppingDb
    /\ wordCount shoppingCopy = tokenCount (JS.trim (content o))
    /\ characterCount shoppingCopy = String.length (content shoppingCopy)
    /\ db_notes (mkDb [shoppingNote; shoppingCopy] [] [] [] [] 3)
       = (db_notes shoppingDb ++ [shoppingCopy])%list.
Proof.
  apply (duplicateNote_copy shoppingDb
           (mkDb [shoppingNote; shoppingCopy] [] [] [] [] 3) alice 1 3000%Z
           201 "Note duplicated successfully" shoppingCopy).
  reflexivity.
Defined.

Lemma length_append (a b : string) :
  String.length (a ++ b) = String.length a + String.length b.
Proof. induction a as [|c a IH]; cbn; [reflexivity | now rewrite IH]. Qed.

Lemma trimEnd_app_fixed (a b : string) :
  JS.trimEnd b = b -> JS.isEmpty b = false ->
  JS.trimEnd (a ++ b) = (a ++ b)%string.
Proof.
  intros Hb Hne. induction a as [|c a IH]; [exact Hb|].
  cbn [append JS.trimEnd]. rewrite IH.
  destruct (a ++ b)%string eqn:E.
  - destruct a; cbn in E; [subst b; discriminate | discriminate].
  - cbn [JS.isEmpty]. rewrite andb_false_r. reflexivity.
Qed.

Lemma trim_fixed_clean (t : string) : JS.trim t = t -> startsClean t = true.
Proof.
  intros E. rewrite <- E. unfold JS.trim.
  apply trimEnd_clean, trimStart_clean.
Qed.

Lemma trim_with_copy (t : string) :
  JS.trim t = t -> JS.isEmpty t = false ->
  JS.trim (t ++ " (Copy)") = (t ++ " (Copy)")%string.
Proof.
  intros E Hne. unfold JS.trim.
  assert (Hs : JS.trimStart (t ++ " (Copy)") = (t ++ " (Copy)")%string).
  { apply trimStart_of_clean. pose proof (trim_fixed_clean t E) as Hc.
    destruct t; [discriminate | exact Hc]. }
  rewrite Hs. apply trimEnd_app_fixed; reflexivity.
Qed.

(** X10. A note whose (trimmed) title is longer than 193 code units cannot
    be duplicated: the title of the copy would pass the bound of 200, the
    validation error is not told apart, and the answer is the server error
    500; nothing is created. *)
Theorem duplicateNote_long_title (db : Db) (owner noteId : ObjectId)
  (now : Date) (o : Note) :
  Note_findOne db (byIdUserTrashed noteId owner false) = Some o ->
  JS.trim (title o) = title o ->
  193 < String.length (title o) ->
  duplicateNote db owner noteId now
  = (Failure 500 "Server error duplicating note", db).
Proof.
  intros Hfind Htrim Hlen. unfold duplicateNote. rewrite Hfind.
  unfold Note_create, validateNote. cbn [title].
  assert (Hne : JS.isEmpty (title o) = false).
  { destruct (title o); [cbn in Hlen; lia | reflexivity]. }
  rewrite (trim_with_copy (title o) Htrim Hne).
  unfold validateTitle.
  assert (Hl : String.length (title o ++ " (Copy)")
               = String.length (title o) + 7).
  { rewrite length_append. reflexivity. }
  destruct (title o ++ " (Copy)")%string eqn:E.
  { cbn in Hl. lia. }
  cbn [JS.isEmpty]. rewrite Hl.
  destruct (Nat.ltb_spec (String.length (title o) + 7) 1); [lia|].
  destruct (Nat.ltb_spec 200 (String.length (title o) + 7)); [|lia].
  reflexivity.
Qed.

Lemma duplicateNote_long_title_witness :
  duplicateNote longTitleDb alice 1 3000%Z
  = (Failure 500 "Server error duplicating note", longTitleDb).
Proof.
  apply (duplicateNote_long_title longTitleDb alice 1 3000%Z longTitleNote).
  - reflexivity.
  - reflexivity.
  - vm_compute. repeat constructor.
Defined.

(** ** Archive *)

(** X11. [archiveNote] on a note of the caller that is not trashed answers
    "Note archived" and never unarchives: afterwards the note is archived, it
    is in the archive view and on no page of the default list.  On a note
    that is archived already it changes nothing. *)
Theorem archiveNote_moves_to_archive (db : Db) (owner noteId : ObjectId)
  (now : Date) (q : NotesQuery) (n : Note) :
  Note_findOne db (byIdUserTrashed noteId owner false) = Some n ->
  validateTitle (title n) = None ->
  validateContent (content n) = None ->
  exists n' db',
    archiveNote db owner noteId now = (Success 200 "Note archived" n', db')
    /\ isArchived n' = true
    /\ In n' (listed (getArchivedNotes db' owner))
    /\ ~ In n' (listedPage (getNotes db' owner q))
    /\ (isArchived n = true -> db' = db /\ n' = n).
Proof.
  intros Hfind Ht Hc.
  pose proof (byId_found db (byIdUserTrashed noteId owner false) noteId owner
                n eq_refl eq_refl Hfind) as (Hin & Hid & Hu).
  assert (Htr : isTrashed n = false).
  { apply find_some in Hfind as [_ Hm].
    apply matchesNote_core in Hm as (_ & Hm & _). cbn in Hm.
    apply Bool.eqb_prop in Hm. exact Hm. }
  unfold archiveNote. rewrite Hfind.
  destruct (Note_save db n (archive n) now) as [|[n' db']] eqn:Hsave.
  { rewrite (Note_save_flags db n (archive n) now Ht Hc) in Hsave;
      try reflexivity.
    destruct (Note_eq_dec (archive n) n); discriminate. }
  pose proof (Note_save_stored db db' n (archive n) n' now Hin eq_refl Hsave)
    as (Hin' & Htr' & Har' & Hu' & _).
  cbn in Htr', Har', Hu'. exists n', db'. rewrite Har'.
  split; [reflexivity|]. split; [reflexivity|]. split; [|split].
  - cbn [listed getArchivedNotes]. unfold findArchived. apply sortNotes_In.
    unfold Note_find. apply filter_In. split; [exact Hin'|].
    unfold matchesNote. cbn. rewrite Hu', Hu, Htr', Htr, Har', Nat.eqb_refl.
    reflexivity.
  - intros H. apply getNotes_listed in H as (_ & _ & _ & H). congruence.
  - intros Har.
    rewrite (Note_save_flags db n (archive n) now Ht Hc) in Hsave;
      try reflexivity.
    assert (E : archive n = n).
    { destruct n. cbn in *. subst. reflexivity. }
    destruct (Note_eq_dec (archive n) n); [|contradiction].
    injection Hsave as <- <-. auto.
Qed.

Lemma archiveNote_moves_to_archive_witness :
  exists n' db',
    archiveNote shoppingDb alice 1 1500%Z
    = (Success 200 "Note archived" n', db')
    /\ isArchived n' = true
    /\ In n' (listed (getArchivedNotes db' alice))
    /\ ~ In n' (listedPage (getNotes db' alice noQuery))
    /\ (isArchived shoppingNote = true -> db' = shoppingDb /\ n' = shoppingNote).
Proof.
  apply (archiveNote_moves_to_archive shoppingDb alice 1 1500%Z noQuery
           shoppingNote); reflexivity.
Defined.

(** ** Order and size of the pages *)

Lemma compareNotes_pinned (rest : sortSpec) (x y : Note) :
  compareNotes (("isPinned", true) :: rest) x y
  = match isPinned x, isPinned y with
    | true, false => Lt
    | false, true => Gt
    | _, _ => compareNotes rest x y
    end.
Proof.
  cbn [compareNotes].
  change (fieldKey "isPinned" x) with (Some (KBool (isPinned x))).
  change (fieldKey "isPinned" y) with (Some (KBool (isPinned y))).
  destruct (isPinned x), (isPinned y); reflexivity.
Qed.

Lemma insertNote_pinnedFirst (rest : sortSpec) (x : Note) (l : list Note) :
  pinnedFirst l -> pinnedFirst (insertNote (("isPinned", true) :: rest) x l).
Proof.
  induction l as [|y l IH]; intros Hl.
  - cbn. split; [intros _; constructor | exact I].
  - destruct Hl as [Hy Hl]. cbn [insertNote].
    rewrite compareNotes_pinned.
    assert (Hfront : (isPinned x = false -> isPinned y = false) ->
                     pinnedFirst (x :: y :: l)).
    { intros H. cbn [pinnedFirst]. split; [|split; assumption].
      intros Px. constructor; auto. }
    assert (Hback : (isPinned y = false -> isPinned x = false) ->
                    pinnedFirst
                      (y :: insertNote (("isPinned", true) :: rest) x l)).
    { intros H. split; [|apply IH, Hl].
      intros Py. apply Forall_forall. intros z Hz.
      apply insertNote_In in Hz as [->|Hz]; [auto|].
      specialize (Hy Py). rewrite Forall_forall in Hy. auto. }
    destruct (isPinned x), (isPinned y).
    + destruct (compareNotes rest x y); [apply Hfront | apply Hfront
                                        | apply Hback]; auto.
    + apply Hfront. discriminate.
    + apply Hback. discriminate.
    + destruct (compareNotes rest x y); [apply Hfront | apply Hfront
                                        | apply Hback]; auto.
Qed.

Lemma sortNotes_pinnedFirst (rest : sortSpec) (l : list Note) :
  pinnedFirst (sortNotes (("isPinned", true) :: rest) l).
Proof.
  unfold sortNotes. induction l as [|x l IH]; [exact I|].
  cbn [fold_right]. apply insertNote_pinnedFirst, IH.
Qed.

Lemma pinnedFirst_tail (l : list Note) (x : Note) :
  pinnedFirst (x :: l) -> pinnedFirst l.
Proof. intros [_ H]. exact H. Qed.

Lemma skipn_pinnedFirst (k : nat) (l : list Note) :
  pinnedFirst l -> pinnedFirst (skipn k l).
Proof.
  revert l. induction k as [|k IH]; intros [|x l] H; cbn [skipn]; auto.
  apply IH. exact (pinnedFirst_tail l x H).
Qed.

Lemma firstn_pinnedFirst (k : nat) (l : list Note) :
  pinnedFirst l -> pinnedFirst (firstn k l).
Proof.
  revert l. induction k as [|k IH]; intros [|x l] H; cbn [firstn];
    try exact I.
  destruct H as [Hx Hl]. split; [|apply IH, Hl].
  intros Px. specialize (Hx Px). apply Forall_forall. intros z Hz.
  rewrite Forall_forall in Hx. apply Hx. eapply firstn_subset, Hz.
Qed.

Lemma skipLimit_pinnedFirst (skip : option Z) (limit : Z) (l r : list Note) :
  pinnedFirst l -> skipLimit skip limit l = Some r -> pinnedFirst r.
Proof.
  intros Hl. unfold skipLimit. destruct skip as [k|]; [|discriminate].
  destruct (k <? 0)%Z; [discriminate|].
  intros H; injection H as <-.
  destruct (limit =? 0)%Z.
  - apply skipn_pinnedFirst, Hl.
  - apply firstn_pinnedFirst, skipn_pinnedFirst, Hl.
Qed.

(** X12. On every page of [getNotes] the pinned notes come before the
    unpinned ones, whatever the sort field and direction are, unless the
    request sorts by [isPinned] itself; the same holds for every search
    result and for the pages by tag and by folder. *)
Theorem pinned_notes_come_first (db : Db) (owner : ObjectId) (q : NotesQuery)
  (sq : SearchQuery) (tagId folderId : ObjectId) (page limit : option string) :
  qn_sortBy q <> Some "isPinned" ->
  pinnedFirst (listedPage (getNotes db owner q))
  /\ pinnedFirst (listed (searchNotes db owner sq))
  /\ pinnedFirst (listedPaged (getNotesByTag db owner tagId page limit))
  /\ pinnedFirst (listedPaged (getNotesInFolder db owner folderId page limit)).
Proof.
  intros Hsort.
  assert (Hspec : exists rest,
    notesSort (match qn_sortBy q with Some s => s | None => "updatedAt" end)
      (match qn_sortOrder q with Some s => s | None => "desc" end)
    = ("isPinned", true) :: rest).
  { unfold notesSort. destruct (qn_sortBy q) as [s|].
    - destruct (String.eqb_spec s "isPinned") as [->|_]; [congruence|].
      eexists; reflexivity.
    - eexists; reflexivity. }
  destruct Hspec as [rest Hspec].
  assert (Hpaged : forall f, pinnedFirst (listedPaged (pagedNotes db f page limit))).
  { intros f. unfold pagedNotes.
    destruct (skipLimit _ _ _) eqn:Hr; [|exact I].
    cbn. eapply skipLimit_pinnedFirst; [|exact Hr].
    apply sortNotes_pinnedFirst. }
  split; [|split; [|split]].
  - unfold getNotes. rewrite Hspec.
    destruct (JS.parseInt10 _) as [p|]; [|exact I].
    destruct (JS.parseInt10 _) as [l|]; [|exact I].
    destruct (_ <? 0)%Z; [exact I|].
    destruct (qn_search q) as [[|c s]|];
      try destruct (Regex.compile _ _); try exact I;
      (destruct (skipLimit _ _ _) eqn:Hr; [|exact I]);
      cbn; (eapply skipLimit_pinnedFirst; [|exact Hr]);
      apply sortNotes_pinnedFirst.
  - unfold searchNotes. destruct (sq_q sq); [|exact I].
    destruct (_ || _); [exact I|].
    destruct (Regex.compile _ _); try exact I.
    cbn. apply sortNotes_pinnedFirst.
  - unfold getNotesByTag. destruct (Tag_findOne _ _ _); [apply Hpaged | exact I].
  - unfold getNotesInFolder.
    destruct (Folder_findOne _ _ _); [apply Hpaged | exact I].
Qed.

Lemma pinned_notes_come_first_witness :
  pinnedFirst (listedPage (getNotes twoNotesDb alice noQuery))
  /\ pinnedFirst (listed (searchNotes twoNotesDb alice shopSearch))
  /\ pinnedFirst (listedPaged (getNotesByTag twoNotesDb alice 1 None None))
  /\ pinnedFirst (listedPaged (getNotesInFolder twoNotesDb alice 1 None None)).
Proof.
  apply (pinned_notes_come_first twoNotesDb alice noQuery shopSearch 1 1 None
           None).
  simpl. discriminate.
Defined.

Example getNotes_pinned_then_recent :
  listedPage (getNotes twoNotesDb alice noQuery)
  = [pinnedShoppingNote; shoppingNote].
Proof. reflexivity. Qed.






(** ** Isolation between users *)

Lemma pagedNotes_listed (db : Db) (f : NoteFilter) (owner : ObjectId)
  (page limit : option string) (n : Note) :
  f_user f = Some owner -> f_isTrashed f = Some false ->
  f_isArchived f = Some false ->
  In n (listedPaged (pagedNotes db f page limit)) ->
  In n (db_notes db) /\ user n = owner
  /\ isTrashed n = false /\ isArchived n = false.
Proof.
  intros Hu Ht Ha. unfold pagedNotes.
  destruct (skipLimit _ _ _) eqn:Hr; [|cbn; tauto].
  cbn. intros Hin. apply (skipLimit_subset _ _ _ _ _ Hr) in Hin.
  apply sortNotes_In in Hin.
  apply (Note_find_flags db f owner false false n Hu Ht Ha Hin).
Qed.

(** X14. No list view shows a note of another user: every note in the
    default list, in a search result, in the archive view, in the trash view
    and on the pages by tag and by folder is a stored note of the caller. *)
Theorem list_views_show_own_notes_only (db : Db) (owner : ObjectId)
  (q : NotesQuery) (sq : SearchQuery) (tagId folderId : ObjectId)
  (page limit : option string) (n : Note) :
  In n (listedPage (getNotes db owner q))
  \/ In n (listed (searchNotes db owner sq))
  \/ In n (listed (getArchivedNotes db owner))
  \/ In n (listed (getTrashedNotes db owner))
  \/ In n (listedPaged (getNotesByTag db owner tagId page limit))
  \/ In n (listedPaged (getNotesInFolder db owner folderId page limit)) ->
  In n (db_notes db) /\ user n = owner.
Proof.
  intros [H|[H|[H|[H|[H|H]]]]].
  - apply getNotes_listed in H. tauto.
  - apply searchNotes_listed in H. tauto.
  - apply getArchivedNotes_listed in H. tauto.
  - apply getTrashedNotes_listed in H. tauto.
  - unfold getNotesByTag in H. destruct (Tag_findOne _ _ _); [|contradiction].
    apply (pagedNotes_listed db _ owner) in H; try reflexivity. tauto.
  - unfold getNotesInFolder in H.
    destruct (Folder_findOne _ _ _); [|contradiction].
    apply (pagedNotes_listed db _ owner) in H; try reflexivity. tauto.
Qed.

Lemma list_views_show_own_notes_only_witness :
  In shoppingNote (db_notes shoppingDb) /\ user shoppingNote = alice.
Proof.
  apply (list_views_show_own_notes_only shoppingDb alice noQuery shopSearch 1
           1 None None shoppingNote).
  left. simpl. left. reflexivity.
Defined.

Lemma replaceNote_others (owner : ObjectId) (ns : list Note) (n n' : Note) :
  NoDup (map note_id ns) -> In n ns -> user n = owner ->
  note_id n' = note_id n -> user n' = owner ->
  filter (fun m => negb (user m =? owner)) (replaceNote ns n')
  = filter (fun m => negb (user m =? owner)) ns.
Proof.
  intros Hnd Hin Hu Hid Hu'. induction ns as [|x ns IH]; [reflexivity|].
  cbn [map] in Hnd. inversion Hnd as [|? ? Hnot Hnd']; subst.
  cbn [replaceNote].
  destruct (Nat.eqb_spec (note_id x) (note_id n')) as [E|E].
  - assert (x = n).
    { apply (unique_by_id (x :: ns)); auto; [left; reflexivity | congruence]. }
    subst x. cbn [filter]. rewrite Hu', Nat.eqb_refl. cbn [negb]. reflexivity.
  - destruct Hin as [->|Hin]; [congruence|].
    cbn [filter]. rewrite (IH Hnd' Hin). reflexivity.
Qed.

Lemma removeNote_filter (ns : list Note) (i : ObjectId) :
  NoDup (map note_id ns) ->
  removeNote ns i = filter (fun n => negb (note_id n =? i)) ns.
Proof.
  induction ns as [|x ns IH]; [reflexivity|]. cbn [map]. intros Hnd.
  inversion Hnd as [|? ? Hnot Hnd']; subst. cbn [removeNote filter].
  destruct (Nat.eqb_spec (note_id x) i) as [E|E]; cbn [negb].
  - symmetry. apply forallb_filter_id. apply forallb_forall. intros m Hm.
    apply negb_true_iff, Nat.eqb_neq. intros E'. apply Hnot.
    rewrite E, <- E'. apply in_map, Hm.
  - rewrite (IH Hnd'). reflexivity.
Qed.

Lemma filter_others_removed (owner : ObjectId) (p : Note -> bool)
  (ns : list Note) :
  (forall n, In n ns -> p n = true -> user n = owner) ->
  filter (fun m => negb (user m =? owner)) (filter (fun n => negb (p n)) ns)
  = filter (fun m => negb (user m =? owner)) ns.
Proof.
  induction ns as [|x ns IH]; intros Hp; [reflexivity|]. cbn [filter].
  assert (IH' := IH (fun n Hn => Hp n (or_intror Hn))).
  destruct (p x) eqn:Px; cbn [negb filter].
  - rewrite (Hp x (or_introl eq_refl) Px), Nat.eqb_refl. cbn [negb]. exact IH'.
  - rewrite IH'. reflexivity.
Qed.

(** An action of [owner] leaves the notes of everybody else as they are. *)
Lemma noteStep_others (owner : ObjectId) (db db' : Db) :
  NoDup (map note_id (db_notes db)) -> noteStep owner db db' ->
  notesOfOthers owner db' = notesOfOthers owner db.
Proof.
  intros Hnd [E _|n n' Hin Hu Hid Hu' E _|p Hp E _|n' Hu _ E _];
    unfold notesOfOthers; rewrite E.
  - reflexivity.
  - apply (replaceNote_others owner _ n n'); auto.
  - apply filter_others_removed, Hp.
  - rewrite filter_app. cbn [filter]. rewrite Hu, Nat.eqb_refl. cbn [negb].
    apply app_nil_r.
Qed.





Lemma preSave_id_user (b : bool) (n : Note) :
  note_id (preSave b n) = note_id n /\ user (preSave b n) = user n.
Proof. unfold preSave. destruct b; split; reflexivity. Qed.

Lemma Note_save_step (owner : ObjectId) (db db' : Db) (orig cur n' : Note)
  (now : Date) :
  In orig (db_notes db) -> user orig = owner ->
  note_id cur = note_id orig -> user cur = owner ->
  Note_save db orig cur now = inr (n', db') -> noteStep owner db db'.
Proof.
  intros Hin Hu Hid Hu'. unfold Note_save.
  destruct (_ ++ _)%list; [|discriminate].
  set (cur1 := preSave _ cur).
  assert (H1 : note_id cur1 = note_id cur /\ user cur1 = user cur)
    by apply preSave_id_user.
  destruct H1 as [H1 H2].
  destruct (Note_eq_dec cur1 orig); intros H; injection H as _ <-.
  - apply step_same; reflexivity.
  - apply (step_replace owner db _ orig (set_updatedAt now cur1)); auto;
      cbn; congruence.
Qed.

Lemma applyFields_id_user (u : UpdateNoteBody) (n : Note) :
  note_id (applyFields u n) = note_id n /\ user (applyFields u n) = user n.
Proof.
  unfold applyFields, applyOpt.
  destruct (ub_isFavorite u), (ub_contentType u), (ub_folder u), (ub_tags u),
    (ub_color u), (ub_isPinned u), (ub_content u), (ub_title u);
    split; reflexivity.
Qed.

Lemma findByIdAndUpdate_step (owner : ObjectId) (db db' : Db) (n : Note)
  (u : UpdateNoteBody) (now : Date) (r : option Note) :
  NoDup (map note_id (db_notes db)) -> In n (db_notes db) -> user n = owner ->
  Note_findByIdAndUpdate db (note_id n) u now = inr (r, db') ->
  noteStep owner db db'.
Proof.
  intros Hnd Hin Hu. unfold Note_findByIdAndUpdate.
  destruct (_ ++ _)%list; [|discriminate].
  destruct (Note_findOne db _) as [n0|] eqn:Hf; intros H; injection H as _ <-.
  - apply find_some in Hf as [Hin0 Hm0].
    assert (n0 = n).
    { apply (unique_by_id (db_notes db)); auto.
      apply (matches_id _ n0 (note_id n) Hm0). reflexivity. }
    subst n0. destruct (applyFields_id_user u n) as [Hid' Hu'].
    apply (step_replace owner db _ n (set_updatedAt now (applyFields u n)));
      auto; cbn; congruence.
  - apply step_same; reflexivity.
Qed.

Lemma Note_create_step (db db' : Db) (t c : string) (owner : ObjectId)
  (p : bool) (col : string) (tg : list ObjectId) (fo : option ObjectId)
  (ct : string) (now : Date) (n : Note) :
  Note_create db t c owner p col tg fo ct now = inr (n, db') ->
  noteStep owner db db'.
Proof.
  unfold Note_create. destruct (validateNote _); [|discriminate].
  intros H; injection H as <- <-.
  eapply step_add. 3: reflexivity. all: reflexivity.
Qed.

(** Each note action of [owner] is such a step. *)
Lemma note_actions_are_steps (db : Db) (owner noteId : ObjectId)
  (cbody : CreateNoteBody) (ubody : UpdateNoteBody)
  (permanent : option string) (now : Date) :
  NoDup (map note_id (db_notes db)) ->
  Forall (noteStep owner db)
    (afterNoteActions db owner noteId cbody ubody permanent now).
Proof.
  intros Hnd.
  assert (Hsame : noteStep owner db db) by (apply step_same; reflexivity).
  assert (Hfound : forall f n, f_id f = Some noteId -> f_user f = Some owner ->
            Note_findOne db f = Some n ->
            In n (db_notes db) /\ note_id n = noteId /\ user n = owner).
  { intros f n Hi Hu H. apply (byId_found db f noteId owner n Hi Hu H). }
  assert (Hsave : forall f n cur, Note_findOne db f = Some n ->
            f_id f = Some noteId -> f_user f = Some owner ->
            note_id cur = note_id n -> user cur = user n ->
            forall A (k : Note -> Response A) (e : Response A),
            noteStep owner db
              (snd (match Note_save db n cur now with
                    | inr (n', db') => (k n', db')
                    | inl _ => (e, db)
                    end))).
  { intros f n cur H Hi Hu Hid Hus A k e.
    destruct (Hfound f n Hi Hu H) as (Hin & _ & Hown).
    destruct (Note_save db n cur now) as [|[n' db']] eqn:Hs; [exact Hsame|].
    cbn [snd]. apply (Note_save_step owner db db' n cur n' now); auto.
    congruence. }
  assert (Hupd : forall f n u, Note_findOne db f = Some n ->
            f_id f = Some noteId -> f_user f = Some owner ->
            forall r db', Note_findByIdAndUpdate db noteId u now = inr (r, db') ->
            noteStep owner db db').
  { intros f n u H Hi Hu r db' Hr.
    destruct (Hfound f n Hi Hu H) as (Hin & Hid & Hown). subst noteId.
    apply (findByIdAndUpdate_step owner db db' n u now r); auto. }
  unfold afterNoteActions.
  repeat match goal with
         | |- Forall _ (_ :: _) => apply Forall_cons
         | |- Forall _ [] => apply Forall_nil
         end.
  - unfold createNote.
    destruct (cb_title cbody); [|exact Hsame].
    destruct (cb_content cbody); [|exact Hsame].
    destruct (_ || _); [exact Hsame|].
    destruct (tagsRejected _ _ _); [exact Hsame|].
    destruct (match cb_folder cbody with Some _ => _ | None => _ end);
      [exact Hsame|].
    destruct (Note_create _ _ _ _ _ _ _ _ _ _) as [|[n d]] eqn:Hc;
      [exact Hsame|].
    cbn [snd]. eapply Note_create_step, Hc.
  - unfold getNoteById.
    destruct (Note_findOne db _) as [n|] eqn:Hf; [|exact Hsame].
    apply (Hsave _ n _ Hf eq_refl eq_refl); reflexivity.
  - unfold updateNote.
    destruct (Note_findOne db _) as [n|] eqn:Hf; [|exact Hsame].
    destruct (tagsRejected _ _ _); [exact Hsame|].
    destruct (match ub_folder ubody with Some (Some _) => _ | _ => _ end);
      [exact Hsame|].
    destruct (noFields _); [exact Hsame|].
    destruct (Note_findByIdAndUpdate _ _ _ _) as [|[[r|] d]] eqn:Hu;
      try exact Hsame.
    cbn [snd]. apply (Hupd _ n _ Hf eq_refl eq_refl _ _ Hu).
  - unfold deleteNote.
    destruct (Note_findOne db _) as [n|] eqn:Hf; [|exact Hsame].
    destruct (match permanent with Some _ => _ | None => _ end).
    + cbn [snd].
      apply (step_remove owner db _ (fun m => note_id m =? noteId)).
      * intros m Hm Hid. apply Nat.eqb_eq in Hid.
        destruct (Hfound (byIdAndUser noteId owner) n eq_refl eq_refl Hf)
          as (Hin & Hid' & Hown).
        assert (m = n) by (apply (unique_by_id (db_notes db)); auto;
                           congruence).
        congruence.
      * cbn. apply removeNote_filter, Hnd.
      * reflexivity.
    + apply (Hsave _ n _ Hf eq_refl eq_refl); reflexivity.
  - unfold togglePinNote.
    destruct (Note_findOne db _) as [n|] eqn:Hf; [|exact Hsame].
    destruct (Note_findByIdAndUpdate _ _ _ _) as [|[[r|] d]] eqn:Hu;
      try exact Hsame.
    cbn [snd]. apply (Hupd _ n _ Hf eq_refl eq_refl _ _ Hu).
  - unfold restoreNote.
    destruct (Note_findOne db _) as [n|] eqn:Hf; [|exact Hsame].
    apply (Hsave _ n _ Hf eq_refl eq_refl); reflexivity.
  - cbn [snd emptyTrash].
    apply (step_remove owner db _ (inTrashOf owner)); try reflexivity.
    intros m _ Hm. unfold inTrashOf in Hm.
    apply andb_true_iff in Hm as [Hm _]. apply Nat.eqb_eq, Hm.
  - unfold archiveNote.
    destruct (Note_findOne db _) as [n|] eqn:Hf; [|exact Hsame].
    apply (Hsave _ n _ Hf eq_refl eq_refl); reflexivity.
  - unfold toggleFavorite.
    destruct (Note_findOne db _) as [n|] eqn:Hf; [|exact Hsame].
    destruct (Note_findByIdAndUpdate _ _ _ _) as [|[[r|] d]] eqn:Hu;
      try exact Hsame.
    cbn [snd]. apply (Hupd _ n _ Hf eq_refl eq_refl _ _ Hu).
  - unfold duplicateNote.
    destruct (Note_findOne db _) as [n|] eqn:Hf; [|exact Hsame].
    destruct (Note_create _ _ _ _ _ _ _ _ _ _) as [|[m d]] eqn:Hc;
      [exact Hsame|].
    cbn [snd]. eapply Note_create_step, Hc.
Qed.

(** X15. Whatever a user does to a note by its id (create, read, update,
    soft or permanent delete, pin, restore, archive, favorite, duplicate, or
    emptying the trash), the notes of every other user stay exactly as they
    are, also when the id is that of somebody else's note. *)
Theorem note_actions_leave_others_alone (db db' : Db) (owner noteId : ObjectId)
  (cbody : CreateNoteBody) (ubody : UpdateNoteBody)
  (permanent : option string) (now : Date) :
  NoDup (map note_id (db_notes db)) ->
  In db' (afterNoteActions db owner noteId cbody ubody permanent now) ->
  notesOfOthers owner db' = notesOfOthers owner db.
Proof.
  intros Hnd Hin.
  pose proof (note_actions_are_steps db owner noteId cbody ubody permanent now
                Hnd) as H.
  rewrite Forall_forall in H. apply noteStep_others; auto.
Qed.

Lemma note_actions_leave_others_alone_witness :
  notesOfOthers alice
    (snd (deleteNote sharedHouseDb alice 2 (Some "true") 3000%Z))
  = notesOfOthers alice sharedHouseDb.
Proof.
  apply (note_actions_leave_others_alone sharedHouseDb _ alice 2 shoppingBody
           (newContent "x") (Some "true") 3000%Z).
  - simpl. repeat constructor; simpl; intuition discriminate.
  - simpl. right. right. right. left. reflexivity.
Defined.



(** ** Tags and folders *)

Lemma Tag_findOne_found (db : Db) (tagId owner : ObjectId) (tag : Tag) :
  Tag_findOne db tagId owner = Some tag ->
  In tag (db_tags db) /\ tag_id tag = tagId /\ tag_user tag = owner.
Proof.
  intros H. apply find_some in H as [Hin Hm].
  apply andb_true_iff in Hm as [H1 H2].
  apply Nat.eqb_eq in H1, H2. auto.
Qed.

Lemma pullTag_spec (owner tagId : ObjectId) (now : Date) (n : Note) :
  note_id (pullTag owner tagId now n) = note_id n
  /\ user (pullTag owner tagId now n) = user n
  /\ title (pullTag owner tagId now n) = title n
  /\ content (pullTag owner tagId now n) = content n
  /\ (user n = owner -> ~ In tagId (tags (pullTag owner tagId now n)))
  /\ (forall t, t <> tagId ->
        (In t (tags (pullTag owner tagId now n)) <-> In t (tags n)))
  /\ (user n <> owner \/ ~ In tagId (tags n) -> pullTag owner tagId now n = n).
Proof.
  assert (Hex : existsb (Nat.eqb tagId) (tags n) = true <-> In tagId (tags n)).
  { rewrite existsb_exists. split.
    - intros (x & Hx & E). apply Nat.eqb_eq in E. subst x. exact Hx.
    - intros H. exists tagId. split; [exact H | apply Nat.eqb_refl]. }
  unfold pullTag.
  destruct (Nat.eqb_spec (user n) owner) as [Hu|Hu];
    destruct (existsb (Nat.eqb tagId) (tags n)) eqn:Ex; cbn [andb];
    repeat match goal with |- _ /\ _ => split end;
    try reflexivity; try tauto.
  - intros _ H. cbn in H. apply filter_In in H as [_ H].
    rewrite Nat.eqb_refl in H. discriminate.
  - intros t Ht. cbn. rewrite filter_In, negb_true_iff, Nat.eqb_neq. tauto.
  - intros _ H. apply Hex in H. discriminate.
Qed.

(** X17. Deleting a tag pulls it out of every note of the caller that holds
    it, trashed and archived notes included, so that no note of the caller
    refers to it afterwards.  No note is removed; each keeps its id, title,
    content and other tags; a note of another user, or one that did not hold
    the tag, stays exactly as it is. *)
Theorem deleteTag_leaves_no_reference (db : Db) (owner tagId : ObjectId)
  (now : Date) (tag : Tag) :
  Tag_findOne db tagId owner = Some tag ->
  exists db',
    deleteTag db owner tagId now
    = (Success 200 "Tag deleted successfully" tt, db')
    /\ (forall n', In n' (db_notes db') -> user n' = owner ->
                   ~ In tagId (tags n'))
    /\ List.length (db_notes db') = List.length (db_notes db)
    /\ (forall n, In n (db_notes db) ->
          exists n', In n' (db_notes db')
            /\ note_id n' = note_id n /\ title n' = title n
            /\ content n' = content n
            /\ (forall t, t <> tagId -> (In t (tags n') <-> In t (tags n)))
            /\ (user n <> owner \/ ~ In tagId (tags n) -> n' = n)).
Proof.
  intros Hfind. destruct (Tag_findOne_found db tagId owner tag Hfind)
    as (_ & Hid & _).
  unfold deleteTag. rewrite Hfind, Hid. eexists. split; [reflexivity|].
  cbn [with_tags with_notes db_notes]. split; [|split].
  - intros n' Hin Hu. apply in_map_iff in Hin as (n & <- & Hn).
    destruct (pullTag_spec owner tagId now n) as (_ & Hu' & _ & _ & H & _).
    apply H. congruence.
  - apply length_map.
  - intros n Hn. exists (pullTag owner tagId now n).
    destruct (pullTag_spec owner tagId now n)
      as (H1 & _ & H3 & H4 & _ & H6 & H7).
    split; [apply in_map, Hn|]. auto.
Qed.

Lemma deleteTag_leaves_no_reference_witness :
  exists db',
    deleteTag taggedDb alice 5 60%Z
    = (Success 200 "Tag deleted successfully" tt, db')
    /\ (forall n', In n' (db_notes db') -> user n' = alice ->
                   ~ In 5 (tags n'))
    /\ List.length (db_notes db') = List.length (db_notes taggedDb)
    /\ (forall n, In n (db_notes taggedDb) ->
          exists n', In n' (db_notes db')
            /\ note_id n' = note_id n /\ title n' = title n
            /\ content n' = content n
            /\ (forall t, t <> 5 -> (In t (tags n') <-> In t (tags n)))
            /\ (user n <> alice \/ ~ In 5 (tags n) -> n' = n)).
Proof.
  apply (deleteTag_leaves_no_reference taggedDb alice 5 60%Z workTag).
  reflexivity.
Defined.

Example deleteTag_pulls_all_occurrences :
  map tags (db_notes (snd (deleteTag taggedDb alice 5 60%Z))) = [[9]].
Proof. reflexivity. Qed.

Lemma insertSorted_In (A : Type) (cmp : A -> A -> comparison) (x a : A)
  (l : list A) :
  In a (insertSorted cmp x l) <-> a = x \/ In a l.
Proof.
  induction l as [|y l IH]; cbn [insertSorted In].
  - intuition congruence.
  - destruct (cmp x y); cbn [In]; rewrite ?IH; intuition congruence.
Qed.

Lemma sortWith_In (A : Type) (cmp : A -> A -> comparison) (a : A)
  (l : list A) :
  In a (sortWith cmp l) <-> In a l.
Proof.
  unfold sortWith. induction l as [|x l IH]; cbn [fold_right In]; [tauto|].
  rewrite insertSorted_In, IH. intuition congruence.
Qed.




Lemma Folder_findOne_found (db : Db) (folderId owner : ObjectId) (f : Folder) :
  Folder_findOne db folderId owner = Some f ->
  In f (db_folders db) /\ folder_id f = folderId /\ folder_user f = owner.
Proof.
  intros H. apply find_some in H as [Hin Hm].
  apply andb_true_iff in Hm as [H1 H2].
  apply Nat.eqb_eq in H1, H2. auto.
Qed.

Lemma optId_eqb_eq (a b : option ObjectId) : optId_eqb a b = true <-> a = b.
Proof.
  destruct a, b; cbn; rewrite ?Nat.eqb_eq; split; intros H;
    try congruence; try discriminate; reflexivity.
Qed.

Lemma moveNote_spec (owner folderId : ObjectId) (target : option ObjectId)
  (now : Date) (n : Note) :
  (user n = owner /\ folder n = Some folderId ->
   moveNote owner folderId target now n
   = set_updatedAt now (set_folder target n))
  /\ (~ (user n = owner /\ folder n = Some folderId) ->
      moveNote owner folderId target now n = n).
Proof.
  unfold moveNote.
  destruct (Nat.eqb_spec (user n) owner) as [Hu|Hu]; cbn [andb].
  - destruct (optId_eqb (folder n) (Some folderId)) eqn:E.
    + split; [reflexivity|]. apply optId_eqb_eq in E. tauto.
    + split; [|reflexivity]. intros [_ H]. apply optId_eqb_eq in H.
      congruence.
  - split; [tauto | reflexivity].
Qed.

(** X20. [deleteFolder] on a folder of the caller without subfolders moves
    every note of the caller that lies in it, trashed ones included, to the
    folder named by [moveNotesTo], or to no folder when the parameter is
    absent or 'null'; the target is taken as given.  All other notes stay as
    they are, and unless the target is the deleted folder itself no note of
    the caller refers to it afterwards. *)
Theorem deleteFolder_moves_notes (db : Db) (owner folderId : ObjectId)
  (moveNotesTo : option (option ObjectId)) (now : Date) (f : Folder) :
  Folder_findOne db folderId owner = Some f ->
  siblings db owner (Some folderId) = [] ->
  let target := match moveNotesTo with
                | Some (Some t) => Some t
                | _ => None
                end in
  exists db',
    deleteFolder db owner folderId moveNotesTo now
    = (Success 200 "Folder deleted successfully" tt, db')
    /\ db_notes db'
       = map (fun n => if (user n =? owner)
                          && optId_eqb (folder n) (Some folderId)
                       then set_updatedAt now (set_folder target n) else n)
           (db_notes db)
    /\ (forall n, In n (db_notes db) ->
          ~ (user n = owner /\ folder n = Some folderId) ->
          In n (db_notes db'))
    /\ (forall n, In n (db_notes db) -> user n = owner ->
          folder n = Some folderId ->
          In (set_updatedAt now (set_folder target n)) (db_notes db'))
    /\ (target <> Some folderId ->
        forall n', In n' (db_notes db') -> user n' = owner ->
                   folder n' <> Some folderId).
Proof.
  intros Hfind Hsub target.
  destruct (Folder_findOne_found db folderId owner f Hfind) as (_ & Hid & _).
  unfold deleteFolder. rewrite Hfind, Hid, Hsub.
  eexists. split; [reflexivity|].
  cbn [with_folders with_notes db_notes]. fold target.
  split; [reflexivity|]. split; [|split].
  - intros n Hn Hnot. apply in_map_iff. exists n. split; [|exact Hn].
    apply (moveNote_spec owner folderId target now n), Hnot.
  - intros n Hn Hu Hf. apply in_map_iff. exists n. split; [|exact Hn].
    apply (moveNote_spec owner folderId target now n). auto.
  - intros Ht n' Hin Hu. apply in_map_iff in Hin as (n & <- & Hn).
    destruct (moveNote_spec owner folderId target now n) as [Hm Hs].
    destruct (Nat.eq_dec (user n) owner) as [Eu|Eu].
    + destruct (optId_eqb (folder n) (Some folderId)) eqn:E.
      * apply optId_eqb_eq in E. rewrite (Hm (conj Eu E)). cbn. exact Ht.
      * rewrite Hs; [|intros [_ H]; apply optId_eqb_eq in H; congruence].
        intros H. apply optId_eqb_eq in H. congruence.
    + rewrite Hs in Hu; [congruence | tauto].
Qed.

Lemma deleteFolder_moves_notes_witness :
  let target := match @None (option ObjectId) with
                | Some (Some t) => Some t
                | _ => None
                end in
  exists db',
    deleteFolder taggedDb alice 6 None 80%Z
    = (Success 200 "Folder deleted successfully" tt, db')
    /\ db_notes db'
       = map (fun n => if (user n =? alice) && optId_eqb (folder n) (Some 6)
                       then set_updatedAt 80%Z (set_folder target n) else n)
           (db_notes taggedDb)
    /\ (forall n, In n (db_notes taggedDb) ->
          ~ (user n = alice /\ folder n = Some 6) -> In n (db_notes db'))
    /\ (forall n, In n (db_notes taggedDb) -> user n = alice ->
          folder n = Some 6 ->
          In (set_updatedAt 80%Z (set_folder target n)) (db_notes db'))
    /\ (target <> Some 6 ->
        forall n', In n' (db_notes db') -> user n' = alice ->
                   folder n' <> Some 6).
Proof.
  apply (deleteFolder_moves_notes taggedDb alice 6 None 80%Z inboxFolder);
    reflexivity.
Defined.

(** ** The pages by tag and by folder *)




Example getNotesByTag_negative_page :
  getNotesByTag taggedDb alice 5 (Some "-1") None
  = Failure 500 "Server error while fetching notes".
Proof. reflexivity. Qed.

Example parseIntAuto_hex : parseIntAuto "0x1F" = Some 31%Z.
Proof. reflexivity. Qed.

(** ** Reminders without a note, snoozed reminders, next dates *)

(** X21. [createReminder] never creates a reminder that is not attached to
    a note: the controller turns an absent [noteId] into [note: null], the
    schema requires [note], so the request ends with status 400 for a date
    in the past and with the server error 500 otherwise, and nothing is
    stored. *)
Theorem createReminder_without_note_fails (db : Db) (owner : ObjectId)
  (body : CreateReminderBody) (now : Date) :
  rb_noteId body = None ->
  createReminder db owner body now
  = (if (rb_reminderDate body <? now)%Z
     then Failure 400 "Reminder date must be in the future"
     else Failure 500 "Server error while creating reminder", db).
Proof.
  intros Hnote. unfold createReminder. rewrite Hnote.
  destruct (rb_reminderDate body <? now)%Z; [reflexivity|].
  unfold Reminder_create, create. cbn. reflexivity.
Qed.

Lemma createReminder_without_note_fails_witness :
  createReminder shoppingDb alice
    (mkCreateReminderBody None (Some "Call back") 9000%Z None None None)
    5000%Z
  = (if (rb_reminderDate
           (mkCreateReminderBody None (Some "Call back") 9000%Z None None
              None) <? 5000)%Z
     then Failure 400 "Reminder date must be in the future"
     else Failure 500 "Server error while creating reminder", shoppingDb).
Proof.
  apply (createReminder_without_note_fails shoppingDb alice
           (mkCreateReminderBody None (Some "Call back") 9000%Z None None
              None) 5000%Z).
  reflexivity.
Defined.






Example snoozeReminder_default :
  snoozeReminder reminderDb alice 2 None 6000%Z
  = (Success 200 "Reminder snoozed for 15 minutes"
       [ ("_id", VId 2); ("note", VId 1); ("user", VId alice);
         ("reminderDate", VDate 906000); ("isRecurring", VBool true);
         ("recurringType", VNull); ("isCompleted", VBool false);
         ("notifiedAt", VNull); ("createdAt", VDate 5000);
         ("updatedAt", VDate 6000) ],
     mkDb [shoppingNote] [] [] []
       [[ ("_id", VId 2); ("note", VId 1); ("user", VId alice);
          ("reminderDate", VDate 906000); ("isRecurring", VBool true);
          ("recurringType", VNull); ("isCompleted", VBool false);
          ("notifiedAt", VNull); ("createdAt", VDate 5000);
          ("updatedAt", VDate 6000) ]] 3).
Proof. reflexivity. Qed.




Example calculateNextDate_month_end :
  calculateNextDate 2592000000%Z "monthly" = Some 5270400000%Z.
Proof. reflexivity. Qed.

(** ** Sharing a note twice *)




(** ** Searching for a plain text *)

Lemma parseItems_plain_open (d : Regex.dialect) (s : string)
  (st : Regex.pstate) (acc : list (Regex.atom * Regex.quant)) :
  allChars isPlain s = true ->
  Regex.parseItems d s st acc
  = Regex.Compiled (Regex.mkRegex false (rev acc ++ literals s)%list false).
Proof.
  revert st acc. induction s as [|c s IH]; intros st acc Hs.
  - simpl. rewrite app_nil_r. reflexivity.
  - simpl in Hs. apply andb_true_iff in Hs as [Hc Hs].
    unfold isPlain in Hc. rewrite !andb_true_iff, !negb_true_iff in Hc.
    destruct Hc as [[Hq Ho] Hdot].
    cbn [Regex.parseItems]. rewrite Hq, Ho, Hdot.
    assert (H36 : (nat_of_ascii c =? 36) = false).
    { unfold Regex.isOtherSyntax in Ho. rewrite !orb_false_iff in Ho. tauto. }
    rewrite H36. cbn [andb].
    rewrite (IH Regex.AfterAtom ((Regex.Lit c, Regex.One) :: acc) Hs).
    cbn [rev literals]. rewrite <- app_assoc. reflexivity.
Qed.

Lemma compile_plain (d : Regex.dialect) (s : string) :
  allChars isPlain s = true ->
  Regex.compile d s = Regex.Compiled (Regex.mkRegex false (literals s) false).
Proof.
  intros Hs.
  assert (Hc : Regex.compile d s = Regex.parseItems d s Regex.NoAtom []).
  { destruct s as [|c s]; [reflexivity|].
    simpl in Hs. apply andb_true_iff in Hs as [Hc _].
    destruct c as [[] [] [] [] [] [] [] []];
      first [reflexivity | discriminate Hc]. }
  rewrite Hc. apply (parseItems_plain_open d s Regex.NoAtom [] Hs).
Qed.

Lemma matchItems_literals (q s : string) :
  Regex.matchItems (literals q) (fun _ => true) s = true
  <-> exists mid post,
        s = (mid ++ post)%string /\ foldString mid = foldString q.
Proof.
  revert s. induction q as [|p q IH]; intros s.
  - cbn. split; [|reflexivity]. intros _. exists EmptyString, s. auto.
  - cbn [literals Regex.matchItems Regex.atomMatches]. destruct s as [|c s].
    + split; [discriminate|]. intros (mid & post & Hs & Hf).
      destruct mid; [discriminate Hf | discriminate Hs].
    + rewrite andb_true_iff, Nat.eqb_eq, IH. split.
      * intros (Hc & mid & post & -> & Hf).
        exists (String c mid), post. split; [reflexivity|].
        cbn. congruence.
      * intros (mid & post & Hs & Hf).
        destruct mid as [|c' mid]; [discriminate Hf|].
        cbn in Hs, Hf. injection Hs as -> ->. injection Hf as Hc Hf.
        split; [congruence|]. exists mid, post. auto.
Qed.

Lemma anySuffix_spec (p : string -> bool) (s : string) :
  Regex.anySuffix p s = true
  <-> exists pre suf, s = (pre ++ suf)%string /\ p suf = true.
Proof.
  induction s as [|c s IH]; cbn [Regex.anySuffix].
  - rewrite orb_false_r. split.
    + intros H. exists EmptyString, EmptyString. auto.
    + intros (pre & suf & Hs & Hp).
      destruct pre; [|discriminate Hs]. cbn in Hs. subst suf. exact Hp.
  - rewrite orb_true_iff, IH. split.
    + intros [H | (pre & suf & -> & Hp)].
      * exists EmptyString, (String c s). auto.
      * exists (String c pre), suf. auto.
    + intros (pre & suf & Hs & Hp). destruct pre as [|c' pre].
      * cbn in Hs. subst suf. left. exact Hp.
      * cbn in Hs. injection Hs as -> ->. right. exists pre, suf. auto.
Qed.

Lemma test_plain (q s : string) :
  Regex.test (Regex.mkRegex false (literals q) false) s = true
  <-> exists pre mid post,
        s = (pre ++ mid ++ post)%string /\ foldString mid = foldString q.
Proof.
  unfold Regex.test. cbn [Regex.anchorStart Regex.anchorEnd Regex.items].
  rewrite anySuffix_spec. split.
  - intros (pre & suf & -> & Hm). apply matchItems_literals in Hm.
    destruct Hm as (mid & post & -> & Hf). exists pre, mid, post. auto.
  - intros (pre & mid & post & -> & Hf). exists pre, (mid ++ post)%string.
    split; [reflexivity|]. apply matchItems_literals. exists mid, post. auto.
Qed.

(** X25. For a search text without pattern characters that is not blank,
    [searchNotes] answers with exactly the notes of the caller that are
    neither trashed nor archived and whose title or content contains the
    text, letter case of the ASCII letters ignored. *)
Theorem searchNotes_plain_text (db : Db) (owner : ObjectId) (text : string) :
  allChars isPlain text = true ->
  JS.trim text <> EmptyString ->
  exists notes,
    searchNotes db owner (mkSearchQuery (Some text) None None None)
    = Success 200 noMessage notes
    /\ forall n,
         In n notes
         <-> In n (db_notes db) /\ user n = owner
             /\ isTrashed n = false /\ isArchived n = false
             /\ exists pre mid post,
                  (title n = (pre ++ mid ++ post)%string
                   \/ content n = (pre ++ mid ++ post)%string)
                  /\ foldString mid = foldString text.
Proof.
  intros Hplain Htrim. unfold searchNotes. cbn [sq_q sq_tag sq_folder sq_color].
  assert (He : JS.isEmpty text = false).
  { destruct text; [exfalso; apply Htrim; reflexivity | reflexivity]. }
  assert (Hl : (String.length (JS.trim text) =? 0) = false).
  { apply Nat.eqb_neq. destruct (JS.trim text); [congruence | discriminate]. }
  rewrite He, Hl, (compile_plain Regex.PCRE text Hplain). cbn [orb colorCond].
  eexists. split; [reflexivity|]. intros n.
  rewrite sortNotes_In. unfold Note_find. rewrite filter_In.
  unfold matchesNote.
  cbn [cond f_id f_user f_isTrashed f_isArchived f_or f_tags f_folder f_color
         f_isFavorite].
  rewrite !andb_true_r, !andb_true_iff, orb_true_iff, Nat.eqb_eq,
    !Bool.eqb_true_iff, !test_plain.
  cbn [andb]. split.
  - intros (Hin & (((_ & Hu) & Ht) & Ha) & Hm).
    repeat match goal with |- _ /\ _ => split end; try assumption.
    destruct Hm as [(pre & mid & post & Hs & Hf)
                   | (pre & mid & post & Hs & Hf)];
      exists pre, mid, post; auto.
  - intros (Hin & Hu & Ht & Ha & pre & mid & post & Hs & Hf).
    split; [exact Hin|].
    repeat match goal with |- _ /\ _ => split end;
      try assumption; try reflexivity.
    destruct Hs as [Hs | Hs]; [left | right]; exists pre, mid, post; auto.
Qed.

Lemma searchNotes_plain_text_witness :
  exists notes,
    searchNotes shoppingDb alice (mkSearchQuery (Some "MILK") None None None)
    = Success 200 noMessage notes
    /\ forall n,
         In n notes
         <-> In n (db_notes shoppingDb) /\ user n = alice
             /\ isTrashed n = false /\ isArchived n = false
             /\ exists pre mid post,
                  (title n = (pre ++ mid ++ post)%string
                   \/ content n = (pre ++ mid ++ post)%string)
                  /\ foldString mid = foldString "MILK".
Proof.
  apply (searchNotes_plain_text shoppingDb alice "MILK").
  - reflexivity.
  - discriminate.
Defined.

(** ** Tag names of one owner *)

(** X26. Whatever the duplicate check of [createTag] lets through, the
    unique index of the model catches: a tag is only ever created with a
    fresh id, for the caller, under the trimmed name, which is not empty,
    has at most 30 code units and is the name of no tag the caller already
    has; it is added to the stored tags and nothing else changes.  Every
    other answer leaves the database as it was. *)
Theorem createTag_keeps_names_unique (db db' : Db) (owner : ObjectId)
  (body : CreateTagBody) (now : Date) (r : Response Tag) :
  createTag db owner body now = (r, db') ->
  match r with
  | Success code _ tag =>
      code = 201
      /\ db_tags db' = (db_tags db ++ [tag])%list
      /\ db_notes db' = db_notes db
      /\ tag_id tag = db_nextId db
      /\ tag_user tag = owner
      /\ (exists name, tb_name body = Some name /\ tag_name tag = JS.trim name)
      /\ 1 <= String.length (tag_name tag) <= 30
      /\ (forall t, In t (db_tags db) -> tag_user t = owner ->
                    tag_name t <> tag_name tag)
  | _ => db' = db
  end.
Proof.
  unfold createTag.
  destruct (Regex.compile _ _) as [rx| |];
    [|intros H; injection H as <- <-; reflexivity ..].
  destruct (find _ (db_tags db));
    [intros H; injection H as <- <-; reflexivity|].
  unfold Tag_create.
  destruct (tb_name body) as [name|];
    [|cbn; intros H; injection H as <- <-; reflexivity].
  destruct (JS.isEmpty (JS.trim name)) eqn:He;
    [cbn; intros H; injection H as <- <-; reflexivity|].
  destruct (30 <? String.length (JS.trim name)) eqn:Hlen;
    [cbn; intros H; injection H as <- <-; reflexivity|].
  cbn [optList app].
  destruct (validateColor _);
    [cbn; intros H; injection H as <- <-; reflexivity|].
  cbn [optList]. destruct (existsb _ (db_tags db)) eqn:Hex;
    intros H; injection H as <- <-; [reflexivity|].
  cbn [db_tags db_notes with_nextId with_tags tag_id tag_user tag_name].
  repeat match goal with |- _ /\ _ => split end; try reflexivity.
  - exists name. auto.
  - destruct (JS.trim name); [discriminate He | cbn; lia].
  - apply Nat.ltb_ge in Hlen. exact Hlen.
  - intros t Hin Hu Hname.
    assert (Hfalse : existsb
              (fun t => String.eqb (tag_name t) (JS.trim name)
                        && (tag_user t =? owner)) (db_tags db) = true).
    { apply existsb_exists. exists t. split; [exact Hin|].
      rewrite Hname, String.eqb_refl, Hu, Nat.eqb_refl. reflexivity. }
    congruence.
Qed.

Lemma createTag_keeps_names_unique_witness :
  match Success 201 noMessage tagAPlus with
  | Success code _ tag =>
      code = 201
      /\ db_tags (mkDb [] [tagAPlus] [] [] [] 2)
         = (db_tags emptyDb ++ [tag])%list
      /\ db_notes (mkDb [] [tagAPlus] [] [] [] 2) = db_notes emptyDb
      /\ tag_id tag = db_nextId emptyDb
      /\ tag_user tag = alice
      /\ (exists name,
            tb_name (named "a+") = Some name /\ tag_name tag = JS.trim name)
      /\ 1 <= String.length (tag_name tag) <= 30
      /\ (forall t, In t (db_tags emptyDb) -> tag_user t = alice ->
                    tag_name t <> tag_name tag)
  | _ => mkDb [] [tagAPlus] [] [] [] 2 = emptyDb
  end.
Proof.
  apply (createTag_keeps_names_unique emptyDb (mkDb [] [tagAPlus] [] [] [] 2)
           alice (named "a+") 10%Z (Success 201 noMessage tagAPlus)).
  reflexivity.
Defined.

(** A padded name passes the check of the controller and is stopped by the
    index only: the answer is the server error, not the duplicate-name
    error. *)
Example createTag_padded_duplicate :
  createTag (mkDb [] [tagWork] [] [] [] 2) alice (named " Work ") 20%Z
  = (Failure 500 "Server error while creating tag",
     mkDb [] [tagWork] [] [] [] 2).
Proof. reflexivity. Qed.
